(** * Beisman Maps single-page client: router, session gate and form handlers

    A shallow embedding of [static/js/app.js] (class [BeismanMapApp]).

    - The fields of the application object ([currentUser], [currentPage],
      [pageHistory], [selectedMapId], [selectedEntityInfo],
      [tempEntitiesList]) form the record [App].
    - The part of the document and of the browser that the script reads
      or writes (address bar, [#page-title], [#content-area] and the
      elements created inside it) forms the record [Dom]; the markup
      assigned to [innerHTML] is kept as a tree ([Markup]) that carries
      the data the template interpolates and the values of the form
      controls.
    - Console lines, alerts, requests, [pushState] calls and assignments
      to the [innerHTML] of [#content-area] are also appended to a trace,
      so that the absence of a request or of a rendering can be stated.
    - [async] methods are resumable tasks: a task stops at each
      [await fetch(...)] and is resumed with the settled promise and with
      the world as it is at that moment.
    - Strings of the application are sequences of code units below 256;
      numbers are integers.  The texts of console lines are the bytes of
      the source file. *)

From Stdlib Require Import Bool Arith ZArith List String Ascii Lia.
From Stdlib Require Import DecimalString.
Import ListNotations.
Open Scope list_scope.
Open Scope string_scope.

Set Implicit Arguments.
Set Warnings "-register-all".

(* ================================================================= *)
(** ** Strings as the script uses them *)

Module Str.

(** [s.length] *)
Definition len (s : string) : nat := String.length s.

(** [s.startsWith(p)] *)
Definition startsWith (s p : string) : bool := String.prefix p s.

Definition is_space (c : ascii) : bool :=
  let n := nat_of_ascii c in
  (((9 <=? n) && (n <=? 13)) || (n =? 32) || (n =? 160))%nat.

Fixpoint trimStart (s : string) : string :=
  match s with
  | String c s' => if is_space c then trimStart s' else s
  | EmptyString => EmptyString
  end.

(** Removes trailing white space: a character is kept when it is not
    white space or when something is kept after it. *)
Fixpoint trimEnd (s : string) : string :=
  match s with
  | EmptyString => EmptyString
  | String c s' =>
      match trimEnd s' with
      | EmptyString => if is_space c then EmptyString else String c EmptyString
      | t => String c t
      end
  end.

(** [s.trim()] *)
Definition trim (s : string) : string := trimEnd (trimStart s).

Definition lower_char (c : ascii) : ascii :=
  let n := nat_of_ascii c in
  if (((65 <=? n) && (n <=? 90))
      || ((192 <=? n) && (n <=? 222) && negb (n =? 215)))%nat
  then ascii_of_nat (n + 32) else c.

(** [s.toLowerCase()] *)
Fixpoint toLowerCase (s : string) : string :=
  match s with
  | EmptyString => EmptyString
  | String c s' => String (lower_char c) (toLowerCase s')
  end.

Fixpoint chars (s : string) : list string :=
  match s with
  | EmptyString => []
  | String c s' => String c EmptyString :: chars s'
  end.

(** Scan for [sep] from left to right; [skip] counts the characters of a
    separator just matched that are still to be stepped over, [cur] is
    the piece being collected. *)
Fixpoint split_go (sep s : string) (skip : nat) (cur : string) : list string :=
  match s with
  | EmptyString => [cur]
  | String c s' =>
      match skip with
      | S k => split_go sep s' k cur
      | O =>
          if String.prefix sep s
          then cur :: split_go sep s' (String.length sep - 1) EmptyString
          else split_go sep s' O (cur ++ String c EmptyString)
      end
  end.

(** [s.split(sep)] *)
Definition split (s sep : string) : list string :=
  match sep with
  | EmptyString => chars s
  | _ => split_go sep s O EmptyString
  end.

(** [arr.join(sep)] on an array of strings *)
Definition join (sep : string) (l : list string) : string := String.concat sep l.

(** [String(n)] and [`${n}`] for an integer below [10^21] in absolute
    value, where every digit is printed *)
Definition of_Z (n : Z) : string := NilZero.string_of_int (Z.to_int n).
Definition of_nat (n : nat) : string := NilZero.string_of_uint (Nat.to_uint n).

End Str.

(* ================================================================= *)
(** ** JavaScript values *)

(** The values that reach the script: JSON bodies, history state, the
    arguments of the methods.  Numbers are the integers. *)
Inductive JsVal : Type :=
| JUndefined
| JNull
| JBool (b : bool)
| JNum (n : Z)
| JStr (s : string)
| JArr (items : list JsVal)
| JObj (fields : list (string * JsVal)).

Module Js.

(** ToBoolean *)
Definition truthy (v : JsVal) : bool :=
  match v with
  | JUndefined | JNull => false
  | JBool b => b
  | JNum n => negb (n =? 0)%Z
  | JStr s => negb (String.eqb s "")
  | JArr _ | JObj _ => true
  end.

(** ToString, as a template literal applies it. *)
Fixpoint toString (v : JsVal) : string :=
  match v with
  | JUndefined => "undefined"
  | JNull => "null"
  | JBool true => "true"
  | JBool false => "false"
  | JNum n => Str.of_Z n
  | JStr s => s
  | JArr items =>
      Str.join ","
        (map (fun x => match x with
                       | JUndefined | JNull => ""
                       | _ => toString x
                       end) items)
  | JObj _ => "[object Object]"
  end.

Fixpoint lookup (k : string) (fields : list (string * JsVal)) : JsVal :=
  match fields with
  | [] => JUndefined
  | (k', v) :: rest => if String.eqb k k' then v else lookup k rest
  end.

(** [a || b] *)
Definition or (a b : JsVal) : JsVal := if truthy a then a else b.

Definition nullish (v : JsVal) : bool :=
  match v with
  | JUndefined | JNull => true
  | _ => false
  end.

(** [v.k] and [v[k]] for a property name [k]: [None] where reading a
    property of [undefined] or [null] throws. *)
Definition get (v : JsVal) (k : string) : option JsVal :=
  match v with
  | JUndefined | JNull => None
  | JObj fields => Some (lookup k fields)
  | JArr items =>
      Some (if String.eqb k "length"
            then JNum (Z.of_nat (List.length items)) else JUndefined)
  | JStr s =>
      Some (if String.eqb k "length"
            then JNum (Z.of_nat (String.length s)) else JUndefined)
  | JBool _ | JNum _ => Some JUndefined
  end.

(** A property of a value already known not to be [undefined] or
    [null]. *)
Definition lookup_in (v : JsVal) (k : string) : JsVal :=
  match get v k with
  | Some x => x
  | None => JUndefined
  end.

End Js.

(* ================================================================= *)
(** ** The platform *)

(** Built-ins of the browser that the script calls and whose results it
    cannot influence.  [decodeURIComponent] is [None] where the browser
    throws a [URIError]; [encodeURIComponent] is taken on well-formed
    text, where it returns; [pathnameOf url] is the [location.pathname]
    the URL parser derives from a root-relative [url] given to
    [pushState]. *)
Class Platform : Type := {
  decodeURIComponent : string -> option string;
  encodeURIComponent : string -> string;
  pathnameOf : string -> string
}.

(** Thrown values: [error.name] and [error.message]. *)
Record Exn : Type := { exn_name : string; exn_message : string }.

Definition Error (message : string) : Exn :=
  {| exn_name := "Error"; exn_message := message |}.
Definition TypeError (message : string) : Exn :=
  {| exn_name := "TypeError"; exn_message := message |}.
Definition URIError : Exn :=
  {| exn_name := "URIError"; exn_message := "URI malformed" |}.
Definition SyntaxError : Exn :=
  {| exn_name := "SyntaxError"; exn_message := "Unexpected token in JSON" |}.

Definition exn_value (e : Exn) : JsVal :=
  JObj [("name", JStr (exn_name e)); ("message", JStr (exn_message e))].

(** [fetch(url, {method, body})]; every request is sent with
    [credentials: 'include']. *)
Record Request : Type := {
  method : string;
  url : string;
  body : option JsVal
}.

Definition GET (u : string) : Request := {| method := "GET"; url := u; body := None |}.
Definition POST (u : string) (b : option JsVal) : Request :=
  {| method := "POST"; url := u; body := b |}.
Definition PUT (u : string) (b : option JsVal) : Request :=
  {| method := "PUT"; url := u; body := b |}.

(** What the promise of [fetch] settles to; [json] is [None] when
    [response.json()] rejects. *)
Record Response : Type := {
  ok : bool;
  status : Z;
  json : option JsVal
}.

Inductive FetchResult : Type :=
| Rejected (e : Exn)
| Resolved (r : Response).

(* ================================================================= *)
(** ** The application object *)

Record User : Type := {
  username : JsVal;
  displayName : JsVal;
  isAdmin : JsVal;
  sessionId : JsVal
}.

(** The fields of [this].  [currentUser = None] is [null];
    [selectedEntityInfo = None] is [undefined] or [null];
    [tempEntitiesList = None] is [undefined] (the constructor does not
    set it). *)
Record App : Type := {
  currentUser : option User;
  currentPage : string;
  pageHistory : list string;
  selectedMapId : JsVal;
  selectedEntityInfo : option string;
  tempEntitiesList : option (list string)
}.

(** The state the constructor builds. *)
Definition constructed : App := {|
  currentUser := None;
  currentPage := "home";
  pageHistory := ["home"];
  selectedMapId := JNull;
  selectedEntityInfo := None;
  tempEntitiesList := None
|}.

(* ================================================================= *)
(** ** Markup *)

Inductive ListKind : Type := Maps | Entities.

Inductive ButtonLabel : Type := Previous | Next.

(** A [.pagination-button]: its caption, the call in its [onclick]
    ([beismanApp.loadPage(type, page)]) and its [style.display]. *)
Record PagButton : Type := {
  label : ButtonLabel;
  onclick_type : string;
  onclick_page : Z;
  display : option string
}.

(** Content of [.results-container]. *)
Inductive Results : Type :=
| Filtering
| NoRecords
| MapRows (rows : list JsVal)
| EntityRows (rows : list JsVal)
| FilterFailed.

(** Content of [.pagination-info]. *)
Inductive PagInfo : Type :=
| InfoPage (current_page total_pages shown total_count : JsVal)
| InfoLetter (letter : string) (found : JsVal)
| InfoAll (found : JsVal).

(** A browse page once its data has arrived.  [buttons] is [None] when
    the page counts of the response are not numbers (the comparison
    operators are modelled on numbers only). *)
Record ListView : Type := {
  kind : ListKind;
  backDestination : string;
  search : string;
  results : Results;
  info : PagInfo;
  buttons : option (list PagButton)
}.

(** Content of [#temp-entities-list]. *)
Inductive TempList : Type :=
| NoneYet
| TempItems (names : list string).

(** The insert-map page: the three inputs of [#insert-map-form], its
    submit button, the entity input and the list below it. *)
Record InsertView : Type := {
  trace_number : string;
  drawer : string;
  description : string;
  insert_submit_text : string;
  insert_submit_disabled : bool;
  insert_new_entity_name : string;
  temp_entities_list : TempList
}.

(** The edit form of the update-delete page. *)
Record UpdateView : Type := {
  edit_trace_number : JsVal;
  edit_drawer : string;
  edit_description : string;
  update_submit_text : string;
  update_submit_disabled : bool;
  entities_edit_list : list JsVal;
  update_new_entity_name : string
}.

(** What [#content-area] holds. *)
Inductive Markup : Type :=
| LoadingPlaceholder
| HomePage
| AdminPanel
| ListPage (v : ListView)
| ListLoadFailed (k : ListKind)
| MapDetailsPage (homeDestination : string) (admin : bool)
| NoEntitySelected
| EntityDetailsPage (homeDestination : string) (admin : bool)
                    (entityName : string) (beismanNumber : JsVal)
| InsertMapPage (v : InsertView)
| SelectMapFirst
| LoadingMapForEditing
| UpdateMapPage (v : UpdateView).

(* ================================================================= *)
(** ** The world *)

Inductive Level : Type := Log | Warn | Err.

Record HistoryState : Type := {
  hs_page : string;
  hs_selectedMapId : JsVal;
  hs_selectedEntityInfo : option string
}.

Inductive Event : Type :=
| Console (lvl : Level) (args : list JsVal)
| Alert (message : string)
| Fetch (req : Request)
| PushState (state : HistoryState) (url : string)
| Render (m : Markup).

(** The document and the browser: [page_title] and [content_area] are
    [None] when the document has no such element.  [content_epoch] counts
    the assignments to the [innerHTML] of [#content-area]: an element
    found inside it is still in the document as long as the count is the
    one it was found at. *)
Record Dom : Type := {
  pathname : string;
  page_title : option string;
  content_area : option Markup;
  content_epoch : nat;
  admin_session_status : bool
}.

Record World : Type := {
  app : App;
  dom : Dom;
  trace : list Event
}.

Definition set_app (a : App) (w : World) : World :=
  {| app := a; dom := dom w; trace := trace w |}.
Definition set_dom (d : Dom) (w : World) : World :=
  {| app := app w; dom := d; trace := trace w |}.
Definition record (e : Event) (w : World) : World :=
  {| app := app w; dom := dom w; trace := (trace w ++ [e])%list |}.

Definition with_currentPage (p : string) (a : App) : App :=
  {| currentUser := currentUser a; currentPage := p;
     pageHistory := pageHistory a; selectedMapId := selectedMapId a;
     selectedEntityInfo := selectedEntityInfo a;
     tempEntitiesList := tempEntitiesList a |}.
Definition with_pageHistory (h : list string) (a : App) : App :=
  {| currentUser := currentUser a; currentPage := currentPage a;
     pageHistory := h; selectedMapId := selectedMapId a;
     selectedEntityInfo := selectedEntityInfo a;
     tempEntitiesList := tempEntitiesList a |}.
Definition with_selectedMapId (v : JsVal) (a : App) : App :=
  {| currentUser := currentUser a; currentPage := currentPage a;
     pageHistory := pageHistory a; selectedMapId := v;
     selectedEntityInfo := selectedEntityInfo a;
     tempEntitiesList := tempEntitiesList a |}.
Definition with_selectedEntityInfo (v : option string) (a : App) : App :=
  {| currentUser := currentUser a; currentPage := currentPage a;
     pageHistory := pageHistory a; selectedMapId := selectedMapId a;
     selectedEntityInfo := v;
     tempEntitiesList := tempEntitiesList a |}.
Definition with_tempEntitiesList (l : option (list string)) (a : App) : App :=
  {| currentUser := currentUser a; currentPage := currentPage a;
     pageHistory := pageHistory a; selectedMapId := selectedMapId a;
     selectedEntityInfo := selectedEntityInfo a;
     tempEntitiesList := l |}.

Definition with_pathname (p : string) (d : Dom) : Dom :=
  {| pathname := p; page_title := page_title d;
     content_area := content_area d; content_epoch := content_epoch d;
     admin_session_status := admin_session_status d |}.
Definition with_page_title (t : option string) (d : Dom) : Dom :=
  {| pathname := pathname d; page_title := t;
     content_area := content_area d; content_epoch := content_epoch d;
     admin_session_status := admin_session_status d |}.
Definition with_content_area (m : option Markup) (d : Dom) : Dom :=
  {| pathname := pathname d; page_title := page_title d;
     content_area := m; content_epoch := content_epoch d;
     admin_session_status := admin_session_status d |}.
Definition with_admin_session_status (b : bool) (d : Dom) : Dom :=
  {| pathname := pathname d; page_title := page_title d;
     content_area := content_area d; content_epoch := content_epoch d;
     admin_session_status := b |}.

(* ================================================================= *)
(** ** Tasks *)

(** The run of a method from a world: it returns, throws, or stops at an
    [await fetch(req)] with the rest [k] of the method, which is given the
    settled promise and the world of the moment it is resumed in.
    [OutOfFuel] is the model's own: see [loadCurrentPage]. *)
Inductive Task (A : Type) : Type :=
| Done (a : A) (w : World)
| Threw (e : Exn) (w : World)
| Await (req : Request) (w : World) (k : FetchResult -> World -> Task A)
| OutOfFuel.

Arguments Done {A} a w.
Arguments Threw {A} e w.
Arguments Await {A} req w k.
Arguments OutOfFuel {A}.

Definition M (A : Type) : Type := World -> Task A.

Fixpoint bindT {A B : Type} (t : Task A) (f : A -> M B) : Task B :=
  match t with
  | Done a w => f a w
  | Threw e w => Threw e w
  | Await req w k => Await req w (fun r w' => bindT (k r w') f)
  | OutOfFuel => OutOfFuel
  end.

(** [try { t } catch (e) { h e }] *)
Fixpoint catchT {A : Type} (t : Task A) (h : Exn -> M A) : Task A :=
  match t with
  | Done a w => Done a w
  | Threw e w => h e w
  | Await req w k => Await req w (fun r w' => catchT (k r w') h)
  | OutOfFuel => OutOfFuel
  end.

(** [try { t } finally { f }] *)
Fixpoint finallyT {A : Type} (t : Task A) (f : M unit) : Task A :=
  match t with
  | Done a w => bindT (f w) (fun _ w' => Done a w')
  | Threw e w => bindT (f w) (fun _ w' => Threw e w')
  | Await req w k => Await req w (fun r w' => finallyT (k r w') f)
  | OutOfFuel => OutOfFuel
  end.

Definition ret {A : Type} (a : A) : M A := fun w => Done a w.
Definition throw {A : Type} (e : Exn) : M A := fun w => Threw e w.
Definition bind {A B : Type} (m : M A) (f : A -> M B) : M B :=
  fun w => bindT (m w) f.
Definition try_catch {A : Type} (m : M A) (h : Exn -> M A) : M A :=
  fun w => catchT (m w) h.
Definition try_finally {A : Type} (m : M A) (f : M unit) : M A :=
  fun w => finallyT (m w) f.
Definition out_of_fuel {A : Type} : M A := fun _ => OutOfFuel.

Declare Scope task_scope.
Delimit Scope task_scope with task.
Notation "x <- m ;; k" := (bind m (fun x => k))
  (at level 61, m at next level, right associativity) : task_scope.
Notation "m ;; k" := (bind m (fun _ => k))
  (at level 61, right associativity) : task_scope.
Open Scope task_scope.

Definition gets {A : Type} (f : World -> A) : M A := fun w => Done (f w) w.
Definition modify (f : World -> World) : M unit := fun w => Done tt (f w).
Definition when (b : bool) (m : M unit) : M unit := if b then m else ret tt.

(** A value that is [None] where the script would dereference [null] or
    [undefined], or call what is not a function. *)
Definition expect {A : Type} (what : string) (o : option A) : M A :=
  match o with
  | Some a => ret a
  | None => throw (TypeError what)
  end.

Definition lift {A : Type} (r : Exn + A) : M A :=
  match r with
  | inl e => throw e
  | inr a => ret a
  end.

(** Calling an [async] method without [await]: it runs up to its first
    [await]; the caller goes on from there, and neither the result nor a
    rejection of the promise reaches it. *)
Definition spawn {A : Type} (m : M A) : M unit :=
  fun w =>
    match m w with
    | Done _ w' | Threw _ w' | Await _ w' _ => Done tt w'
    | OutOfFuel => OutOfFuel
    end.

(** Resuming a task with the responses as they come, nothing else
    happening in between; the task is left waiting when they run out. *)
Fixpoint run {A : Type} (answers : list FetchResult) (t : Task A) : Task A :=
  match t with
  | Await req w k =>
      match answers with
      | [] => t
      | r :: rest => run rest (k r w)
      end
  | _ => t
  end.

Definition console (lvl : Level) (args : list JsVal) : M unit :=
  modify (record (Console lvl args)).
Definition log (text : string) : M unit := console Log [JStr text].
Definition alert (message : string) : M unit := modify (record (Alert message)).

(** [await fetch(...)] *)
Definition fetch (req : Request) : M Response :=
  fun w =>
    Await req (record (Fetch req) w)
      (fun r w' =>
         match r with
         | Rejected e => Threw e w'
         | Resolved resp => Done resp w'
         end).

(** [await response.json()] *)
Definition response_json (r : Response) : M JsVal :=
  match json r with
  | Some v => ret v
  | None => throw SyntaxError
  end.

(* ================================================================= *)
(** ** Reading the application object and the document *)

(** [this.currentUser?.isAdmin], as a condition *)
Definition isAdminSession (w : World) : bool :=
  match currentUser (app w) with
  | Some u => Js.truthy (isAdmin u)
  | None => false
  end.

Definition truthy_str (s : string) : bool := negb (String.eqb s "").

Definition truthy_opt (o : option string) : bool :=
  match o with
  | Some s => truthy_str s
  | None => false
  end.

(** [container.innerHTML = m] for the container [loadCurrentPage] hands
    to the page renderers, which is [#content-area]. *)
Definition render (m : Markup) : M unit :=
  modify (fun w =>
    record (Render m)
      (set_dom {| pathname := pathname (dom w);
                  page_title := page_title (dom w);
                  content_area := Some m;
                  content_epoch := S (content_epoch (dom w));
                  admin_session_status := admin_session_status (dom w) |} w)).

(** Replaces what [#content-area] holds without a new assignment to its
    [innerHTML]: a write to an element inside it, or to a form control. *)
Definition patch (m : Markup) : M unit :=
  modify (fun w => set_dom (with_content_area (Some m) (dom w)) w).

(* ================================================================= *)
(** ** Router *)

Section Router.

Context {P : Platform}.

(** The object literal [urlPaths] of [updateBrowserHistory], read at
    [page]: [None] is [undefined].  (Properties an object literal
    inherits, such as [constructor], are not page names and are not
    modelled.) *)
Definition urlPaths (selectedMapId : JsVal) (selectedEntityInfo : option string)
           (page : string) : option string :=
  if String.eqb page "home" then Some "/"
  else if String.eqb page "admin-panel" then Some "/admin-panel"
  else if String.eqb page "browse-maps" then Some "/browse-maps"
  else if String.eqb page "browse-entities" then Some "/browse-entities"
  else if String.eqb page "insert-map" then Some "/insert-map"
  else if String.eqb page "update-delete" then Some "/update-delete"
  else if String.eqb page "map-details" then
    Some (if Js.truthy selectedMapId
          then "/map-details/" ++ Js.toString selectedMapId
          else "/map-details")
  else if String.eqb page "entity-details" then
    Some (match selectedEntityInfo with
          | Some info =>
              if truthy_str info
              then "/entity-details/" ++ encodeURIComponent info
              else "/entity-details"
          | None => "/entity-details"
          end)
  else None.

(** [window.history.pushState(state, '', newPath)] *)
Definition pushState (state : HistoryState) (newPath : string) : M unit :=
  modify (fun w =>
    record (PushState state newPath)
      (set_dom (with_pathname (pathnameOf newPath) (dom w)) w)).

Definition updateBrowserHistory (page : string) (selectedMapId : JsVal)
           (selectedEntityInfo : option string) : M unit :=
  (* default parameters: [undefined] becomes [null] *)
  let selectedMapId :=
    match selectedMapId with JUndefined => JNull | v => v end in
  let newPath :=
    match urlPaths selectedMapId selectedEntityInfo page with
    | Some p => p
    | None => "/"
    end in
  let state := {| hs_page := page;
                  hs_selectedMapId := selectedMapId;
                  hs_selectedEntityInfo := selectedEntityInfo |} in
  current <- gets (fun w => pathname (dom w)) ;;
  if negb (String.eqb current newPath)
  then pushState state newPath ;;
       log ("📝 Updated URL to: " ++ newPath)
  else ret tt.

(** The object literal [pageTitles] of [updatePageTitle], read at the
    current page: [None] is [undefined].  (As for [urlPaths], the
    properties an object literal inherits are not page names and are
    not modelled.) *)
Definition pageTitles (page : string) : option string :=
  if String.eqb page "home" then Some "Beisman Map Menu"
  else if String.eqb page "admin-panel" then Some "Beisman Map Menu - Admin Panel"
  else if String.eqb page "admin-login" then Some "Beisman Map Menu - Admin Login"
  else if String.eqb page "browse-maps" then Some "Browse Beisman Maps"
  else if String.eqb page "browse-entities" then Some "Browse Beisman Entities"
  else if String.eqb page "map-details" then Some "Map Information"
  else if String.eqb page "entity-details" then Some "Entity Information"
  else if String.eqb page "insert-map" then Some "Insert New Map"
  else if String.eqb page "update-delete" then Some "Update/Delete Map"
  else None.

Definition updatePageTitle : M unit :=
  modify (fun w =>
    match page_title (dom w) with
    | Some _ =>
        let text := match pageTitles (currentPage (app w)) with
                    | Some t => t
                    | None => "Beisman Map Menu"
                    end in
        set_dom (with_page_title (Some text) (dom w)) w
    | None => w
    end).

(* --------------------------------------------------------------- *)
(** *** Page renderers *)

Definition loadHomePage : M unit := render HomePage.

Definition showAdminStatus : M unit :=
  modify (fun w => set_dom (with_admin_session_status true (dom w)) w) ;;
  log "✅ Admin status added to bottom of screen".

(** [renderPaginationButtons(currentPage, totalPages, type)] on
    integers; [currentPage - 1] and [currentPage + 1] are those of the
    script up to [Number.MAX_SAFE_INTEGER]. *)
Definition renderPaginationButtons (currentPage totalPages : Z) (type : string)
  : list PagButton :=
  if (totalPages <=? 1)%Z then []
  else (
    (if (currentPage >? 1)%Z
     then [{| label := Previous; onclick_type := type;
              onclick_page := (currentPage - 1)%Z; display := None |}]
     else [])
    ++
    (if (currentPage <? totalPages)%Z
     then [{| label := Next; onclick_type := type;
              onclick_page := (currentPage + 1)%Z; display := None |}]
     else []))%list.

(** The call of [renderPaginationButtons] on two fields of a response. *)
Definition paginationFor (current_page total_pages : JsVal) (type : string)
  : option (list PagButton) :=
  match current_page, total_pages with
  | JNum c, JNum t => Some (renderPaginationButtons c t type)
  | _, _ => None
  end.

(** The rows of a result table: each row template reads properties of
    its record, which throws on [null] and [undefined]. *)
Definition renderRows (rows : list JsVal) : Exn + list JsVal :=
  if forallb (fun r => negb (Js.nullish r)) rows
  then inr rows
  else inl (TypeError "Cannot read properties of null").

(** [!maps || maps.length === 0] gives the notice; [maps.map] is a
    function for an array only. *)
Definition renderMapsResults (maps : JsVal) : Exn + Results :=
  if negb (Js.truthy maps) then inr NoRecords
  else match Js.lookup_in maps "length" with
       | JNum Z0 => inr NoRecords
       | _ =>
           match maps with
           | JArr rows =>
               match renderRows rows with
               | inr rs => inr (MapRows rs)
               | inl e => inl e
               end
           | _ => inl (TypeError "maps.map is not a function")
           end
       end.

Definition renderEntitiesResults (entities : JsVal) : Exn + Results :=
  if negb (Js.truthy entities) then inr NoRecords
  else match Js.lookup_in entities "length" with
       | JNum Z0 => inr NoRecords
       | _ =>
           match entities with
           | JArr rows =>
               match renderRows rows with
               | inr rs => inr (EntityRows rs)
               | inl e => inl e
               end
           | _ => inl (TypeError "entities.map is not a function")
           end
       end.

Definition kind_name (k : ListKind) : string :=
  match k with Maps => "maps" | Entities => "entities" end.

(** [loadBrowseMaps] and [loadBrowseEntities] differ in the endpoint,
    the row template and the words of their messages. *)
Definition loadBrowse (k : ListKind) : M unit :=
  try_catch
    (admin <- gets isAdminSession ;;
     let backDestination := if admin then "admin-panel" else "home" in
     response <- fetch (GET ("/api/" ++ kind_name k ++ "?page=1&page_size=10")) ;;
     (if negb (ok response)
      then throw (Error ("HTTP " ++ Str.of_Z (status response)))
      else ret tt) ;;
     data <- response_json response ;;
     rows <- expect "Cannot read properties of null" (Js.get data "data") ;;
     res <- lift (match k with
                  | Maps => renderMapsResults rows
                  | Entities => renderEntitiesResults rows
                  end) ;;
     shown <- expect "Cannot read properties of undefined" (Js.get rows "length") ;;
     let current_page := Js.lookup_in data "current_page" in
     let total_pages := Js.lookup_in data "total_pages" in
     let total_count := Js.lookup_in data "total_count" in
     render (ListPage
               {| kind := k;
                  backDestination := backDestination;
                  search := "";
                  results := res;
                  info := InfoPage current_page total_pages shown total_count;
                  buttons := paginationFor current_page total_pages (kind_name k) |}))
    (fun error =>
       console Err [JStr ("❌ Error loading " ++ kind_name k ++ ":"); exn_value error] ;;
       render (ListLoadFailed k)).

Definition loadBrowseMaps : M unit := loadBrowse Maps.
Definition loadBrowseEntities : M unit := loadBrowse Entities.

(** The [async] methods below are followed up to their first
    [await]: when the response arrives they write into elements of the
    page they belong to and touch no field of the application
    object. *)

(** [loadMapDetailsData(mapId)] *)
Definition loadMapDetailsData (mapId : JsVal) : M unit :=
  _ <- fetch (GET ("/api/maps/" ++ Js.toString mapId)) ;; ret tt.

(** [loadMapPreviewForEntity(beismanNumber)] *)
Definition loadMapPreviewForEntity (beismanNumber : JsVal) : M unit :=
  _ <- fetch (GET ("/api/maps/" ++ Js.toString beismanNumber)) ;; ret tt.

(** [loadRelatedEntitiesForEntity(beismanNumber, currentEntityName)] *)
Definition loadRelatedEntitiesForEntity (beismanNumber : JsVal)
           (currentEntityName : string) : M unit :=
  _ <- fetch (GET ("/api/entities?search=" ++ Js.toString beismanNumber)) ;; ret tt.

(** [loadMapForEditing(container)] *)
Definition loadMapForEditing : M unit :=
  mapId <- gets (fun w => selectedMapId (app w)) ;;
  log ("📝 Loading map " ++ Js.toString mapId ++ " for editing") ;;
  _ <- fetch (GET ("/api/maps/" ++ Js.toString mapId)) ;; ret tt.

Definition loadMapDetails : M unit :=
  mapId <- gets (fun w => selectedMapId (app w)) ;;
  admin <- gets isAdminSession ;;
  let homeDestination := if admin then "admin-panel" else "home" in
  render (MapDetailsPage homeDestination admin) ;;
  spawn (loadMapDetailsData mapId).

(** [loadEntityDetailsData(entityName, beismanNumber)]: it has no
    [await] of its own and fills [#entity-details-content], which
    [loadEntityDetails] has just created. *)
Definition loadEntityDetailsData (entityName : string) (beismanNumber : JsVal)
  : M unit :=
  spawn (loadMapPreviewForEntity beismanNumber) ;;
  spawn (loadRelatedEntitiesForEntity beismanNumber entityName).

Definition loadEntityDetails : M unit :=
  info <- gets (fun w => selectedEntityInfo (app w)) ;;
  match info with
  | Some info' =>
      if truthy_str info' then
        let parts := Str.split info' "|" in
        let entityName := nth 0 parts "" in
        let beismanNumber := match nth_error parts 1 with
                             | Some b => JStr b
                             | None => JUndefined
                             end in
        admin <- gets isAdminSession ;;
        let homeDestination := if admin then "admin-panel" else "home" in
        render (EntityDetailsPage homeDestination admin entityName beismanNumber) ;;
        spawn (loadEntityDetailsData entityName beismanNumber)
      else render NoEntitySelected
  | None => render NoEntitySelected
  end.

(** The three renderers behind the administrator gate call
    [this.navigateTo], which calls them back through
    [loadCurrentPage]; they are written over the method, and the knot
    is tied in [loadCurrentPage]. *)
Section Gated.

Variable navigateTo : string -> bool -> M unit.

Definition loadAdminPanel : M unit :=
  admin <- gets isAdminSession ;;
  if negb admin then navigateTo "home" true
  else render AdminPanel ;;
       showAdminStatus.

(** (The listener it puts on the form calls
    [handleInsertMapWithEntities] on submit.) *)
Definition loadInsertMap : M unit :=
  admin <- gets isAdminSession ;;
  if negb admin then navigateTo "home" true
  else modify (fun w => set_app (with_tempEntitiesList (Some []) (app w)) w) ;;
       render (InsertMapPage
                 {| trace_number := "";
                    drawer := "";
                    description := "";
                    insert_submit_text := "Insert Map & Entities";
                    insert_submit_disabled := false;
                    insert_new_entity_name := "";
                    temp_entities_list := NoneYet |}).

Definition loadUpdateDelete : M unit :=
  admin <- gets isAdminSession ;;
  if negb admin then navigateTo "home" true
  else mapId <- gets (fun w => selectedMapId (app w)) ;;
       if negb (Js.truthy mapId) then render SelectMapFirst
       else render LoadingMapForEditing ;;
            spawn loadMapForEditing.

(** The [switch] of [loadCurrentPage]. *)
Definition loadPageContent (page : string) : M unit :=
  if String.eqb page "home" then loadHomePage
  else if String.eqb page "admin-panel" then loadAdminPanel
  else if String.eqb page "browse-maps" then spawn loadBrowseMaps
  else if String.eqb page "browse-entities" then spawn loadBrowseEntities
  else if String.eqb page "map-details" then loadMapDetails
  else if String.eqb page "entity-details" then loadEntityDetails
  else if String.eqb page "insert-map" then loadInsertMap
  else if String.eqb page "update-delete" then loadUpdateDelete
  else loadHomePage.

End Gated.

(** [navigateTo(page, addToHistory)] over the [loadCurrentPage] it
    ends with. *)
Definition navigateTo_over (loadCurrentPage : M unit)
           (page : string) (addToHistory : bool) : M unit :=
  log ("📍 Navigating to: " ++ page) ;;
  modify (fun w =>
    if addToHistory && negb (String.eqb page (currentPage (app w)))
    then set_app (with_pageHistory
                    (pageHistory (app w) ++ [currentPage (app w)])%list (app w)) w
    else w) ;;
  modify (fun w => set_app (with_currentPage page (app w)) w) ;;
  mapId <- gets (fun w => selectedMapId (app w)) ;;
  info <- gets (fun w => selectedEntityInfo (app w)) ;;
  updateBrowserHistory page mapId info ;;
  updatePageTitle ;;
  loadCurrentPage.

(** [loadCurrentPage()].  A renderer behind the gate may call
    [navigateTo('home')], which loads the home page and goes no
    deeper; [fuel] bounds this nesting, and two units are always
    enough ([loadCurrentPage_fuel]). *)
Fixpoint loadCurrentPage (fuel : nat) : M unit :=
  match fuel with
  | O => out_of_fuel
  | S fuel' =>
      contentArea <- gets (fun w => content_area (dom w)) ;;
      match contentArea with
      | None => ret tt
      | Some _ =>
          render LoadingPlaceholder ;;
          page <- gets (fun w => currentPage (app w)) ;;
          loadPageContent (navigateTo_over (loadCurrentPage fuel')) page
      end
  end.

Definition navigateTo (fuel : nat) (page : string) (addToHistory : bool) : M unit :=
  navigateTo_over (loadCurrentPage fuel) page addToHistory.

(** [this.pageHistory.pop()] on an array that is not empty *)
Definition pop (h : list string) : string * list string :=
  (last h "", removelast h).

Definition goBack (fuel : nat) : M unit :=
  h <- gets (fun w => pageHistory (app w)) ;;
  if (0 <? List.length h)%nat then
    let (previousPage, rest) := pop h in
    modify (fun w => set_app (with_pageHistory rest (app w)) w) ;;
    navigateTo fuel previousPage false
  else navigateTo fuel "home" false.

Definition showMapDetails (fuel : nat) (mapId : JsVal) : M unit :=
  modify (fun w => set_app (with_selectedMapId mapId (app w)) w) ;;
  navigateTo fuel "map-details" true.

Definition showEntityDetails (fuel : nat) (entityName beismanNumber : JsVal)
  : M unit :=
  modify (fun w =>
    set_app (with_selectedEntityInfo
               (Some (Js.toString entityName ++ "|" ++ Js.toString beismanNumber))
               (app w)) w) ;;
  navigateTo fuel "entity-details" true.

(** The chain of tests of [loadInitialRoute] on the path. *)
Definition parseRoute (path : string) : M unit :=
  let setPage p := modify (fun w => set_app (with_currentPage p (app w)) w) in
  if String.eqb path "/" || String.eqb path "" then setPage "home"
  else if String.eqb path "/admin-panel" then setPage "admin-panel"
  else if String.eqb path "/browse-maps" then setPage "browse-maps"
  else if String.eqb path "/browse-entities" then setPage "browse-entities"
  else if String.eqb path "/insert-map" then setPage "insert-map"
  else if String.eqb path "/update-delete" then setPage "update-delete"
  else if Str.startsWith path "/map-details/" then
    setPage "map-details" ;;
    match nth_error (Str.split path "/map-details/") 1 with
    | Some mapId =>
        when (truthy_str mapId)
          (modify (fun w => set_app (with_selectedMapId (JStr mapId) (app w)) w))
    | None => ret tt
    end
  else if Str.startsWith path "/entity-details/" then
    setPage "entity-details" ;;
    match nth_error (Str.split path "/entity-details/") 1 with
    | Some entityInfo =>
        when (truthy_str entityInfo)
          (match decodeURIComponent entityInfo with
           | Some decoded =>
               modify (fun w =>
                 set_app (with_selectedEntityInfo (Some decoded) (app w)) w)
           | None => throw URIError
           end)
    | None => ret tt
    end
  else setPage "home".

Definition loadInitialRoute (fuel : nat) : M unit :=
  path <- gets (fun w => pathname (dom w)) ;;
  log ("🔍 Loading initial route: " ++ path) ;;
  parseRoute path ;;
  updatePageTitle ;;
  loadCurrentPage fuel.

(* --------------------------------------------------------------- *)
(** *** The temporary entity list of the insert-map page *)

Definition nl : string := String (ascii_of_nat 10) EmptyString.
Definition dq : string := String (ascii_of_nat 34) EmptyString.
Definition quoted (s : string) : string := dq ++ s ++ dq.

Definition read {A : Type} (what : string) (f : World -> option A) : M A :=
  o <- gets f ;; expect what o.

(** [document.getElementById('new-entity-name')]: the insert-map page
    and the edit form both have such an input. *)
Definition new_entity_name (w : World) : option string :=
  match content_area (dom w) with
  | Some (InsertMapPage v) => Some (insert_new_entity_name v)
  | Some (UpdateMapPage v) => Some (update_new_entity_name v)
  | _ => None
  end.

Definition set_new_entity_name (value : string) : M unit :=
  c <- gets (fun w => content_area (dom w)) ;;
  match c with
  | Some (InsertMapPage v) =>
      patch (InsertMapPage
               {| trace_number := trace_number v;
                  drawer := drawer v;
                  description := description v;
                  insert_submit_text := insert_submit_text v;
                  insert_submit_disabled := insert_submit_disabled v;
                  insert_new_entity_name := value;
                  temp_entities_list := temp_entities_list v |})
  | Some (UpdateMapPage v) =>
      patch (UpdateMapPage
               {| edit_trace_number := edit_trace_number v;
                  edit_drawer := edit_drawer v;
                  edit_description := edit_description v;
                  update_submit_text := update_submit_text v;
                  update_submit_disabled := update_submit_disabled v;
                  entities_edit_list := entities_edit_list v;
                  update_new_entity_name := value |})
  | _ => throw (TypeError "Cannot set properties of null")
  end.

(** The user types [text] into the entity input. *)
Definition userTypes (text : string) : M unit := set_new_entity_name text.

Definition updateTempEntitiesDisplay : M unit :=
  c <- gets (fun w => content_area (dom w)) ;;
  match c with
  | Some (InsertMapPage v) =>
      names <- read "Cannot read properties of undefined"
                    (fun w => tempEntitiesList (app w)) ;;
      patch (InsertMapPage
               {| trace_number := trace_number v;
                  drawer := drawer v;
                  description := description v;
                  insert_submit_text := insert_submit_text v;
                  insert_submit_disabled := insert_submit_disabled v;
                  insert_new_entity_name := insert_new_entity_name v;
                  temp_entities_list :=
                    match names with
                    | [] => NoneYet
                    | _ => TempItems names
                    end |})
  | _ => ret tt
  end.

(** [addTempEntity()]: what it adds is what the entity input holds. *)
Definition addTempEntity : M unit :=
  value <- read "Cannot read properties of null" new_entity_name ;;
  let entityName := Str.trim value in
  if negb (truthy_str entityName) then
    alert "Please enter an entity name."
  else if (255 <? Str.len entityName)%nat then
    alert "Entity name is too long. Please keep it under 255 characters."
  else
    names <- read "Cannot read properties of undefined"
                  (fun w => tempEntitiesList (app w)) ;;
    if existsb (String.eqb entityName) names then
      alert "This entity is already in the list."
    else
      modify (fun w =>
        set_app (with_tempEntitiesList (Some (names ++ [entityName])%list) (app w)) w) ;;
      set_new_entity_name "" ;;
      updateTempEntitiesDisplay ;;
      log ("➕ Added entity " ++ quoted entityName ++ " to temporary list").

(** [arr.splice(arr.indexOf(x), 1)] when [x] is in [arr] *)
Fixpoint remove_first (x : string) (l : list string) : list string :=
  match l with
  | [] => []
  | y :: rest => if String.eqb x y then rest else y :: remove_first x rest
  end.

Definition removeTempEntity (entityName : string) : M unit :=
  names <- read "Cannot read properties of undefined"
                (fun w => tempEntitiesList (app w)) ;;
  if existsb (String.eqb entityName) names then
    modify (fun w =>
      set_app (with_tempEntitiesList (Some (remove_first entityName names)) (app w)) w) ;;
    updateTempEntitiesDisplay ;;
    log ("🗑️ Removed entity " ++ quoted entityName ++ " from temporary list")
  else ret tt.

(* --------------------------------------------------------------- *)
(** *** Submitting the insert-map form *)

Definition insert_view (w : World) : option InsertView :=
  match content_area (dom w) with
  | Some (InsertMapPage v) => Some v
  | _ => None
  end.

(** The submit button of [#insert-map-form]: its text and whether it is
    disabled. *)
Definition set_insert_submit (text : string) (disabled : bool) (v : InsertView)
  : InsertView :=
  {| trace_number := trace_number v;
     drawer := drawer v;
     description := description v;
     insert_submit_text := text;
     insert_submit_disabled := disabled;
     insert_new_entity_name := insert_new_entity_name v;
     temp_entities_list := temp_entities_list v |}.

(** [document.getElementById('insert-map-form').reset()]: the three
    inputs of the form go back to their initial, empty value. *)
Definition reset_insert_form (v : InsertView) : InsertView :=
  {| trace_number := "";
     drawer := "";
     description := "";
     insert_submit_text := insert_submit_text v;
     insert_submit_disabled := insert_submit_disabled v;
     insert_new_entity_name := insert_new_entity_name v;
     temp_entities_list := temp_entities_list v |}.

Definition addEntityUrl (traceNumber entityName : string) : string :=
  "/api/entities/map/" ++ traceNumber ++ "/add?entity_name="
    ++ encodeURIComponent entityName.

(** The [for ... of] loop of step 2 over the names still to be sent,
    with the two accumulators [successCount] and [failedEntities].
    The names are those the list held when the loop started. *)
Fixpoint addEntities (traceNumber : string) (names : list string)
         (successCount : nat) (failedEntities : list string)
  : M (nat * list string) :=
  match names with
  | [] => ret (successCount, failedEntities)
  | entityName :: rest =>
      r <- try_catch
             (entityResponse <- fetch (POST (addEntityUrl traceNumber entityName) None) ;;
              entityResult <- response_json entityResponse ;;
              success <- expect "Cannot read properties of null"
                                (Js.get entityResult "success") ;;
              if Js.truthy success then
                log ("✅ Entity " ++ quoted entityName ++ " added to map " ++ traceNumber) ;;
                ret (S successCount, failedEntities)
              else
                console Err [JStr ("❌ Failed to add entity " ++ quoted entityName ++ ": "
                                   ++ Js.toString (Js.lookup_in entityResult "message"))] ;;
                ret (successCount, (failedEntities ++ [entityName])%list))
             (fun error =>
                console Err [JStr ("❌ Error adding entity " ++ quoted entityName ++ ":");
                             exn_value error] ;;
                ret (successCount, (failedEntities ++ [entityName])%list)) ;;
      addEntities traceNumber rest (fst r) (snd r)
  end.

(** The text of the report after step 2. *)
Definition entitiesReport (successCount : nat) (failedEntities : list string) : string :=
  match failedEntities with
  | [] => "Map and all " ++ Str.of_nat successCount ++ " entities inserted successfully!"
  | _ => "Map inserted successfully!" ++ nl
         ++ Str.of_nat successCount ++ " entities added successfully." ++ nl
         ++ Str.of_nat (List.length failedEntities) ++ " entities failed: "
         ++ Str.join ", " failedEntities
  end.

Definition handleInsertMapWithEntities : M unit :=
  form <- read "Cannot read properties of null" insert_view ;;
  let traceNumber := Str.trim (trace_number form) in
  let drawer := Str.trim (drawer form) in
  let description := Str.trim (description form) in
  if negb (truthy_str traceNumber) || negb (truthy_str drawer)
     || negb (truthy_str description)
  then alert "Please fill in all required map fields."
  else
    try_finally
      (try_catch
         (submitButton <- read "Cannot read properties of null" insert_view ;;
          patch (InsertMapPage (set_insert_submit "Inserting..." true submitButton)) ;;
          names <- read "Cannot read properties of undefined"
                        (fun w => tempEntitiesList (app w)) ;;
          log ("💾 Inserting map " ++ traceNumber ++ " with "
               ++ Str.of_nat (List.length names) ++ " entities") ;;
          (* Step 1: insert the map *)
          user <- read "Cannot read properties of null"
                       (fun w => currentUser (app w)) ;;
          mapResponse <- fetch (POST "/api/maps"
                                  (Some (JObj [("Number", JStr traceNumber);
                                               ("Drawer", JStr drawer);
                                               ("PropertyDetails", JStr description);
                                               ("CreatedBy", username user)]))) ;;
          mapResult <- response_json mapResponse ;;
          success <- expect "Cannot read properties of null"
                            (Js.get mapResult "success") ;;
          (if negb (Js.truthy success)
           then throw (Error (Js.toString
                                (Js.or (Js.lookup_in mapResult "message")
                                       (JStr "Failed to insert map"))))
           else ret tt) ;;
          log ("✅ Map " ++ traceNumber ++ " inserted successfully") ;;
          (* Step 2: insert the entities, if any *)
          names <- read "Cannot read properties of undefined"
                        (fun w => tempEntitiesList (app w)) ;;
          (if (0 <? List.length names)%nat then
             log ("📝 Adding " ++ Str.of_nat (List.length names)
                  ++ " entities to map " ++ traceNumber) ;;
             r <- addEntities traceNumber names 0 [] ;;
             alert (entitiesReport (fst r) (snd r))
           else alert "Map inserted successfully!") ;;
          (* reset the form and the temporary list *)
          form' <- read "Cannot read properties of null" insert_view ;;
          patch (InsertMapPage (reset_insert_form form')) ;;
          modify (fun w => set_app (with_tempEntitiesList (Some []) (app w)) w) ;;
          updateTempEntitiesDisplay)
         (fun error =>
            console Err [JStr "❌ Error inserting map with entities:"; exn_value error] ;;
            alert ("Error inserting map: " ++ exn_message error)))
      (submitButton <- gets insert_view ;;
       match submitButton with
       | Some v => patch (InsertMapPage (set_insert_submit "Insert Map & Entities" false v))
       | None => ret tt
       end).

(** [handleInsertMap()], kept by the script for its older callers *)
Definition handleInsertMap : M unit := handleInsertMapWithEntities.

(* --------------------------------------------------------------- *)
(** *** Submitting the edit form *)

Definition update_view (w : World) : option UpdateView :=
  match content_area (dom w) with
  | Some (UpdateMapPage v) => Some v
  | _ => None
  end.

Definition set_update_submit (text : string) (disabled : bool) (v : UpdateView)
  : UpdateView :=
  {| edit_trace_number := edit_trace_number v;
     edit_drawer := edit_drawer v;
     edit_description := edit_description v;
     update_submit_text := text;
     update_submit_disabled := disabled;
     entities_edit_list := entities_edit_list v;
     update_new_entity_name := update_new_entity_name v |}.

Definition handleUpdateMap : M unit :=
  try_finally
    (try_catch
       (form <- read "Cannot read properties of null" update_view ;;
        let drawer := Str.trim (edit_drawer form) in
        let description := Str.trim (edit_description form) in
        if negb (truthy_str drawer) || negb (truthy_str description)
        then alert "Please fill in both Drawer and Description fields."
        else
          mapId <- gets (fun w => selectedMapId (app w)) ;;
          log ("💾 Updating map " ++ Js.toString mapId) ;;
          submitButton <- read "Cannot read properties of null" update_view ;;
          patch (UpdateMapPage (set_update_submit "Updating..." true submitButton)) ;;
          response <- fetch (PUT ("/api/maps/" ++ Js.toString mapId)
                               (Some (JObj [("Drawer", JStr drawer);
                                            ("PropertyDetails", JStr description)]))) ;;
          result <- response_json response ;;
          success <- expect "Cannot read properties of null" (Js.get result "success") ;;
          if Js.truthy success then
            alert "Map updated successfully!" ;;
            mapId' <- gets (fun w => selectedMapId (app w)) ;;
            log ("✅ Map " ++ Js.toString mapId' ++ " updated successfully") ;;
            spawn loadMapForEditing
          else
            alert (Js.toString (Js.or (Js.lookup_in result "message")
                                      (JStr "Failed to update map"))))
       (fun error =>
          console Err [JStr "❌ Error updating map:"; exn_value error] ;;
          alert "Network error while updating map"))
    (submitButton <- gets update_view ;;
     match submitButton with
     | Some v => patch (UpdateMapPage (set_update_submit "Update Map" false v))
     | None => ret tt
     end).

(* --------------------------------------------------------------- *)
(** *** The letter filter of the browse-entities page *)

(** The callback given to [data.data.filter]. *)
Definition startsWithLetter (letter : string) (entity : JsVal) : Exn + bool :=
  match Js.get entity "EntityName" with
  | None => inl (TypeError "Cannot read properties of null")
  | Some name =>
      match Js.or name (JStr "") with
      | JStr entityName =>
          inr (Str.startsWith (Str.toLowerCase entityName) (Str.toLowerCase letter))
      | _ => inl (TypeError "entityName.toLowerCase is not a function")
      end
  end.

(** [arr.filter(f)] for a callback that may throw: the elements are
    visited in order and the first exception ends the visit. *)
Fixpoint filter_array (f : JsVal -> Exn + bool) (arr : list JsVal)
  : Exn + list JsVal :=
  match arr with
  | [] => inr []
  | x :: rest =>
      match f x with
      | inl e => inl e
      | inr keep =>
          match filter_array f rest with
          | inl e => inl e
          | inr kept => inr (if keep then x :: kept else kept)
          end
      end
  end.

(** [data.data.filter(entity => ...)] *)
Definition filterByLetter (letter : string) (data : JsVal) : Exn + JsVal :=
  match data with
  | JArr arr =>
      match filter_array (startsWithLetter letter) arr with
      | inl e => inl e
      | inr kept => inr (JArr kept)
      end
  | _ => inl (TypeError "data.data.filter is not a function")
  end.

Definition list_view (w : World) : option ListView :=
  match content_area (dom w) with
  | Some (ListPage v) => Some v
  | _ => None
  end.

(** [document.querySelector('.results-container')]: the element, named
    by the count of the rendering it belongs to. *)
Definition results_container (w : World) : option nat :=
  match list_view w with
  | Some _ => Some (content_epoch (dom w))
  | None => None
  end.

(** [resultsContainer.innerHTML = r]; nothing shows when the element
    has left the document. *)
Definition set_results (resultsContainer : nat) (r : Results) : M unit :=
  w <- gets (fun w => w) ;;
  match list_view w with
  | Some v =>
      when (Nat.eqb resultsContainer (content_epoch (dom w)))
        (patch (ListPage {| kind := kind v;
                            backDestination := backDestination v;
                            search := search v;
                            results := r;
                            info := info v;
                            buttons := buttons v |}))
  | None => ret tt
  end.

Definition set_display (d : string) (b : PagButton) : PagButton :=
  {| label := label b; onclick_type := onclick_type b;
     onclick_page := onclick_page b; display := Some d |}.

(** The writes into [.pagination]: its [.pagination-info] and the
    [style.display] of every [.pagination-button]. *)
Definition set_pagination (i : PagInfo) (d : string) : M unit :=
  v <- gets list_view ;;
  match v with
  | Some v =>
      patch (ListPage {| kind := kind v;
                         backDestination := backDestination v;
                         search := search v;
                         results := results v;
                         info := i;
                         buttons := option_map (map (set_display d)) (buttons v) |})
  | None => ret tt
  end.

(** [document.getElementById('entities-search')] *)
Definition entities_search (w : World) : option string :=
  match list_view w with
  | Some v => match kind v with
              | Entities => Some (search v)
              | Maps => None
              end
  | None => None
  end.

(** [filterEntitiesByLetter(letter)]; [None] is [null], the argument of
    the button [All]. *)
Definition filterEntitiesByLetter (letter : option string) : M unit :=
  try_catch
    (log ("🔍 Starting filter for letter: "
          ++ match letter with Some l => l | None => "null" end) ;;
     resultsContainer <- gets results_container ;;
     match resultsContainer with
     | Some c => set_results c Filtering
     | None => ret tt
     end ;;
     searchInput <- gets entities_search ;;
     let searchTerm := match searchInput with
                       | Some value => Str.trim value
                       | None => ""
                       end in
     let apiUrl := "/api/entities?page=1&page_size=100"
                   ++ (if truthy_str searchTerm
                       then "&search=" ++ encodeURIComponent searchTerm
                       else "") in
     log ("📡 Making API call to: " ++ apiUrl) ;;
     response <- fetch (GET apiUrl) ;;
     (if negb (ok response)
      then throw (Error ("HTTP " ++ Str.of_Z (status response)))
      else ret tt) ;;
     data <- response_json response ;;
     rows <- expect "Cannot read properties of null" (Js.get data "data") ;;
     received <- expect "Cannot read properties of undefined" (Js.get rows "length") ;;
     log ("📊 Received " ++ Js.toString received ++ " entities from API") ;;
     filteredEntities <-
       (if truthy_opt letter then
          kept <- lift (filterByLetter
                          (match letter with Some l => l | None => "" end) rows) ;;
          log ("✅ After filtering by '"
               ++ match letter with Some l => l | None => "" end
               ++ "': " ++ Js.toString (Js.lookup_in kept "length")
               ++ " entities found") ;;
          ret kept
        else
          log ("✅ Showing all entities: " ++ Js.toString received ++ " entities") ;;
          ret rows) ;;
     match resultsContainer with
     | Some c =>
         r <- lift (renderEntitiesResults filteredEntities) ;;
         set_results c r
     | None => ret tt
     end ;;
     (if truthy_opt letter
      then set_pagination
             (InfoLetter (match letter with Some l => l | None => "" end)
                         (Js.lookup_in filteredEntities "length"))
             "none"
      else set_pagination
             (InfoAll (Js.lookup_in filteredEntities "length"))
             "inline-block") ;;
     log "🎉 Filtering completed successfully")
    (fun error =>
       console Err [JStr "❌ Error filtering entities:"; exn_value error] ;;
       resultsContainer <- gets results_container ;;
       match resultsContainer with
       | Some c => set_results c FilterFailed
       | None => ret tt
       end).

(* --------------------------------------------------------------- *)
(** *** Pagination *)

Definition loadPage (type : string) (page : Z) : M unit :=
  console Log [JStr "Loading page:"; JStr type; JNum page].

(** A click on a pagination button runs its [onclick]. *)
Definition click (b : PagButton) : M unit :=
  loadPage (onclick_type b) (onclick_page b).

(* --------------------------------------------------------------- *)
(** *** Adding an entity to a saved map *)

Definition addEntityToMap : M unit :=
  try_catch
    (value <- read "Cannot read properties of null" new_entity_name ;;
     let entityName := Str.trim value in
     if negb (truthy_str entityName) then
       alert "Please enter an entity name."
     else
       mapId <- gets (fun w => selectedMapId (app w)) ;;
       log ("➕ Adding entity " ++ quoted entityName ++ " to map "
            ++ Js.toString mapId) ;;
       response <- fetch (POST ("/api/entities/map/" ++ Js.toString mapId
                                ++ "/add?entity_name="
                                ++ encodeURIComponent entityName) None) ;;
       result <- response_json response ;;
       success <- expect "Cannot read properties of null" (Js.get result "success") ;;
       if Js.truthy success then
         alert "Entity added successfully!" ;;
         mapId' <- gets (fun w => selectedMapId (app w)) ;;
         log ("✅ Entity " ++ quoted entityName ++ " added to map "
              ++ Js.toString mapId') ;;
         set_new_entity_name "" ;;
         spawn loadMapForEditing
       else
         alert (Js.toString (Js.or (Js.lookup_in result "message")
                                   (JStr "Failed to add entity"))))
    (fun error =>
       console Err [JStr "❌ Error adding entity:"; exn_value error] ;;
       alert "Network error while adding entity").

(* --------------------------------------------------------------- *)
(** *** The back and forward buttons of the browser *)

(** The listener [setupBrowserHistory] puts on [popstate], run on
    [event.state]: [None] is a history entry without a state object.
    The browser has moved the address bar before it calls the
    listener. *)
Definition popstate (fuel : nat) (state : option HistoryState) : M unit :=
  log "🔙 Browser back/forward detected" ;;
  match state with
  | Some st =>
      modify (fun w => set_app (with_currentPage (hs_page st) (app w)) w) ;;
      modify (fun w => set_app (with_selectedMapId (hs_selectedMapId st) (app w)) w) ;;
      modify (fun w => set_app (with_selectedEntityInfo (hs_selectedEntityInfo st)
                                                       (app w)) w) ;;
      log ("📍 Restoring page: " ++ hs_page st) ;;
      updatePageTitle ;;
      loadCurrentPage fuel
  | None => loadInitialRoute fuel
  end.

End Router.

(* ================================================================= *)
(** ** Observations on a world *)

Definition alerts (w : World) : list string :=
  flat_map (fun e => match e with Alert m => [m] | _ => [] end) (trace w).

Definition requests (w : World) : list Request :=
  flat_map (fun e => match e with Fetch r => [r] | _ => [] end) (trace w).

(** The markup assigned to [#content-area], oldest first. *)
Definition renders (w : World) : list Markup :=
  flat_map (fun e => match e with Render m => [m] | _ => [] end) (trace w).

(** The pages whose renderer starts with the administrator gate. *)
Definition gated (page : string) : bool :=
  String.eqb page "admin-panel" || String.eqb page "insert-map"
  || String.eqb page "update-delete".

(** A gated page is being loaded without an administrator session, in a
    document that has a [#content-area]. *)
Definition redirects (w : World) (page : string) : bool :=
  gated page && negb (isAdminSession w)
  && match content_area (dom w) with Some _ => true | None => false end.

Definition knownPages : list string :=
  ["home"; "admin-panel"; "browse-maps"; "browse-entities";
   "map-details"; "entity-details"; "insert-map"; "update-delete"].


(* ================================================================= *)
(** ** Notions the statements use *)

(** A step that leaves the application object and what the page shows
    alone: it may write to the console, the address bar or the title. *)
Record quiet (w w' : World) : Prop := {
  quiet_app : app w' = app w;
  quiet_content : content_area (dom w') = content_area (dom w);
  quiet_alerts : alerts w' = alerts w;
  quiet_requests : requests w' = requests w;
  quiet_renders : renders w' = renders w
}.

(** The application object as [navigateTo(page, addToHistory)] leaves it
    before it loads the page. *)
Definition entered (page : string) (addToHistory : bool) (a : App) : App :=
  with_currentPage page
    (if addToHistory && negb (String.eqb page (currentPage a))
     then with_pageHistory (pageHistory a ++ [currentPage a])%list a
     else a).

(** What a page renderer that does not redirect leaves as it was. *)
Definition same_route (w w' : World) : Prop :=
  currentUser (app w') = currentUser (app w)
  /\ currentPage (app w') = currentPage (app w)
  /\ pageHistory (app w') = pageHistory (app w)
  /\ selectedMapId (app w') = selectedMapId (app w)
  /\ selectedEntityInfo (app w') = selectedEntityInfo (app w)
  /\ alerts w' = alerts w.

(** The name the filter callback reads in a record: the [EntityName] of
    the record, the empty string when that is falsy, and [None] where
    the callback throws (the record is [null] or [undefined], or its
    name is a truthy value that is not a string). *)
Definition entityNameOf (entity : JsVal) : option string :=
  match Js.get entity "EntityName" with
  | Some name =>
      match Js.or name (JStr "") with
      | JStr s => Some s
      | _ => None
      end
  | None => None
  end.

(** Prefix match that ignores case. *)
Definition matchesLetter (letter : string) (entity : JsVal) : bool :=
  match entityNameOf entity with
  | Some name => String.prefix (Str.toLowerCase letter) (Str.toLowerCase name)
  | None => false
  end.

(** The promise settles to a response whose JSON body has a [success]
    that is truthy ([b = true]) or falsy ([b = false]). *)
Definition reports (b : bool) (a : FetchResult) : Prop :=
  exists r data s,
    a = Resolved r /\ json r = Some data
    /\ Js.get data "success" = Some s /\ Js.truthy s = b.

(** Whether an answer counts as an added entity: a rejected promise, a
    body that is not JSON or not an object, and a falsy [success] all
    count as failures. *)
Definition verdict (a : FetchResult) : bool :=
  match a with
  | Resolved r =>
      match json r with
      | Some data =>
          match Js.get data "success" with
          | Some s => Js.truthy s
          | None => false
          end
      | None => false
      end
  | Rejected _ => false
  end.

(** The two accumulators after the loop. *)
Fixpoint tally (names : list string) (answers : list FetchResult)
         (successCount : nat) (failedEntities : list string) : nat * list string :=
  match names, answers with
  | name :: names', a :: answers' =>
      if verdict a
      then tally names' answers' (S successCount) failedEntities
      else tally names' answers' successCount (failedEntities ++ [name])%list
  | _, _ => (successCount, failedEntities)
  end.

(** What surrounds a task and passes its [await]s through: the rest of a
    method, a [try] block. *)
Definition lifts {A B : Type} (C : Task A -> Task B) : Prop :=
  forall req w k, C (Await req w k) = Await req w (fun r w' => C (k r w')).

(** The world a run ends in, when it ends. *)
Definition ended {A : Type} (t : Task A) : option World :=
  match t with
  | Done _ w | Threw _ w => Some w
  | Await _ _ _ | OutOfFuel => None
  end.

(** The calls of [pushState], oldest first. *)
Definition pushes (w : World) : list (HistoryState * string) :=
  flat_map (fun e => match e with PushState st u => [(st, u)] | _ => [] end) (trace w).

(** What loading a page that does not redirect leaves as it was: the
    route, the address bar, the title and the entries of the browser
    history. *)
Definition steady (w w' : World) : Prop :=
  same_route w w'
  /\ pathname (dom w') = pathname (dom w)
  /\ page_title (dom w') = page_title (dom w)
  /\ pushes w' = pushes w.

(** The path [updateBrowserHistory] computes for a page. *)
Definition canonicalPath {P : Platform} (page : string) (selectedMapId : JsVal)
           (selectedEntityInfo : option string) : string :=
  match urlPaths match selectedMapId with JUndefined => JNull | v => v end
                 selectedEntityInfo page with
  | Some p => p
  | None => "/"
  end.

(** The page names the script passes to [navigateTo]: the eight pages
    and ['delete-entities'], a link of the map page for which the script
    has no renderer, no title and no path.  On these names the tables
    [urlPaths] and [pageTitles] answer as the object literals of the
    script do. *)
Definition pageNames : list string := (knownPages ++ ["delete-entities"])%list.

(** [Number.MAX_SAFE_INTEGER]: up to it the predecessor and the
    successor of an integer are computed exactly. *)
Definition maxSafeInteger : Z := 9007199254740991.

(** The state object [updateBrowserHistory] pushes with it. *)
Definition historyState (page : string) (selectedMapId : JsVal)
           (selectedEntityInfo : option string) : HistoryState :=
  {| hs_page := page;
     hs_selectedMapId := match selectedMapId with JUndefined => JNull | v => v end;
     hs_selectedEntityInfo := selectedEntityInfo |}.

(** The title [updatePageTitle] writes for a page. *)
Definition titleOf (page : string) : string :=
  match pageTitles page with
  | Some t => t
  | None => "Beisman Map Menu"
  end.

(** [#page-title], when the document has one, shows the title of the
    current page. *)
Definition titled (w : World) : Prop :=
  match page_title (dom w) with
  | Some t => t = titleOf (currentPage (app w))
  | None => True
  end.

Fixpoint has_char (c : ascii) (s : string) : bool :=
  match s with
  | EmptyString => false
  | String d s' => Ascii.eqb c d || has_char c s'
  end.

(** What [addTempEntity] lets into the temporary list: names that are
    not empty, not longer than 255 and all different. *)
Definition well_kept (names : list string) : Prop :=
  NoDup names
  /\ Forall (fun n => n <> "" /\ (Str.len n <= 255)%nat) names.

(** The names whose request did not report success, in the order of the
    list. *)
Fixpoint failures (names : list string) (answers : list FetchResult) : list string :=
  match names, answers with
  | name :: names', a :: answers' =>
      if verdict a then failures names' answers' else name :: failures names' answers'
  | _, _ => []
  end.

(** The number of requests that reported success. *)
Fixpoint successes (names : list string) (answers : list FetchResult) : nat :=
  match names, answers with
  | _ :: names', a :: answers' =>
      (if verdict a then 1 else 0) + successes names' answers'
  | _, _ => 0
  end.

(** The alert of a handler that waits for one response: [done] when
    the body reports success, the [message] of the body, or [failed]
    when that is falsy, when the body is an object that does not report
    success, and [broken] when the promise is rejected or the body is not
    JSON or not an object. *)
Definition verdictAlert (done failed broken : string) (a : FetchResult) : string :=
  match a with
  | Resolved r =>
      match json r with
      | Some data =>
          match Js.get data "success" with
          | Some s =>
              if Js.truthy s then done
              else Js.toString (Js.or (Js.lookup_in data "message") (JStr failed))
          | None => broken
          end
      | None => broken
      end
  | Rejected _ => broken
  end.

(* ================================================================= *)
(** ** A platform for the examples *)

Module Sample.

Definition hex_digit (n : nat) : ascii :=
  ascii_of_nat (if (n <? 10)%nat then 48 + n else 55 + n).

Definition percent (n : nat) : string :=
  String "%" (String (hex_digit (n / 16)) (String (hex_digit (n mod 16)) EmptyString)).

Definition unreserved (n : nat) : bool :=
  (((65 <=? n) && (n <=? 90)) || ((97 <=? n) && (n <=? 122))
   || ((48 <=? n) && (n <=? 57))
   || existsb (Nat.eqb n) [45; 95; 46; 33; 126; 42; 39; 40; 41])%nat.

(** [encodeURIComponent] on code units below 256: the unreserved
    characters stay, the others are written as the escaped bytes of
    their UTF-8 form. *)
Fixpoint encode (s : string) : string :=
  match s with
  | EmptyString => EmptyString
  | String c s' =>
      let n := nat_of_ascii c in
      (if unreserved n then String c EmptyString
       else if (n <? 128)%nat then percent n
       else percent (192 + n / 64) ++ percent (128 + n mod 64))
      ++ encode s'
  end.

Definition hex_value (c : ascii) : option nat :=
  let n := nat_of_ascii c in
  (if (48 <=? n) && (n <=? 57) then Some (n - 48)
   else if (65 <=? n) && (n <=? 70) then Some (n - 55)
   else if (97 <=? n) && (n <=? 102) then Some (n - 87)
   else None)%nat.

Inductive Token : Type := Lit (c : ascii) | Esc (b : nat).

(** The escapes of a text; [None] when a [%] is not followed by two
    hexadecimal digits. *)
Fixpoint tokens (s : string) : option (list Token) :=
  match s with
  | EmptyString => Some []
  | String c rest =>
      if Ascii.eqb c "%" then
        match rest with
        | String h (String l rest') =>
            match hex_value h, hex_value l, tokens rest' with
            | Some a, Some b, Some ts => Some (Esc (16 * a + b) :: ts)
            | _, _, _ => None
            end
        | _ => None
        end
      else
        match tokens rest with
        | Some ts => Some (Lit c :: ts)
        | None => None
        end
  end.

(** The escaped bytes read as UTF-8.  Two-byte forms cover the code
    units from 128 to 255; this platform refuses what decodes beyond
    them, where a browser answers with a longer string. *)
Fixpoint assemble (ts : list Token) : option string :=
  match ts with
  | [] => Some EmptyString
  | Lit c :: rest => option_map (String c) (assemble rest)
  | Esc b :: rest =>
      if (b <? 128)%nat then option_map (String (ascii_of_nat b)) (assemble rest)
      else if ((b =? 194) || (b =? 195))%nat then
        match rest with
        | Esc b2 :: rest' =>
            if ((128 <=? b2) && (b2 <? 192))%nat
            then option_map (String (ascii_of_nat ((b - 192) * 64 + (b2 - 128))))
                            (assemble rest')
            else None
        | _ => None
        end
      else None
  end.

Definition decode (s : string) : option string :=
  match tokens s with
  | Some ts => assemble ts
  | None => None
  end.

(** The URL parser is taken on the paths it leaves as they are. *)
Definition platform : Platform := {|
  decodeURIComponent := decode;
  encodeURIComponent := encode;
  pathnameOf := fun url => url
|}.

Definition anonymous : App := constructed.

Definition admin : User := {|
  username := JStr "root";
  displayName := JStr "Administrator";
  isAdmin := JBool true;
  sessionId := JStr "s1"
|}.

Definition document (path : string) (content : Markup) : Dom := {|
  pathname := path;
  page_title := Some "Beisman Map Menu";
  content_area := Some content;
  content_epoch := 0;
  admin_session_status := false
|}.

Definition world (a : App) (d : Dom) : World :=
  {| app := a; dom := d; trace := [] |}.

(** A response with status 200 and the JSON body [v]. *)
Definition answer (v : JsVal) : Response :=
  {| ok := true; status := 200; json := Some v |}.

(** Nobody is signed in and the insert-map page is about to be
    rendered. *)
Definition visitor_at_insert_map : World :=
  world (with_currentPage "insert-map" anonymous)
        (document "/insert-map" LoadingPlaceholder).

(** The insert-map page as [loadInsertMap] renders it for an
    administrator. *)
Definition blank_form : InsertView := {|
  trace_number := "";
  drawer := "";
  description := "";
  insert_submit_text := "Insert Map & Entities";
  insert_submit_disabled := false;
  insert_new_entity_name := "";
  temp_entities_list := NoneYet
|}.

Definition at_insert_map : World :=
  world (with_tempEntitiesList (Some [])
           (with_currentPage "insert-map"
              {| currentUser := Some admin;
                 currentPage := "home";
                 pageHistory := ["home"];
                 selectedMapId := JNull;
                 selectedEntityInfo := None;
                 tempEntitiesList := None |}))
        (document "/insert-map" (InsertMapPage blank_form)).

(** The edit form of map 1017 with the description wiped out. *)
Definition at_edit_form : World :=
  world (with_selectedMapId (JStr "1017")
           (with_currentPage "update-delete"
              {| currentUser := Some admin;
                 currentPage := "home";
                 pageHistory := ["home"];
                 selectedMapId := JNull;
                 selectedEntityInfo := None;
                 tempEntitiesList := None |}))
        (document "/update-delete"
           (UpdateMapPage {| edit_trace_number := JStr "1017";
                             edit_drawer := "B";
                             edit_description := "   ";
                             update_submit_text := "Update Map";
                             update_submit_disabled := false;
                             entities_edit_list := [];
                             update_new_entity_name := "" |})).

(** The edit form of map 1017 filled in, a new entity typed in. *)
Definition editing : World :=
  world (app at_edit_form)
        (document "/update-delete"
           (UpdateMapPage {| edit_trace_number := JStr "1017";
                             edit_drawer := "B";
                             edit_description := "Lot 4, north";
                             update_submit_text := "Update Map";
                             update_submit_disabled := false;
                             entities_edit_list := [];
                             update_new_entity_name := " Zenith " |})).

Definition entity (name : string) : JsVal :=
  JObj [("EntityName", JStr name); ("BeismanNumber", JStr "1017")].

Definition three_entities : list JsVal :=
  [entity "Martinez"; entity "adams"; entity "Moreno"].

(** The browse-entities page showing the three entities. *)
Definition at_browse_entities : World :=
  world (with_currentPage "browse-entities" anonymous)
        (document "/browse-entities"
           (ListPage {| kind := Entities;
                        backDestination := "home";
                        search := "";
                        results := EntityRows three_entities;
                        info := InfoPage (JNum 1) (JNum 1) (JNum 3) (JNum 3);
                        buttons := Some [] |})).

(** The insert-map form filled in, with two entities waiting. *)
Definition ready_to_insert : World :=
  world (with_tempEntitiesList (Some ["Acme"; "Moreno"]) (app at_insert_map))
        (document "/insert-map"
           (InsertMapPage {| trace_number := "1017";
                             drawer := "B";
                             description := "Lot 4";
                             insert_submit_text := "Insert Map & Entities";
                             insert_submit_disabled := false;
                             insert_new_entity_name := "";
                             temp_entities_list := TempItems ["Acme"; "Moreno"] |})).

Definition success_true : FetchResult :=
  Resolved (answer (JObj [("success", JBool true)])).

Definition success_false : FetchResult :=
  Resolved (answer (JObj [("success", JBool false);
                          ("message", JStr "Entity already exists")])).

(** A response to [GET /api/maps?page=1&page_size=10]: the second of
    three pages. *)
Definition maps_page_2 : JsVal :=
  JObj [("data", JArr [JObj [("Number", JStr "1017"); ("Drawer", JStr "B");
                             ("PropertyDetails", JStr "Lot 4")]]);
        ("current_page", JNum 2); ("total_pages", JNum 3);
        ("total_count", JNum 21)].

(** The list of maps failed to load, the page shows its back link, the
    page left before was the admin panel and the session has ended. *)
Definition session_ended : World :=
  world (with_pageHistory ["home"; "admin-panel"]
           (with_currentPage "browse-maps" anonymous))
        (document "/browse-maps" (ListLoadFailed Maps)).

End Sample.

(* ================================================================= *)
(** ** Basic facts *)

Lemma bind_done {A B : Type} (m : M A) (f : A -> M B) (w w' : World) (a : A) :
  m w = Done a w' -> bind m f w = f a w'.
Proof. intros H. unfold bind. rewrite H. reflexivity. Qed.

Lemma alerts_record (e : Event) (w : World) :
  alerts (record e w)
  = (alerts w ++ match e with Alert m => [m] | _ => [] end)%list.
Proof. unfold alerts, record. cbn. rewrite flat_map_app. cbn. now rewrite app_nil_r. Qed.

Lemma requests_record (e : Event) (w : World) :
  requests (record e w)
  = (requests w ++ match e with Fetch r => [r] | _ => [] end)%list.
Proof. unfold requests, record. cbn. rewrite flat_map_app. cbn. now rewrite app_nil_r. Qed.

Lemma renders_record (e : Event) (w : World) :
  renders (record e w)
  = (renders w ++ match e with Render m => [m] | _ => [] end)%list.
Proof. unfold renders, record. cbn. rewrite flat_map_app. cbn. now rewrite app_nil_r. Qed.

Lemma app_record (e : Event) (w : World) : app (record e w) = app w.
Proof. reflexivity. Qed.
Lemma dom_record (e : Event) (w : World) : dom (record e w) = dom w.
Proof. reflexivity. Qed.
Lemma app_set_app (a : App) (w : World) : app (set_app a w) = a.
Proof. reflexivity. Qed.
Lemma dom_set_app (a : App) (w : World) : dom (set_app a w) = dom w.
Proof. reflexivity. Qed.
Lemma app_set_dom (d : Dom) (w : World) : app (set_dom d w) = app w.
Proof. reflexivity. Qed.
Lemma dom_set_dom (d : Dom) (w : World) : dom (set_dom d w) = d.
Proof. reflexivity. Qed.
Lemma alerts_set_app (a : App) (w : World) : alerts (set_app a w) = alerts w.
Proof. reflexivity. Qed.
Lemma alerts_set_dom (d : Dom) (w : World) : alerts (set_dom d w) = alerts w.
Proof. reflexivity. Qed.
Lemma requests_set_app (a : App) (w : World) : requests (set_app a w) = requests w.
Proof. reflexivity. Qed.
Lemma requests_set_dom (d : Dom) (w : World) : requests (set_dom d w) = requests w.
Proof. reflexivity. Qed.
Lemma renders_set_app (a : App) (w : World) : renders (set_app a w) = renders w.
Proof. reflexivity. Qed.
Lemma renders_set_dom (d : Dom) (w : World) : renders (set_dom d w) = renders w.
Proof. reflexivity. Qed.

Create Rewrite HintDb world.
#[local] Hint Rewrite app_record dom_record app_set_app dom_set_app app_set_dom
  dom_set_dom alerts_set_app alerts_set_dom requests_set_app requests_set_dom
  renders_set_app renders_set_dom alerts_record requests_record renders_record
  : world.

(** Normalises what is observed of a world built by the setters. *)
Ltac observe :=
  autorewrite with world; cbv beta iota; rewrite ?app_nil_r.

(** Runs the steps at the head of a method as far as they compute. *)
Ltac exec :=
  unfold read, when, lift, expect, log, alert, console, render, patch, spawn,
    try_catch, try_finally, fetch, bind, gets, modify, ret, throw;
  cbn [bindT catchT finallyT].

(** The result tables of an array without [null] or [undefined]
    rows. *)
Lemma renderMapsResults_array (rows : list JsVal) :
  forallb (fun r => negb (Js.nullish r)) rows = true ->
  renderMapsResults (JArr rows)
  = inr (match rows with [] => NoRecords | _ => MapRows rows end).
Proof.
  intros H. unfold renderMapsResults. destruct rows as [|r rs]; [reflexivity|].
  cbn [Js.truthy negb Js.lookup_in Js.get String.eqb Ascii.eqb Bool.eqb
       List.length Z.of_nat].
  unfold renderRows. rewrite H. reflexivity.
Qed.

Lemma renderEntitiesResults_array (rows : list JsVal) :
  forallb (fun r => negb (Js.nullish r)) rows = true ->
  renderEntitiesResults (JArr rows)
  = inr (match rows with [] => NoRecords | _ => EntityRows rows end).
Proof.
  intros H. unfold renderEntitiesResults. destruct rows as [|r rs]; [reflexivity|].
  cbn [Js.truthy negb Js.lookup_in Js.get String.eqb Ascii.eqb Bool.eqb
       List.length Z.of_nat].
  unfold renderRows. rewrite H. reflexivity.
Qed.

Lemma quiet_refl (w : World) : quiet w w.
Proof. now constructor. Qed.

Lemma quiet_trans (w1 w2 w3 : World) : quiet w1 w2 -> quiet w2 w3 -> quiet w1 w3.
Proof.
  intros [a1 c1 l1 r1 m1] [a2 c2 l2 r2 m2].
  constructor; congruence.
Qed.

Lemma quiet_console (lvl : Level) (args : list JsVal) (w : World) :
  quiet w (record (Console lvl args) w).
Proof.
  constructor; try reflexivity.
  - rewrite alerts_record. apply app_nil_r.
  - rewrite requests_record. apply app_nil_r.
  - rewrite renders_record. apply app_nil_r.
Qed.

Section RouterFacts.

Context {P : Platform}.

Lemma updateBrowserHistory_quiet (page : string) (mapId : JsVal)
      (info : option string) (w : World) :
  exists w', updateBrowserHistory page mapId info w = Done tt w' /\ quiet w w'.
Proof.
  unfold updateBrowserHistory, pushState, log, console, modify, gets, bind.
  cbn [bindT].
  destruct (negb _); cbn [bindT]; eexists; (split; [reflexivity|]).
  - constructor; observe; reflexivity.
  - apply quiet_refl.
Qed.

Lemma updatePageTitle_quiet (w : World) :
  exists w', updatePageTitle w = Done tt w' /\ quiet w w'.
Proof.
  unfold updatePageTitle, modify. eexists. split; [reflexivity|].
  destruct (page_title (dom w)); [|apply quiet_refl].
  now constructor.
Qed.

End RouterFacts.

Section NavigationFacts.

Context {P : Platform}.

Lemma navigateTo_over_enter (load : M unit) (page : string) (add : bool) (w : World) :
  exists w1,
    navigateTo_over load page add w = load w1
    /\ app w1 = entered page add (app w)
    /\ content_area (dom w1) = content_area (dom w)
    /\ alerts w1 = alerts w /\ requests w1 = requests w /\ renders w1 = renders w.
Proof.
  unfold navigateTo_over, log, console, modify, gets, bind. cbn [bindT].
  match goal with |- context [updateBrowserHistory ?p ?m ?i ?W] =>
    destruct (updateBrowserHistory_quiet p m i W) as (w2 & E2 & [a2 c2 l2 r2 m2]);
    rewrite E2 end.
  cbn [bindT].
  destruct (updatePageTitle_quiet w2) as (w3 & E3 & [a3 c3 l3 r3 m3]).
  rewrite E3. cbn [bindT].
  exists w3. split; [reflexivity|].
  rewrite a3, c3, l3, r3, m3, a2, c2, l2, r2, m2.
  unfold entered.
  repeat match goal with
         | |- context [if ?b then _ else _] =>
             progress change b with (add && negb (page =? currentPage (app w)))
         end.
  destruct (add && negb (page =? currentPage (app w))); observe; auto.
Qed.

Lemma loadHomePage_spec (w : World) :
  exists w', loadHomePage w = Done tt w'
             /\ app w' = app w /\ alerts w' = alerts w /\ requests w' = requests w
             /\ renders w' = (renders w ++ [HomePage])%list.
Proof.
  unfold loadHomePage, render, modify. eexists. split; [reflexivity|].
  observe. auto.
Qed.

(** Loading the page when [currentPage] is ['home']. *)
Lemma loadCurrentPage_home (k : nat) (w : World) :
  currentPage (app w) = "home" ->
  exists w', loadCurrentPage (S k) w = Done tt w'
             /\ app w' = app w /\ alerts w' = alerts w /\ requests w' = requests w
             /\ renders w' = (renders w
                              ++ match content_area (dom w) with
                                 | Some _ => [LoadingPlaceholder; HomePage]
                                 | None => []
                                 end)%list.
Proof.
  intros Hp. cbn [loadCurrentPage]. unfold gets, bind. cbn [bindT].
  destruct (content_area (dom w)) as [c|].
  - unfold render at 1, modify. cbn [bindT].
    observe. rewrite Hp. unfold loadPageContent. cbn [String.eqb Ascii.eqb Bool.eqb].
    cbv beta iota.
    match goal with |- exists w', loadHomePage ?w0 = _ /\ _ =>
      destruct (loadHomePage_spec w0) as (w' & E & A & L & R & M) end.
    exists w'. split; [exact E|].
    rewrite A, L, R, M. observe. rewrite <- app_assoc. auto.
  - exists w. rewrite app_nil_r. auto.
Qed.

Lemma navigateTo_home (k : nat) (add : bool) (w : World) :
  exists w', navigateTo (S k) "home" add w = Done tt w'
             /\ app w' = entered "home" add (app w)
             /\ alerts w' = alerts w /\ requests w' = requests w
             /\ renders w' = (renders w
                              ++ match content_area (dom w) with
                                 | Some _ => [LoadingPlaceholder; HomePage]
                                 | None => []
                                 end)%list.
Proof.
  unfold navigateTo.
  destruct (navigateTo_over_enter (loadCurrentPage (S k)) "home" add w)
    as (w1 & E & A & C & L & R & M).
  destruct (@loadCurrentPage_home k w1) as (w' & E' & A' & L' & R' & M').
  { rewrite A. reflexivity. }
  exists w'. split; [congruence|].
  rewrite A', L', R', M', C. repeat split; congruence.
Qed.

Lemma same_route_refl (w : World) : same_route w w.
Proof. repeat split. Qed.

Lemma same_route_trans (w1 w2 w3 : World) :
  same_route w1 w2 -> same_route w2 w3 -> same_route w1 w3.
Proof.
  unfold same_route. intros (a & b & c & d & e & f) (a' & b' & c' & d' & e' & f').
  repeat split; congruence.
Qed.

Ltac routed := unfold same_route; observe; repeat split; reflexivity.

Lemma loadBrowse_route (k : ListKind) (w : World) :
  exists w', spawn (loadBrowse k) w = Done tt w' /\ same_route w w'.
Proof. unfold loadBrowse. exec. eexists. split; [reflexivity|routed]. Qed.

Lemma loadMapDetails_route (w : World) :
  exists w', loadMapDetails w = Done tt w' /\ same_route w w'.
Proof.
  unfold loadMapDetails, loadMapDetailsData. exec.
  eexists. split; [reflexivity|routed].
Qed.

Lemma loadEntityDetails_route (w : World) :
  exists w', loadEntityDetails w = Done tt w' /\ same_route w w'.
Proof.
  unfold loadEntityDetails. exec.
  destruct (selectedEntityInfo (app w)) as [i|].
  - destruct (truthy_str i).
    + unfold loadEntityDetailsData, loadMapPreviewForEntity,
        loadRelatedEntitiesForEntity. exec.
      eexists. split; [reflexivity|routed].
    + exec. eexists. split; [reflexivity|routed].
  - exec. eexists. split; [reflexivity|routed].
Qed.

Lemma gated_renderers_admin (nav : string -> bool -> M unit) (w : World) :
  isAdminSession w = true ->
  (exists w', loadAdminPanel nav w = Done tt w' /\ same_route w w')
  /\ (exists w', loadInsertMap nav w = Done tt w' /\ same_route w w')
  /\ (exists w', loadUpdateDelete nav w = Done tt w' /\ same_route w w').
Proof.
  intros H. unfold loadAdminPanel, loadInsertMap, loadUpdateDelete, showAdminStatus.
  exec. rewrite H. cbn [negb]. exec. repeat split.
  - eexists. split; [reflexivity|routed].
  - eexists. split; [reflexivity|routed].
  - destruct (negb (Js.truthy (selectedMapId (app w)))).
    + exec. eexists. split; [reflexivity|routed].
    + unfold loadMapForEditing. exec. eexists. split; [reflexivity|routed].
Qed.

Lemma gated_renderers_redirect (k : nat) (w : World) :
  isAdminSession w = false ->
  loadAdminPanel (navigateTo (S k)) w = navigateTo (S k) "home" true w
  /\ loadInsertMap (navigateTo (S k)) w = navigateTo (S k) "home" true w
  /\ loadUpdateDelete (navigateTo (S k)) w = navigateTo (S k) "home" true w.
Proof.
  intros H. unfold loadAdminPanel, loadInsertMap, loadUpdateDelete.
  unfold bind at 1 3 5. unfold gets. cbn [bindT]. rewrite H. auto.
Qed.

(** The page renderer of [page], run with one unit of fuel or more
    below it. *)
Lemma loadPageContent_spec (k : nat) (page : string) (w : World) :
  currentPage (app w) = page ->
  exists w',
    loadPageContent (navigateTo (S k)) page w = Done tt w'
    /\ currentUser (app w') = currentUser (app w)
    /\ selectedMapId (app w') = selectedMapId (app w)
    /\ selectedEntityInfo (app w') = selectedEntityInfo (app w)
    /\ alerts w' = alerts w
    /\ currentPage (app w')
       = (if gated page && negb (isAdminSession w) then "home" else page)
    /\ pageHistory (app w')
       = (if gated page && negb (isAdminSession w)
          then (pageHistory (app w) ++ [page])%list
          else pageHistory (app w)).
Proof.
  intros Hp.
  assert (plain : forall r : M unit,
             gated page = false ->
             (exists w', r w = Done tt w' /\ same_route w w') ->
             exists w',
               r w = Done tt w'
               /\ currentUser (app w') = currentUser (app w)
               /\ selectedMapId (app w') = selectedMapId (app w)
               /\ selectedEntityInfo (app w') = selectedEntityInfo (app w)
               /\ alerts w' = alerts w
               /\ currentPage (app w')
                  = (if gated page && negb (isAdminSession w) then "home" else page)
               /\ pageHistory (app w')
                  = (if gated page && negb (isAdminSession w)
                     then (pageHistory (app w) ++ [page])%list
                     else pageHistory (app w))).
  { intros r G (w' & E & (a & b & c & d & e & f)). exists w'. rewrite G. cbn.
    repeat split; congruence. }
  assert (behind : forall r : (string -> bool -> M unit) -> M unit,
             gated page = true ->
             (isAdminSession w = true ->
              exists w', r (navigateTo (S k)) w = Done tt w' /\ same_route w w') ->
             (isAdminSession w = false ->
              r (navigateTo (S k)) w = navigateTo (S k) "home" true w) ->
             exists w',
               r (navigateTo (S k)) w = Done tt w'
               /\ currentUser (app w') = currentUser (app w)
               /\ selectedMapId (app w') = selectedMapId (app w)
               /\ selectedEntityInfo (app w') = selectedEntityInfo (app w)
               /\ alerts w' = alerts w
               /\ currentPage (app w')
                  = (if gated page && negb (isAdminSession w) then "home" else page)
               /\ pageHistory (app w')
                  = (if gated page && negb (isAdminSession w)
                     then (pageHistory (app w) ++ [page])%list
                     else pageHistory (app w))).
  { intros r G Hadmin Hanon. rewrite G. destruct (isAdminSession w) eqn:A.
    - destruct (Hadmin eq_refl) as (w' & E & (a & b & c & d & e & f)).
      exists w'. cbn. repeat split; congruence.
    - rewrite (Hanon eq_refl).
      destruct (navigateTo_home k true w) as (w' & E & A' & L & _).
      exists w'. split; [exact E|]. rewrite A', L. unfold entered.
      rewrite Hp.
      assert (N : ("home" =? page) = false).
      { destruct ("home" =? page) eqn:Eq; [|reflexivity].
        apply String.eqb_eq in Eq. rewrite <- Eq in G. discriminate G. }
      rewrite N. cbn. repeat split. }
  unfold loadPageContent.
  destruct (page =? "home") eqn:E1.
  { apply plain; [apply String.eqb_eq in E1; rewrite E1; reflexivity|].
    destruct (loadHomePage_spec w) as (w' & E & A & L & _).
    exists w'. split; [exact E|]. unfold same_route. rewrite A, L. repeat split. }
  destruct (page =? "admin-panel") eqn:E2.
  { apply behind.
    - unfold gated. rewrite E2. reflexivity.
    - intros A. apply (gated_renderers_admin (navigateTo (S k)) w A).
    - intros A. apply (gated_renderers_redirect k w A). }
  destruct (page =? "browse-maps") eqn:E3.
  { apply plain; [apply String.eqb_eq in E3; rewrite E3; reflexivity|].
    apply loadBrowse_route. }
  destruct (page =? "browse-entities") eqn:E4.
  { apply plain; [apply String.eqb_eq in E4; rewrite E4; reflexivity|].
    apply loadBrowse_route. }
  destruct (page =? "map-details") eqn:E5.
  { apply plain; [apply String.eqb_eq in E5; rewrite E5; reflexivity|].
    apply loadMapDetails_route. }
  destruct (page =? "entity-details") eqn:E6.
  { apply plain; [apply String.eqb_eq in E6; rewrite E6; reflexivity|].
    apply loadEntityDetails_route. }
  destruct (page =? "insert-map") eqn:E7.
  { apply behind.
    - unfold gated. rewrite E7. rewrite orb_true_r. reflexivity.
    - intros A. apply (gated_renderers_admin (navigateTo (S k)) w A).
    - intros A. apply (gated_renderers_redirect k w A). }
  destruct (page =? "update-delete") eqn:E8.
  { apply behind.
    - unfold gated. rewrite E8. apply orb_true_r.
    - intros A. apply (gated_renderers_admin (navigateTo (S k)) w A).
    - intros A. apply (gated_renderers_redirect k w A). }
  apply plain; [unfold gated; rewrite E2, E7, E8; reflexivity|].
  destruct (loadHomePage_spec w) as (w' & E & A & L & _).
  exists w'. split; [exact E|]. unfold same_route. rewrite A, L. repeat split.
Qed.

(** [loadCurrentPage] returns with two units of fuel or more, and what
    it does to the route. *)
Lemma loadCurrentPage_fuel (k : nat) (w : World) :
  exists w',
    loadCurrentPage (S (S k)) w = Done tt w'
    /\ currentUser (app w') = currentUser (app w)
    /\ selectedMapId (app w') = selectedMapId (app w)
    /\ selectedEntityInfo (app w') = selectedEntityInfo (app w)
    /\ alerts w' = alerts w
    /\ currentPage (app w')
       = (if redirects w (currentPage (app w)) then "home" else currentPage (app w))
    /\ pageHistory (app w')
       = (if redirects w (currentPage (app w))
          then (pageHistory (app w) ++ [currentPage (app w)])%list
          else pageHistory (app w)).
Proof.
  cbn [loadCurrentPage]. unfold gets, bind at 1. cbn [bindT]. unfold redirects.
  destruct (content_area (dom w)) as [c|].
  - unfold bind at 1, render at 1, modify. cbn [bindT].
    unfold bind at 1. cbn [bindT]. observe.
    match goal with |- exists w', loadPageContent _ ?p ?w0 = _ /\ _ =>
      destruct (@loadPageContent_spec k p w0 eq_refl) as (w' & E & H) end.
    exists w'. split; [exact E|].
    revert H. unfold isAdminSession. observe. rewrite andb_true_r. tauto.
  - exists w. rewrite andb_false_r. repeat split.
Qed.

End NavigationFacts.

(* ================================================================= *)
(** ** The administrator gate *)

(** C1.  Whenever the renderer of the admin-panel, insert-map or
    update-delete page runs while no session is present or the session's
    [isAdmin] is falsy, it does what [navigateTo('home')] does and
    nothing else: it returns, [currentPage] ends as ['home'], the only
    markup written to [#content-area] is the loading placeholder and the
    home page (nothing of the gated page), and the temporary entity list
    is not reset. *)
Theorem gate_redirects_home {P : Platform} (k : nat) (w : World)
        (r : (string -> bool -> M unit) -> M unit) :
  isAdminSession w = false ->
  In r [loadAdminPanel; loadInsertMap; loadUpdateDelete] ->
  r (navigateTo (S k)) w = navigateTo (S k) "home" true w
  /\ exists w',
       r (navigateTo (S k)) w = Done tt w'
       /\ currentPage (app w') = "home"
       /\ renders w' = (renders w
                        ++ match content_area (dom w) with
                           | Some _ => [LoadingPlaceholder; HomePage]
                           | None => []
                           end)%list
       /\ tempEntitiesList (app w') = tempEntitiesList (app w)
       /\ alerts w' = alerts w /\ requests w' = requests w.
Proof.
  intros A Hr.
  destruct (gated_renderers_redirect k w A) as (R1 & R2 & R3).
  assert (E : r (navigateTo (S k)) w = navigateTo (S k) "home" true w).
  { destruct Hr as [<-|[<-|[<-|[]]]]; assumption. }
  split; [exact E|].
  destruct (navigateTo_home k true w) as (w' & E' & A' & L & R & M).
  exists w'. rewrite E, A', L, R, M. unfold entered.
  destruct (true && negb ("home" =? currentPage (app w))); repeat split; exact E'.
Qed.

Lemma gate_redirects_home_witness :
  exists w',
    loadInsertMap (navigateTo (P := Sample.platform) 1) Sample.visitor_at_insert_map
    = Done tt w'
    /\ currentPage (app w') = "home"
    /\ renders w' = [LoadingPlaceholder; HomePage]
    /\ tempEntitiesList (app w') = None.
Proof.
  destruct (@gate_redirects_home Sample.platform 0 Sample.visitor_at_insert_map
              loadInsertMap eq_refl (or_intror (or_introl eq_refl)))
    as (_ & w' & E & C & R & T & _).
  exists w'. repeat split; assumption.
Defined.

(* ================================================================= *)
(** ** Going back *)

(** C8, as the code has it.  [goBack()] always returns.  On an empty
    stack it ends on ['home'] and the stack stays empty.  On a stack that
    is not empty it removes the top entry and calls [navigateTo] on it
    without adding to the history; [currentPage] becomes that entry and
    the stack is the rest, except when the entry is a page behind the
    administrator gate, the session is not an administrator's and the
    document has a [#content-area]: then the renderer redirects,
    [currentPage] ends as ['home'] and the entry is pushed back. *)
Theorem goBack_spec {P : Platform} (k : nat) (w : World) :
  exists w',
    goBack (S (S k)) w = Done tt w'
    /\ match pageHistory (app w) with
       | [] => currentPage (app w') = "home" /\ pageHistory (app w') = []
       | _ :: _ =>
           let previousPage := last (pageHistory (app w)) "" in
           let rest := removelast (pageHistory (app w)) in
           if redirects w previousPage
           then currentPage (app w') = "home"
                /\ pageHistory (app w') = (rest ++ [previousPage])%list
           else currentPage (app w') = previousPage
                /\ pageHistory (app w') = rest
       end.
Proof.
  unfold goBack, gets, bind at 1. cbn [bindT].
  destruct (pageHistory (app w)) as [|p0 h] eqn:H.
  - cbn [List.length Nat.ltb Nat.leb].
    destruct (navigateTo_home (S k) false w) as (w' & E & A & _).
    exists w'. split; [exact E|]. rewrite A. unfold entered. cbn. auto.
  - change (0 <? List.length (p0 :: h))%nat with true. cbv iota.
    unfold pop. unfold bind at 1, modify. cbn [bindT].
    set (p := last (p0 :: h) "").
    set (rest := removelast (p0 :: h)).
    set (w1 := set_app (with_pageHistory rest (app w)) w).
    unfold navigateTo.
    destruct (navigateTo_over_enter (loadCurrentPage (S (S k))) p false w1)
      as (w2 & E2 & A2 & C2 & _).
    destruct (loadCurrentPage_fuel k w2) as (w3 & E3 & U & _ & _ & _ & Pg & Hs).
    exists w3. split; [congruence|].
    assert (R : redirects w2 (currentPage (app w2)) = redirects w p).
    { unfold redirects, isAdminSession. rewrite A2, C2. reflexivity. }
    assert (Cp : currentPage (app w2) = p) by (rewrite A2; reflexivity).
    assert (Hh : pageHistory (app w2) = rest) by (rewrite A2; reflexivity).
    rewrite R, Cp in Pg. rewrite R, Cp, Hh in Hs.
    cbv zeta. fold p rest. destruct (redirects w p); auto.
Qed.

(** C8, the case the claim leaves out: the entry taken from the stack is
    the admin panel and the session has ended.  [goBack()] ends on
    ['home'], not on the entry, and the stack has the entry again. *)
Lemma goBack_to_gated_page :
  exists w',
    goBack (P := Sample.platform) 2 Sample.session_ended = Done tt w'
    /\ currentPage (app w') = "home"
    /\ pageHistory (app w') = ["home"; "admin-panel"]
    /\ currentPage (app w') <> last (pageHistory (app Sample.session_ended)) ""
    /\ pageHistory (app w') <> removelast (pageHistory (app Sample.session_ended)).
Proof.
  eexists. split; [vm_compute; reflexivity|].
  vm_compute. repeat split; discriminate.
Qed.

(* ================================================================= *)
(** ** The initial route *)


Section RouteFacts.

Context {P : Platform}.


End RouteFacts.



(** C3.  On a browser whose URL parser leaves [/map-details/42] as it
    is, [updateBrowserHistory('map-details', 42)] returns with
    [window.location.pathname] equal to ['/map-details/42'], and
    [loadInitialRoute] run on that path returns with [currentPage] equal
    to ['map-details'] and [selectedMapId] equal to the string ['42']. *)
Theorem url_round_trip {P : Platform} (k : nat) (w : World) :
  pathnameOf "/map-details/42" = "/map-details/42" ->
  exists w1,
    updateBrowserHistory "map-details" (JNum 42) None w = Done tt w1
    /\ pathname (dom w1) = "/map-details/42"
    /\ exists w2,
         loadInitialRoute (S (S k)) w1 = Done tt w2
         /\ currentPage (app w2) = "map-details"
         /\ selectedMapId (app w2) = JStr "42".
Proof.
  intros Hurl.
  assert (E1 : exists w1,
             updateBrowserHistory "map-details" (JNum 42) None w = Done tt w1
             /\ pathname (dom w1) = "/map-details/42").
  { unfold updateBrowserHistory, pushState, log, console, modify, gets, bind.
    cbn [bindT].
    change (match urlPaths (JNum 42) None "map-details" with
            | Some p => p
            | None => "/"
            end) with "/map-details/42".
    destruct (pathname (dom w) =? "/map-details/42") eqn:E; cbn [negb bindT].
    - exists w. split; [reflexivity|]. apply String.eqb_eq. exact E.
    - eexists. split; [reflexivity|]. cbn. exact Hurl. }
  destruct E1 as (w1 & E1 & Hp). exists w1. split; [exact E1|]. split; [exact Hp|].
  unfold loadInitialRoute, log, console, modify, gets, bind. cbn [bindT].
  rewrite Hp.
  change (parseRoute "/map-details/42")
    with ((modify (fun w => set_app (with_currentPage "map-details" (app w)) w)) ;;
          modify (fun w => set_app (with_selectedMapId (JStr "42") (app w)) w)).
  unfold modify, bind. cbn [bindT].
  match goal with |- context [updatePageTitle ?W] =>
    destruct (updatePageTitle_quiet W) as (w2 & E2 & [a2 c2 _ _ _]) end.
  rewrite E2. cbn [bindT].
  destruct (loadCurrentPage_fuel k w2) as (w3 & E3 & _ & Sm & _ & _ & Pg & _).
  exists w3. split; [exact E3|]. rewrite Pg, Sm, a2. cbn. auto.
Qed.

Lemma url_round_trip_witness :
  exists w1,
    updateBrowserHistory (P := Sample.platform) "map-details" (JNum 42) None
      (Sample.world Sample.anonymous (Sample.document "/" HomePage))
    = Done tt w1
    /\ pathname (dom w1) = "/map-details/42"
    /\ exists w2,
         loadInitialRoute (P := Sample.platform) 2 w1 = Done tt w2
         /\ currentPage (app w2) = "map-details"
         /\ selectedMapId (app w2) = JStr "42".
Proof.
  exact (@url_round_trip Sample.platform 0
           (Sample.world Sample.anonymous (Sample.document "/" HomePage)) eq_refl).
Defined.

(* ================================================================= *)
(** ** Pagination *)

(** C4.  When a browse page receives its list response (status ok, a
    JSON body whose [data] is an array of records and whose
    [current_page] and [total_pages] are the numbers [c] and [t]), the
    page it renders carries the buttons
    [renderPaginationButtons(c, t, type)].  These are: none when [t <= 1];
    otherwise Previous exactly when [c > 1], followed by Next exactly
    when [c < t].  With [t = 3]: both at [c = 2], only Next at [c = 1],
    only Previous at [c = 3]; and for every [t > 1], only Next at
    [c = 1] and only Previous at [c = t]. *)
Theorem pagination_gated_on_bounds (k : ListKind) (w : World)
        (resp : Response) (data : JsVal) (rows : list JsVal) (c t : Z) :
  ok resp = true ->
  json resp = Some data ->
  Js.get data "data" = Some (JArr rows) ->
  forallb (fun r => negb (Js.nullish r)) rows = true ->
  Js.lookup_in data "current_page" = JNum c ->
  Js.lookup_in data "total_pages" = JNum t ->
  (exists w' v,
      run [Resolved resp] (loadBrowse k w) = Done tt w'
      /\ content_area (dom w') = Some (ListPage v)
      /\ buttons v = Some (renderPaginationButtons c t (kind_name k)))
  /\ map label (renderPaginationButtons c t (kind_name k))
     = (if (t <=? 1)%Z then []
        else ((if (c >? 1)%Z then [Previous] else [])
              ++ (if (c <? t)%Z then [Next] else []))%list)
  /\ map label (renderPaginationButtons 2 3 (kind_name k)) = [Previous; Next]
  /\ map label (renderPaginationButtons 1 3 (kind_name k)) = [Next]
  /\ map label (renderPaginationButtons 3 3 (kind_name k)) = [Previous]
  /\ ((1 < t)%Z -> map label (renderPaginationButtons 1 t (kind_name k)) = [Next])
  /\ ((1 < t)%Z -> map label (renderPaginationButtons t t (kind_name k)) = [Previous]).
Proof.
  intros Hok Hjson Hdata Hrows Hc Ht.
  assert (G : forall c' t' ty,
             map label (renderPaginationButtons c' t' ty)
             = (if (t' <=? 1)%Z then []
                else ((if (c' >? 1)%Z then [Previous] else [])
                      ++ (if (c' <? t')%Z then [Next] else []))%list)).
  { intros c' t' ty. unfold renderPaginationButtons.
    destruct (t' <=? 1)%Z; [reflexivity|].
    destruct (c' >? 1)%Z, (c' <? t')%Z; reflexivity. }
  split; [|split; [apply G|repeat split; try reflexivity]].
  - unfold loadBrowse. exec. cbn [run bindT catchT]. rewrite Hok. cbn [negb]. exec.
    unfold response_json. rewrite Hjson. exec. rewrite Hdata. exec.
    rewrite (renderMapsResults_array rows Hrows),
      (renderEntitiesResults_array rows Hrows).
    destruct k; exec; cbn [Js.get]; exec;
      rewrite Hc, Ht; do 2 eexists; (split; [reflexivity|]);
      (split; [reflexivity|]); reflexivity.
  - intros H. rewrite G.
    destruct (t <=? 1)%Z eqn:E1; [lia|].
    destruct (1 >? 1)%Z eqn:E2; [lia|].
    destruct (1 <? t)%Z eqn:E3; [reflexivity|lia].
  - intros H. rewrite G.
    destruct (t <=? 1)%Z eqn:E1; [lia|].
    destruct (t >? 1)%Z eqn:E2; [|lia].
    destruct (t <? t)%Z eqn:E3; [lia|reflexivity].
Qed.

Lemma pagination_gated_on_bounds_witness :
  exists w' v,
    run [Resolved (Sample.answer Sample.maps_page_2)]
        (loadBrowse Maps
           (Sample.world Sample.anonymous
              (Sample.document "/browse-maps" LoadingPlaceholder)))
    = Done tt w'
    /\ content_area (dom w') = Some (ListPage v)
    /\ map label (match buttons v with Some bs => bs | None => [] end)
       = [Previous; Next].
Proof.
  destruct (@pagination_gated_on_bounds Maps
              (Sample.world Sample.anonymous
                 (Sample.document "/browse-maps" LoadingPlaceholder))
              (Sample.answer Sample.maps_page_2) Sample.maps_page_2 _ 2%Z 3%Z
              eq_refl eq_refl eq_refl eq_refl eq_refl eq_refl)
    as ((w' & v & E & C & B) & _).
  exists w', v. rewrite B. repeat split; assumption.
Defined.

(** C9.  A button made by [renderPaginationButtons(c, t, type)] calls
    [loadPage(type, c - 1)] or [loadPage(type, c + 1)] when clicked, and
    that call only writes one line to the console: it returns, sends no
    request, shows no alert, and the application object and the document
    are as before. *)
Theorem pagination_buttons_inert (c t : Z) (type : string)
        (b : PagButton) (w : World) :
  In b (renderPaginationButtons c t type) ->
  click b w = loadPage type (onclick_page b) w
  /\ (onclick_page b = (c - 1)%Z \/ onclick_page b = (c + 1)%Z)
  /\ exists w',
       click b w = Done tt w'
       /\ app w' = app w /\ dom w' = dom w
       /\ requests w' = requests w /\ alerts w' = alerts w
       /\ trace w' = (trace w ++ [Console Log [JStr "Loading page:"; JStr type;
                                               JNum (onclick_page b)]])%list.
Proof.
  intros Hin.
  assert (H : onclick_type b = type
              /\ (onclick_page b = (c - 1)%Z \/ onclick_page b = (c + 1)%Z)).
  { unfold renderPaginationButtons in Hin.
    destruct (t <=? 1)%Z; [destruct Hin|].
    apply in_app_or in Hin.
    destruct Hin as [Hin|Hin];
      [destruct (c >? 1)%Z|destruct (c <? t)%Z];
      try destruct Hin as [<-|[]]; try destruct Hin; cbn; auto. }
  destruct H as (Ty & Pg). unfold click. rewrite Ty.
  split; [reflexivity|]. split; [exact Pg|].
  unfold loadPage, console, modify. eexists. split; [reflexivity|].
  observe. repeat split.
Qed.

Lemma pagination_buttons_inert_witness :
  exists w',
    click
      {| label := Next; onclick_type := "maps"; onclick_page := 3; display := None |}
      (Sample.world Sample.anonymous (Sample.document "/browse-maps" HomePage))
    = Done tt w'
    /\ app w' = Sample.anonymous
    /\ requests w' = [].
Proof.
  destruct (@pagination_buttons_inert 2 3 "maps"
              {| label := Next; onclick_type := "maps"; onclick_page := 3;
                 display := None |}
              (Sample.world Sample.anonymous (Sample.document "/browse-maps" HomePage))
              (or_intror (or_introl eq_refl)))
    as (_ & _ & w' & E & A & _ & R & _).
  exists w'. repeat split; assumption.
Defined.

(* ================================================================= *)
(** ** The temporary entity list *)

Section TempEntityFacts.

Context {P : Platform}.

Lemma existsb_eqb_In (x : string) (l : list string) :
  existsb (String.eqb x) l = true <-> In x l.
Proof.
  rewrite existsb_exists. split.
  - intros (y & Hy & E). apply String.eqb_eq in E. now subst.
  - intros H. exists x. split; [exact H|apply String.eqb_refl].
Qed.

(** The three refusals of [addTempEntity]: an alert and nothing else. *)
Lemma addTempEntity_refuses (w : World) (value : string) :
  new_entity_name w = Some value ->
  (truthy_str (Str.trim value) = false ->
   addTempEntity w = Done tt (record (Alert "Please enter an entity name.") w))
  /\ (truthy_str (Str.trim value) = true ->
      (255 < Str.len (Str.trim value))%nat ->
      addTempEntity w
      = Done tt (record (Alert "Entity name is too long. Please keep it under 255 characters.") w))
  /\ (forall names,
        truthy_str (Str.trim value) = true ->
        (Str.len (Str.trim value) <= 255)%nat ->
        tempEntitiesList (app w) = Some names ->
        In (Str.trim value) names ->
        addTempEntity w
        = Done tt (record (Alert "This entity is already in the list.") w)).
Proof.
  intros Hv. unfold addTempEntity. exec. rewrite Hv. exec. repeat split.
  - intros ->. reflexivity.
  - intros -> Hl. apply Nat.ltb_lt in Hl. rewrite Hl. reflexivity.
  - intros names -> Hl Hn Hin.
    apply Nat.ltb_ge in Hl. rewrite Hl. cbn [negb]. exec. rewrite Hn. exec.
    apply existsb_eqb_In in Hin. rewrite Hin. reflexivity.
Qed.

(** An accepted name is appended, the input is cleared and the list
    under it is redrawn. *)
Lemma addTempEntity_accepts (w : World) (v : InsertView) (names : list string) :
  insert_view w = Some v ->
  truthy_str (Str.trim (insert_new_entity_name v)) = true ->
  (Str.len (Str.trim (insert_new_entity_name v)) <= 255)%nat ->
  tempEntitiesList (app w) = Some names ->
  ~ In (Str.trim (insert_new_entity_name v)) names ->
  exists w' v',
    addTempEntity w = Done tt w'
    /\ tempEntitiesList (app w')
       = Some (names ++ [Str.trim (insert_new_entity_name v)])%list
    /\ insert_view w' = Some v'
    /\ insert_new_entity_name v' = ""
    /\ alerts w' = alerts w /\ requests w' = requests w.
Proof.
  intros Hv Ht Hl Hn Hin. unfold insert_view in Hv.
  destruct (content_area (dom w)) as [[]|] eqn:C; try discriminate Hv.
  injection Hv as ->.
  unfold addTempEntity, new_entity_name. exec. rewrite C. exec. rewrite Ht.
  apply Nat.ltb_ge in Hl. rewrite Hl. cbn [negb]. exec. rewrite Hn. exec.
  destruct (existsb _ names) eqn:E.
  { apply existsb_eqb_In in E. contradiction. }
  exec. unfold set_new_entity_name. exec. cbn [dom set_app content_area]. rewrite C.
  exec. unfold updateTempEntitiesDisplay. exec.
  cbn [dom set_dom with_content_area content_area]. exec.
  cbn [app set_dom set_app with_tempEntitiesList tempEntitiesList]. exec.
  do 2 eexists. split; [reflexivity|].
  unfold insert_view. observe. cbn. repeat split.
Qed.

Lemma userTypes_spec (w : World) (v : InsertView) (text : string) :
  insert_view w = Some v ->
  exists w' v',
    userTypes text w = Done tt w'
    /\ insert_view w' = Some v'
    /\ insert_new_entity_name v' = text
    /\ app w' = app w /\ trace w' = trace w.
Proof.
  intros Hv. unfold insert_view in Hv.
  destruct (content_area (dom w)) as [[]|] eqn:C; try discriminate Hv.
  injection Hv as ->.
  unfold userTypes, set_new_entity_name. exec. rewrite C. exec.
  do 2 eexists. split; [reflexivity|]. cbn. repeat split.
Qed.

End TempEntityFacts.

(** C6.  On the insert-map page, typing a name that is acceptable and
    not yet in the temporary list and adding it appends it (trimmed) to
    the list; typing the same text and adding it again shows the alert
    for duplicates and leaves the application object, and so the list,
    as the first addition left it: one entry more than at the start,
    which is length 1 when the list was empty.  No request is sent. *)
Theorem duplicate_entity_rejected (w : World) (v : InsertView)
        (names : list string) (text : string) :
  insert_view w = Some v ->
  tempEntitiesList (app w) = Some names ->
  truthy_str (Str.trim text) = true ->
  (Str.len (Str.trim text) <= 255)%nat ->
  ~ In (Str.trim text) names ->
  exists w1 w2,
    (userTypes text ;; addTempEntity) w = Done tt w1
    /\ tempEntitiesList (app w1) = Some (names ++ [Str.trim text])%list
    /\ (userTypes text ;; addTempEntity) w1 = Done tt w2
    /\ app w2 = app w1
    /\ option_map (@List.length string) (tempEntitiesList (app w2))
       = Some (S (List.length names))
    /\ alerts w2 = (alerts w1 ++ ["This entity is already in the list."])%list
    /\ requests w2 = requests w.
Proof.
  intros Hv Hn Ht Hl Hin.
  destruct (userTypes_spec w text Hv) as (wa & va & Ea & Va & Ta & Aa & Tra).
  rewrite <- Ta in Ht, Hl, Hin. rewrite <- Aa in Hn.
  destruct (addTempEntity_accepts wa Va Ht Hl Hn Hin)
    as (w1 & v1 & E1 & N1 & V1 & _ & L1 & R1).
  rewrite Ta in *.
  destruct (userTypes_spec w1 text V1) as (wb & vb & Eb & Vb & Tb & Ab & Trb).
  assert (Nb : new_entity_name wb = Some text).
  { revert Vb. unfold insert_view, new_entity_name.
    destruct (content_area (dom wb)) as [[]|]; try discriminate.
    intros [= ->]. now rewrite Tb. }
  destruct (addTempEntity_refuses wb Nb) as (_ & _ & Dup).
  specialize (Dup (names ++ [Str.trim text])%list Ht Hl).
  rewrite Ab in Dup.
  specialize (Dup N1 (in_or_app names [Str.trim text] _ (or_intror (in_eq _ _)))).
  exists w1, (record (Alert "This entity is already in the list.") wb).
  rewrite (@bind_done _ _ _ _ _ _ _ Ea), (@bind_done _ _ _ _ _ _ _ Eb).
  split; [exact E1|]. split; [exact N1|]. split; [exact Dup|].
  observe. rewrite Ab, N1. cbn [option_map]. rewrite length_app. cbn [List.length].
  rewrite Nat.add_1_r.
  assert (Al : alerts wb = alerts w1) by (unfold alerts; now rewrite Trb).
  assert (Rq : requests wb = requests w1) by (unfold requests; now rewrite Trb).
  assert (Rq0 : requests wa = requests w) by (unfold requests; now rewrite Tra).
  rewrite Al, Rq, R1, Rq0. repeat split.
Qed.

Lemma duplicate_entity_rejected_witness :
  exists w1 w2,
    (userTypes "Acme" ;; addTempEntity) Sample.at_insert_map
    = Done tt w1
    /\ tempEntitiesList (app w1) = Some ["Acme"]
    /\ (userTypes "Acme" ;; addTempEntity) w1 = Done tt w2
    /\ option_map (@List.length string) (tempEntitiesList (app w2)) = Some 1
    /\ alerts w2 = ["This entity is already in the list."].
Proof.
  destruct (@duplicate_entity_rejected Sample.at_insert_map
              Sample.blank_form [] "Acme" eq_refl eq_refl eq_refl)
    as (w1 & w2 & E1 & N1 & E2 & _ & Len & Al & _).
  - cbn. repeat constructor.
  - intros [].
  - exists w1, w2. repeat split; try assumption.
    rewrite Al.
    assert (A1 : alerts w1 = []).
    { revert E1. vm_compute. intros [= <-]. reflexivity. }
    rewrite A1. reflexivity.
Defined.

(* ================================================================= *)
(** ** Client-side validation *)

(** C7.  Each validation failure ends the handler with one alert, no
    request and the application object untouched.
    - [handleInsertMapWithEntities]: a required field of the form is
      empty once trimmed; the world gains the alert and nothing else.
    - [handleUpdateMap]: the drawer or the description is empty once
      trimmed; the world gains the alert, and the [finally] clause puts
      the submit button back to ['Update Map'], enabled.
    - [addTempEntity]: the name is empty once trimmed, or longer than
      255 characters, or already in the list; the world gains the alert
      and nothing else. *)
Theorem validation_failures_stay_local {P : Platform} (w : World) :
  (forall form,
      insert_view w = Some form ->
      truthy_str (Str.trim (trace_number form)) = false
      \/ truthy_str (Str.trim (drawer form)) = false
      \/ truthy_str (Str.trim (description form)) = false ->
      handleInsertMapWithEntities w
      = Done tt (record (Alert "Please fill in all required map fields.") w))
  /\ (forall form,
         update_view w = Some form ->
         truthy_str (Str.trim (edit_drawer form)) = false
         \/ truthy_str (Str.trim (edit_description form)) = false ->
         exists w',
           handleUpdateMap w = Done tt w'
           /\ app w' = app w
           /\ trace w'
              = (trace w ++ [Alert "Please fill in both Drawer and Description fields."])%list
           /\ content_area (dom w')
              = Some (UpdateMapPage (set_update_submit "Update Map" false form))
           /\ pathname (dom w') = pathname (dom w)
           /\ page_title (dom w') = page_title (dom w))
  /\ (forall value,
         new_entity_name w = Some value ->
         truthy_str (Str.trim value) = false
         \/ (255 < Str.len (Str.trim value))%nat
         \/ (exists names, tempEntitiesList (app w) = Some names
                           /\ In (Str.trim value) names) ->
         exists message,
           In message ["Please enter an entity name.";
                       "Entity name is too long. Please keep it under 255 characters.";
                       "This entity is already in the list."]
           /\ addTempEntity w = Done tt (record (Alert message) w)).
Proof.
  repeat split.
  - intros form Hv Hempty.
    unfold handleInsertMapWithEntities. exec. rewrite Hv. exec.
    destruct Hempty as [-> | [-> | ->]]; rewrite ?orb_true_r; reflexivity.
  - intros form Hv Hempty. unfold update_view in Hv.
    destruct (content_area (dom w)) as [[]|] eqn:C; try discriminate Hv.
    injection Hv as ->.
    unfold handleUpdateMap, update_view. exec. rewrite C. exec.
    assert (E : negb (truthy_str (Str.trim (edit_drawer form)))
                || negb (truthy_str (Str.trim (edit_description form))) = true).
    { destruct Hempty as [-> | ->]; rewrite ?orb_true_r; reflexivity. }
    rewrite E. exec. cbn [dom record content_area]. rewrite C. exec.
    eexists. split; [reflexivity|]. cbn. repeat split.
  - intros value Hv Hbad.
    destruct (addTempEntity_refuses w Hv) as (Empty & Long & Dup).
    destruct (truthy_str (Str.trim value)) eqn:T.
    + destruct (Nat.le_gt_cases (Str.len (Str.trim value)) 255) as [Hl|Hl].
      * destruct Hbad as [Hb|[Hb|(names & Hn & Hin)]]; [discriminate Hb|lia|].
        eexists. split; [|apply (Dup names eq_refl Hl Hn Hin)]. cbn. auto.
      * eexists. split; [|apply (Long eq_refl Hl)]. cbn. auto.
    + eexists. split; [|apply (Empty eq_refl)]. cbn. auto.
Qed.

Lemma validation_failures_stay_local_witness :
  exists w',
    handleUpdateMap Sample.at_edit_form = Done tt w'
    /\ app w' = app Sample.at_edit_form
    /\ trace w' = [Alert "Please fill in both Drawer and Description fields."].
Proof.
  destruct (@validation_failures_stay_local Sample.platform Sample.at_edit_form)
    as (_ & U & _).
  destruct (U _ eq_refl (or_intror eq_refl)) as (w' & E & A & T & _).
  exists w'. repeat split; assumption.
Defined.

(* ================================================================= *)
(** ** The letter filter *)

Section FilterFacts.

Context {P : Platform}.

Lemma filter_array_named (letter : string) (rows : list JsVal) :
  Forall (fun e => entityNameOf e <> None) rows ->
  filter_array (startsWithLetter letter) rows
  = inr (filter (matchesLetter letter) rows).
Proof.
  induction 1 as [|e rows He Hrows IH]; [reflexivity|].
  cbn [filter_array filter]. rewrite IH.
  unfold startsWithLetter, matchesLetter, entityNameOf, Str.startsWith in *.
  destruct (Js.get e "EntityName") as [name|]; [|congruence].
  destruct (Js.or name (JStr "")); congruence.
Qed.

Lemma named_not_nullish (rows : list JsVal) :
  Forall (fun e => entityNameOf e <> None) rows ->
  forallb (fun r => negb (Js.nullish r)) rows = true.
Proof.
  induction 1 as [|e rows He Hrows IH]; [reflexivity|].
  cbn [forallb]. rewrite IH. destruct e; try reflexivity; now elim He.
Qed.

Lemma Forall_filter {A : Type} (Q : A -> Prop) (f : A -> bool) (l : list A) :
  Forall Q l -> Forall Q (filter f l).
Proof.
  induction 1 as [|x l Hx Hl IH]; cbn; [constructor|].
  destruct (f x); [constructor|]; assumption.
Qed.

End FilterFacts.

(** C5.  On an array whose records all have a string (or nothing) for
    [EntityName], the filter of [filterEntitiesByLetter] keeps exactly
    the records whose name, in lower case, starts with the letter in
    lower case, in the order they came in; so it does not depend on the
    case of the letter.  With the letter ["M"] and the records Martinez,
    adams, Moreno it keeps Martinez and Moreno, in this order.  On the
    browse-entities page, when the response is ok and carries such an
    array, the handler returns, the result area shows the records kept
    (or the no-records message when none is) and the application object
    is as before. *)
Theorem letter_filter_prefix_match {P : Platform} (letter : string) (rows : list JsVal) :
  Forall (fun e => entityNameOf e <> None) rows ->
  filterByLetter letter (JArr rows) = inr (JArr (filter (matchesLetter letter) rows))
  /\ (forall letter', Str.toLowerCase letter' = Str.toLowerCase letter ->
                      filter (matchesLetter letter') rows
                      = filter (matchesLetter letter) rows)
  /\ filterByLetter "M" (JArr Sample.three_entities)
     = inr (JArr [Sample.entity "Martinez"; Sample.entity "Moreno"])
  /\ (forall w v resp data,
         list_view w = Some v ->
         truthy_str letter = true ->
         ok resp = true ->
         json resp = Some data ->
         Js.get data "data" = Some (JArr rows) ->
         exists w' v',
           run [Resolved resp] (filterEntitiesByLetter (Some letter) w) = Done tt w'
           /\ list_view w' = Some v'
           /\ results v' = match filter (matchesLetter letter) rows with
                           | [] => NoRecords
                           | kept => EntityRows kept
                           end
           /\ app w' = app w).
Proof.
  intros Hnamed. repeat split.
  - unfold filterByLetter. now rewrite filter_array_named.
  - intros letter' E. apply filter_ext. intros e.
    unfold matchesLetter. now rewrite E.
  - intros w v resp data Hv Hl Hok Hjson Hdata.
    unfold list_view in Hv.
    destruct (content_area (dom w)) as [[]|] eqn:C; try discriminate Hv.
    injection Hv as ->.
    unfold filterEntitiesByLetter, results_container, list_view, entities_search,
      list_view, set_results, set_pagination, list_view.
    exec. cbn [dom record]. rewrite C. exec.
    cbn [dom record content_area]. rewrite C. exec. rewrite Nat.eqb_refl. exec.
    cbn [run bindT catchT]. rewrite Hok. cbn [negb]. exec.
    unfold response_json. rewrite Hjson. exec. rewrite Hdata. exec.
    cbn [Js.get]. exec. unfold truthy_opt. rewrite Hl. exec.
    unfold filterByLetter. rewrite (filter_array_named letter Hnamed). exec.
    assert (R : renderEntitiesResults (JArr (filter (matchesLetter letter) rows))
                = inr (match filter (matchesLetter letter) rows with
                       | [] => NoRecords
                       | kept => EntityRows kept
                       end)).
    { rewrite renderEntitiesResults_array.
      - now destruct (filter (matchesLetter letter) rows).
      - apply named_not_nullish. apply Forall_filter. exact Hnamed. }
    rewrite R. exec.
    cbn [dom record set_dom with_content_area content_area content_epoch].
    rewrite Nat.eqb_refl. exec.
    cbn [dom record set_dom with_content_area content_area]. exec.
    do 2 eexists. split; [reflexivity|]. cbn. repeat split.
Qed.

Lemma letter_filter_prefix_match_witness :
  exists w' v',
    run [Resolved (Sample.answer (JObj [("data", JArr Sample.three_entities)]))]
        (filterEntitiesByLetter (P := Sample.platform) (Some "M")
                                Sample.at_browse_entities)
    = Done tt w'
    /\ list_view w' = Some v'
    /\ results v' = EntityRows [Sample.entity "Martinez"; Sample.entity "Moreno"].
Proof.
  assert (N : Forall (fun e => entityNameOf e <> None) Sample.three_entities).
  { repeat constructor; discriminate. }
  destruct (@letter_filter_prefix_match Sample.platform "M" Sample.three_entities N)
    as (_ & _ & _ & H).
  destruct (H Sample.at_browse_entities _
              (Sample.answer (JObj [("data", JArr Sample.three_entities)]))
              _ eq_refl eq_refl eq_refl eq_refl eq_refl)
    as (w' & v' & E & V & R & _).
  exists w', v'. repeat split; assumption.
Defined.

(* ================================================================= *)
(** ** Inserting a map with its entities *)

Section InsertFacts.

Context {P : Platform}.

Lemma reports_verdict (b : bool) (a : FetchResult) : reports b a -> verdict a = b.
Proof.
  intros (r & data & s & -> & J & G & T). unfold verdict. now rewrite J, G.
Qed.

Lemma addEntities_run (traceNumber : string) (names : list string) :
  forall (answers : list FetchResult),
    List.length answers = List.length names ->
    forall (B : Type) (C : Task (nat * list string) -> Task B),
      lifts C ->
      forall successCount failedEntities w rest,
      exists w',
        run (answers ++ rest)%list
            (C (addEntities traceNumber names successCount failedEntities w))
        = run rest (C (Done (tally names answers successCount failedEntities) w'))
        /\ app w' = app w /\ dom w' = dom w /\ alerts w' = alerts w
        /\ requests w'
           = (requests w
              ++ map (fun n => POST (addEntityUrl traceNumber n) None) names)%list.
Proof.
  induction names as [|name names IH]; intros answers Hlen B C HC sc failed w rest.
  - destruct answers; [|discriminate Hlen].
    exists w. cbn. rewrite app_nil_r. repeat split.
  - destruct answers as [|a answers]; [discriminate Hlen|].
    injection Hlen as Hlen.
    cbn [addEntities]. exec. rewrite HC. cbn [run List.app].
    assert (finish : forall sc' failed' w1,
               tally (name :: names) (a :: answers) sc failed
               = tally names answers sc' failed' ->
               app w1 = app w -> dom w1 = dom w -> alerts w1 = alerts w ->
               requests w1
               = (requests w ++ [POST (addEntityUrl traceNumber name) None])%list ->
               exists w',
                 run (answers ++ rest)%list
                     (C (addEntities traceNumber names sc' failed' w1))
                 = run rest (C (Done (tally (name :: names) (a :: answers) sc failed) w'))
                 /\ app w' = app w /\ dom w' = dom w /\ alerts w' = alerts w
                 /\ requests w'
                    = (requests w
                       ++ map (fun n => POST (addEntityUrl traceNumber n) None)
                              (name :: names))%list).
    { intros sc' failed' w1 -> A1 D1 L1 R1.
      destruct (IH answers Hlen B C HC sc' failed' w1 rest) as (w' & E & A & D & L & R).
      exists w'. split; [exact E|].
      rewrite A, D, L, R, A1, D1, L1, R1. cbn [map].
      rewrite <- app_assoc. repeat split. }
    unfold response_json.
    destruct a as [e|resp].
    + exec. cbn [fst snd]. apply finish; observe; reflexivity.
    + exec. destruct (json resp) as [data|] eqn:J.
      * exec. destruct (Js.get data "success") as [s|] eqn:G.
        -- exec. destruct (Js.truthy s) eqn:T; exec; cbn [fst snd];
             (apply finish;
              [cbn [tally]; unfold verdict; rewrite J, G, T; reflexivity
              |observe; reflexivity ..]).
        -- exec. cbn [fst snd].
           apply finish;
             [cbn [tally]; unfold verdict; rewrite J, G; reflexivity
             |observe; reflexivity ..].
      * exec. cbn [fst snd].
        apply finish;
          [cbn [tally]; unfold verdict; rewrite J; reflexivity
          |observe; reflexivity ..].
Qed.

Lemma tally_all_added (names : list string) :
  forall answers successCount failedEntities,
    Forall (reports true) answers ->
    List.length answers = List.length names ->
    tally names answers successCount failedEntities
    = (successCount + List.length names, failedEntities).
Proof.
  induction names as [|name names IH]; intros answers sc failed Hall Hlen.
  - destruct answers; [|discriminate Hlen]. cbn. now rewrite Nat.add_0_r.
  - destruct answers as [|a answers]; [discriminate Hlen|].
    injection Hlen as Hlen. inversion Hall as [|? ? Ha Hrest]; subst.
    cbn [tally]. rewrite (reports_verdict Ha). rewrite (IH _ _ _ Hrest Hlen).
    cbn [List.length]. f_equal. lia.
Qed.

Lemma tally_app (names1 names2 : list string) :
  forall answers1 answers2 successCount failedEntities,
    List.length answers1 = List.length names1 ->
    tally (names1 ++ names2) (answers1 ++ answers2) successCount failedEntities
    = tally names2 answers2
            (fst (tally names1 answers1 successCount failedEntities))
            (snd (tally names1 answers1 successCount failedEntities)).
Proof.
  induction names1 as [|name names1 IH]; intros answers1 answers2 sc failed Hlen.
  - destruct answers1; [|discriminate Hlen]. reflexivity.
  - destruct answers1 as [|a answers1]; [discriminate Hlen|].
    injection Hlen as Hlen. cbn [tally List.app].
    destruct (verdict a); apply IH; exact Hlen.
Qed.

(** All requests but one report success. *)
Lemma tally_one_failure (before after : list string) (failedName : string)
      (yes_before yes_after : list FetchResult) (no : FetchResult) :
  Forall (reports true) yes_before ->
  List.length yes_before = List.length before ->
  reports false no ->
  Forall (reports true) yes_after ->
  List.length yes_after = List.length after ->
  tally (before ++ failedName :: after) (yes_before ++ no :: yes_after) 0 []
  = (List.length before + List.length after, [failedName]).
Proof.
  intros Hb Lb Hno Ha La.
  rewrite tally_app by exact Lb.
  rewrite (@tally_all_added before yes_before 0 [] Hb Lb).
  cbn [fst snd tally Nat.add]. rewrite (reports_verdict Hno).
  rewrite (@tally_all_added after yes_after _ _ Ha La). reflexivity.
Qed.

End InsertFacts.

(** C2.  The insert-map form is filled in, an administrator is signed
    in and the temporary list holds the names [before], [failedName],
    [after] (so it is not empty).  The POST of the map reports success;
    so does the POST of every entity except that of [failedName], whose
    response reports [success: false].  Then the handler returns after
    these requests and no other (the map, then one association per name
    in the order of the list: nothing is taken back), and its only alert
    is the report: the map was inserted, the number of entities added,
    [1 entities failed] and the name that failed. *)
Theorem partial_failure_reported {P : Platform} (w : World) (form : InsertView)
        (user : User) (before after : list string) (failedName : string)
        (mapAnswer no : FetchResult) (yes_before yes_after : list FetchResult) :
  insert_view w = Some form ->
  truthy_str (Str.trim (trace_number form)) = true ->
  truthy_str (Str.trim (drawer form)) = true ->
  truthy_str (Str.trim (description form)) = true ->
  currentUser (app w) = Some user ->
  tempEntitiesList (app w) = Some (before ++ failedName :: after)%list ->
  reports true mapAnswer ->
  Forall (reports true) yes_before ->
  List.length yes_before = List.length before ->
  reports false no ->
  Forall (reports true) yes_after ->
  List.length yes_after = List.length after ->
  exists w',
    run (mapAnswer :: yes_before ++ no :: yes_after)%list
        (handleInsertMapWithEntities w)
    = Done tt w'
    /\ alerts w'
       = (alerts w
          ++ [("Map inserted successfully!" ++ nl
               ++ Str.of_nat (List.length before + List.length after)
               ++ " entities added successfully." ++ nl
               ++ "1 entities failed: " ++ failedName)%string])%list
    /\ requests w'
       = (requests w
          ++ POST "/api/maps"
                  (Some (JObj [("Number", JStr (Str.trim (trace_number form)));
                               ("Drawer", JStr (Str.trim (drawer form)));
                               ("PropertyDetails", JStr (Str.trim (description form)));
                               ("CreatedBy", username user)]))
             :: map (fun n => POST (addEntityUrl (Str.trim (trace_number form)) n) None)
                    (before ++ failedName :: after))%list
    /\ Forall (fun r => method r = "POST")
              (skipn (List.length (requests w)) (requests w'))
    /\ tempEntitiesList (app w') = Some [].
Proof.
  intros Hv Ht Hd Hc Hu Hn (r & data & s & -> & J & G & T) Hb Lb Hno Ha La.
  unfold insert_view in Hv.
  destruct (content_area (dom w)) as [[]|] eqn:C; try discriminate Hv.
  injection Hv as ->.
  unfold handleInsertMapWithEntities, insert_view.
  exec. rewrite C. exec. rewrite Ht, Hd, Hc. cbn [negb orb]. exec.
  rewrite C. exec.
  cbn [app dom set_dom with_content_area content_area]. rewrite Hn. exec.
  cbn [app record set_dom]. rewrite Hu. exec.
  cbn [run bindT catchT finallyT].
  unfold response_json. rewrite J. exec. rewrite G. exec. rewrite T.
  cbn [negb]. exec.
  cbn [app record set_dom]. rewrite Hn. exec.
  assert (Hpos : (0 <? List.length (before ++ failedName :: after))%nat = true).
  { rewrite length_app. cbn [List.length]. apply Nat.ltb_lt. lia. }
  rewrite Hpos. cbn [bindT].
  assert (Hlen : List.length (yes_before ++ no :: yes_after)
                 = List.length (before ++ failedName :: after)).
  { rewrite !length_app. cbn [List.length]. lia. }
  match goal with
  | |- context [addEntities ?tn ?ns ?sc ?f ?w0] =>
      pattern (addEntities tn ns sc f w0);
      match goal with
      | |- (fun t => exists w', run _ (@?C t) = _ /\ _) _ =>
          destruct (@addEntities_run P tn ns _ Hlen unit C
                      (fun _ _ _ => eq_refl) sc f w0 [])
            as (w6 & E6 & A6 & D6 & L6 & R6)
      end
  end.
  cbv beta. rewrite app_nil_r in E6. cbv beta in E6. rewrite E6.
  rewrite (@tally_one_failure before after failedName yes_before yes_after no
             Hb Lb Hno Ha La).
  cbn [bindT catchT finallyT fst snd].
  rewrite dom_record, D6.
  cbn [dom record set_dom with_content_area content_area bindT catchT finallyT].
  unfold updateTempEntitiesDisplay. exec.
  cbn [dom app set_app set_dom with_content_area content_area
       with_tempEntitiesList tempEntitiesList bindT catchT finallyT run].
  eexists. split; [reflexivity|].
  observe. rewrite L6, R6. observe.
  rewrite <- app_assoc. cbn [List.app].
  split; [reflexivity|]. split; [reflexivity|]. split; [|reflexivity].
  rewrite skipn_app, skipn_all, Nat.sub_diag. cbn [skipn List.app].
  constructor; [reflexivity|]. apply Forall_forall. intros x Hx.
  apply in_map_iff in Hx. destruct Hx as (n & <- & _). reflexivity.
Qed.

Lemma partial_failure_reported_witness :
  exists w',
    run [Sample.success_true; Sample.success_true; Sample.success_false]
        (handleInsertMapWithEntities (P := Sample.platform) Sample.ready_to_insert)
    = Done tt w'
    /\ alerts w'
       = [("Map inserted successfully!" ++ nl ++ "1 entities added successfully." ++ nl
           ++ "1 entities failed: Moreno")%string]
    /\ map method (requests w') = ["POST"; "POST"; "POST"]
    /\ map url (requests w')
       = ["/api/maps"; "/api/entities/map/1017/add?entity_name=Acme";
          "/api/entities/map/1017/add?entity_name=Moreno"]
    /\ tempEntitiesList (app w') = Some [].
Proof.
  assert (Yes : reports true Sample.success_true).
  { do 3 eexists. repeat split. }
  assert (No : reports false Sample.success_false).
  { do 3 eexists. repeat split. }
  destruct (@partial_failure_reported Sample.platform Sample.ready_to_insert
              _ Sample.admin ["Acme"] [] "Moreno"
              Sample.success_true Sample.success_false [Sample.success_true] []
              eq_refl eq_refl eq_refl eq_refl eq_refl eq_refl Yes
              (Forall_cons _ Yes (Forall_nil _)) eq_refl No (Forall_nil _) eq_refl)
    as (w' & E & A & R & _ & T).
  exists w'. rewrite A, R. repeat split; try assumption.
Defined.

(* ================================================================= *)
(** ** The route, the address bar and the title *)

Lemma pushes_record (e : Event) (w : World) :
  pushes (record e w)
  = (pushes w ++ match e with PushState st u => [(st, u)] | _ => [] end)%list.
Proof. unfold pushes, record. cbn. rewrite flat_map_app. cbn. now rewrite app_nil_r. Qed.

Lemma pushes_set_app (a : App) (w : World) : pushes (set_app a w) = pushes w.
Proof. reflexivity. Qed.
Lemma pushes_set_dom (d : Dom) (w : World) : pushes (set_dom d w) = pushes w.
Proof. reflexivity. Qed.

#[local] Hint Rewrite pushes_record pushes_set_app pushes_set_dom : world.

Lemma steady_refl (w : World) : steady w w.
Proof. repeat split. Qed.

Lemma steady_trans (w1 w2 w3 : World) : steady w1 w2 -> steady w2 w3 -> steady w1 w3.
Proof.
  unfold steady, same_route.
  intros ((a & b & c & d & e & f) & g & h & i) ((a' & b' & c' & d' & e' & f') & g' & h' & i').
  repeat split; congruence.
Qed.

Ltac steadied := unfold steady, same_route; observe; repeat split; reflexivity.

Section BarFacts.

Context {P : Platform}.

(** A renderer that does not redirect. *)
Lemma loadPageContent_steady (nav : string -> bool -> M unit) (page : string)
      (w : World) :
  gated page && negb (isAdminSession w) = false ->
  exists w', loadPageContent nav page w = Done tt w' /\ steady w w'.
Proof.
  intros G.
  assert (home : exists w', loadHomePage w = Done tt w' /\ steady w w').
  { unfold loadHomePage. exec. eexists. split; [reflexivity|steadied]. }
  assert (browse : forall k, exists w', spawn (loadBrowse k) w = Done tt w' /\ steady w w').
  { intros k. unfold loadBrowse. exec. eexists. split; [reflexivity|steadied]. }
  assert (admin : gated page = true -> isAdminSession w = true).
  { intros g. rewrite g in G. destruct (isAdminSession w); [reflexivity|discriminate G]. }
  unfold loadPageContent.
  destruct (page =? "home"); [exact home|].
  destruct (page =? "admin-panel") eqn:E2.
  { unfold loadAdminPanel, showAdminStatus. exec.
    rewrite admin by (unfold gated; rewrite E2; reflexivity).
    cbn [negb]. exec. eexists. split; [reflexivity|steadied]. }
  destruct (page =? "browse-maps"); [apply browse|].
  destruct (page =? "browse-entities"); [apply browse|].
  destruct (page =? "map-details").
  { unfold loadMapDetails, loadMapDetailsData. exec.
    eexists. split; [reflexivity|steadied]. }
  destruct (page =? "entity-details").
  { unfold loadEntityDetails. exec.
    destruct (selectedEntityInfo (app w)) as [i|].
    - destruct (truthy_str i).
      + unfold loadEntityDetailsData, loadMapPreviewForEntity,
          loadRelatedEntitiesForEntity. exec.
        eexists. split; [reflexivity|steadied].
      + exec. eexists. split; [reflexivity|steadied].
    - exec. eexists. split; [reflexivity|steadied]. }
  destruct (page =? "insert-map") eqn:E7.
  { unfold loadInsertMap. exec.
    rewrite admin by (unfold gated; rewrite E7, orb_true_r; reflexivity).
    cbn [negb]. exec. eexists. split; [reflexivity|steadied]. }
  destruct (page =? "update-delete") eqn:E8.
  { unfold loadUpdateDelete. exec.
    rewrite admin by (unfold gated; rewrite E8; apply orb_true_r).
    cbn [negb]. exec.
    destruct (negb (Js.truthy (selectedMapId (app w)))).
    - exec. eexists. split; [reflexivity|steadied].
    - unfold loadMapForEditing. exec. eexists. split; [reflexivity|steadied]. }
  exact home.
Qed.

Lemma updateBrowserHistory_lands (page : string) (mapId : JsVal)
      (info : option string) (w : World) :
  exists w',
    updateBrowserHistory page mapId info w = Done tt w'
    /\ quiet w w'
    /\ page_title (dom w') = page_title (dom w)
    /\ pathname (dom w')
       = (if pathname (dom w) =? canonicalPath page mapId info
          then pathname (dom w)
          else pathnameOf (canonicalPath page mapId info))
    /\ pushes w'
       = (pushes w
          ++ (if pathname (dom w) =? canonicalPath page mapId info
              then []
              else [(historyState page mapId info,
                     canonicalPath page mapId info)]))%list.
Proof.
  unfold updateBrowserHistory, pushState, log, console, modify, gets, bind.
  cbn [bindT]. fold (canonicalPath page mapId info).
  destruct (pathname (dom w) =? canonicalPath page mapId info);
    cbn [negb bindT]; eexists; (split; [reflexivity|]).
  - rewrite app_nil_r. repeat split.
  - split; [constructor; observe; reflexivity|]. observe. repeat split.
Qed.

Lemma updatePageTitle_lands (w : World) :
  exists w',
    updatePageTitle w = Done tt w'
    /\ quiet w w' /\ titled w'
    /\ pathname (dom w') = pathname (dom w) /\ pushes w' = pushes w.
Proof.
  unfold updatePageTitle, modify, titled. eexists. split; [reflexivity|].
  destruct (page_title (dom w)) eqn:T.
  - split; [now constructor|]. cbn. repeat split.
  - rewrite T. repeat split.
Qed.

(** [navigateTo] up to the point where it loads the page. *)
Lemma navigateTo_over_lands (load : M unit) (page : string) (add : bool) (w : World) :
  exists w1,
    navigateTo_over load page add w = load w1
    /\ app w1 = entered page add (app w)
    /\ content_area (dom w1) = content_area (dom w)
    /\ alerts w1 = alerts w /\ requests w1 = requests w /\ renders w1 = renders w
    /\ titled w1
    /\ pathname (dom w1)
       = (if pathname (dom w)
             =? canonicalPath page (selectedMapId (app w)) (selectedEntityInfo (app w))
          then pathname (dom w)
          else pathnameOf (canonicalPath page (selectedMapId (app w))
                                         (selectedEntityInfo (app w))))
    /\ pushes w1
       = (pushes w
          ++ (if pathname (dom w)
                 =? canonicalPath page (selectedMapId (app w)) (selectedEntityInfo (app w))
              then []
              else [(historyState page (selectedMapId (app w))
                                  (selectedEntityInfo (app w)),
                     canonicalPath page (selectedMapId (app w))
                                   (selectedEntityInfo (app w)))]))%list.
Proof.
  unfold navigateTo_over, log, console, modify, gets, bind. cbn [bindT].
  match goal with |- context [updateBrowserHistory ?p ?m ?i ?W] =>
    destruct (updateBrowserHistory_lands p m i W)
      as (w2 & E2 & [a2 c2 l2 r2 m2] & t2 & p2 & h2);
    rewrite E2 end.
  cbn [bindT].
  destruct (updatePageTitle_lands w2) as (w3 & E3 & [a3 c3 l3 r3 m3] & t3 & p3 & h3).
  rewrite E3. cbn [bindT].
  exists w3. split; [reflexivity|].
  rewrite a3, c3, l3, r3, m3, a2, c2, l2, r2, m2, p3, h3, p2, h2.
  unfold entered.
  repeat match goal with
         | |- context [if ?b then _ else _] =>
             progress change b with (add && negb (page =? currentPage (app w)))
         end.
  destruct (add && negb (page =? currentPage (app w))); observe;
    repeat split; auto.
Qed.

(** Loading a page whose renderer does not redirect. *)
Lemma loadCurrentPage_steady (k : nat) (w : World) :
  redirects w (currentPage (app w)) = false ->
  exists w', loadCurrentPage (S k) w = Done tt w' /\ steady w w'.
Proof.
  intros R. cbn [loadCurrentPage]. unfold gets, bind at 1. cbn [bindT].
  unfold redirects in R.
  destruct (content_area (dom w)) as [c|].
  - unfold bind at 1, render at 1, modify. cbn [bindT].
    unfold bind at 1. cbn [bindT]. observe.
    match goal with |- exists w', loadPageContent ?nav ?p ?w0 = _ /\ _ =>
      destruct (@loadPageContent_steady nav p w0) as (w' & E & S) end.
    { rewrite andb_true_r in R. exact R. }
    exists w'. split; [exact E|].
    eapply steady_trans; [|exact S]. steadied.
  - exists w. split; [reflexivity|apply steady_refl].
Qed.

Lemma loadCurrentPage_at_home (k : nat) (w : World) (c : Markup) :
  currentPage (app w) = "home" ->
  content_area (dom w) = Some c ->
  exists w',
    loadCurrentPage (S k) w = Done tt w' /\ steady w w'
    /\ content_area (dom w') = Some HomePage
    /\ requests w' = requests w
    /\ tempEntitiesList (app w') = tempEntitiesList (app w).
Proof.
  intros Hp Hc. cbn [loadCurrentPage]. exec. rewrite Hc. exec.
  cbn [app set_dom record]. rewrite Hp. unfold loadPageContent, loadHomePage.
  cbn [String.eqb Ascii.eqb Bool.eqb]. exec.
  eexists. split; [reflexivity|]. split; [steadied|]. observe. repeat split.
Qed.

Lemma loadCurrentPage_S (n : nat) (w : World) :
  loadCurrentPage (S n) w
  = match content_area (dom w) with
    | None => Done tt w
    | Some _ =>
        bindT (render LoadingPlaceholder w)
              (fun _ w0 => loadPageContent (navigateTo n) (currentPage (app w0)) w0)
    end.
Proof.
  cbn [loadCurrentPage]. unfold gets, bind at 1. cbn [bindT].
  destruct (content_area (dom w)); reflexivity.
Qed.

Lemma gated_not_home (page : string) : gated page = true -> ("home" =? page) = false.
Proof.
  intros G. destruct ("home" =? page) eqn:E; [|reflexivity].
  apply String.eqb_eq in E. subst page. discriminate G.
Qed.

Lemma loadPageContent_redirect (k : nat) (page : string) (w : World) :
  gated page = true ->
  isAdminSession w = false ->
  loadPageContent (navigateTo (S k)) page w = navigateTo (S k) "home" true w.
Proof.
  intros G A. destruct (gated_renderers_redirect k w A) as (R1 & R2 & R3).
  unfold gated in G.
  destruct (page =? "admin-panel") eqn:E1.
  { apply String.eqb_eq in E1. subst page. exact R1. }
  destruct (page =? "insert-map") eqn:E2.
  { apply String.eqb_eq in E2. subst page. exact R2. }
  destruct (page =? "update-delete") eqn:E3; [|discriminate G].
  apply String.eqb_eq in E3. subst page. exact R3.
Qed.

(** Loading the current page: how it ends, with or without a redirect
    by the administrator gate. *)
Lemma loadCurrentPage_lands (k : nat) (w : World) :
  exists w',
    loadCurrentPage (S (S k)) w = Done tt w'
    /\ currentUser (app w') = currentUser (app w)
    /\ selectedMapId (app w') = selectedMapId (app w)
    /\ selectedEntityInfo (app w') = selectedEntityInfo (app w)
    /\ alerts w' = alerts w
    /\ (titled w -> titled w')
    /\ if redirects w (currentPage (app w))
       then currentPage (app w') = "home"
            /\ pageHistory (app w')
               = (pageHistory (app w) ++ [currentPage (app w)])%list
            /\ content_area (dom w') = Some HomePage
            /\ titled w'
            /\ pathname (dom w')
               = (if pathname (dom w) =? "/" then pathname (dom w) else pathnameOf "/")
            /\ requests w' = requests w
            /\ tempEntitiesList (app w') = tempEntitiesList (app w)
       else steady w w'.
Proof.
  destruct (redirects w (currentPage (app w))) eqn:R.
  - unfold redirects in R.
    apply andb_prop in R. destruct R as (R & C).
    apply andb_prop in R. destruct R as (G & A).
    apply negb_true_iff in A.
    rewrite loadCurrentPage_S.
    destruct (content_area (dom w)) as [c|] eqn:Hc; [|discriminate C].
    unfold render, modify. cbn [bindT]. observe.
    match goal with |- context [loadPageContent _ ?p ?W] =>
      rewrite (@loadPageContent_redirect k p W G A) end.
    unfold navigateTo.
    match goal with |- context [navigateTo_over ?l ?p ?a ?W] =>
      destruct (navigateTo_over_lands l p a W)
        as (w1 & E1 & A1 & C1 & L1 & R1 & M1 & T1 & P1 & H1) end.
    rewrite E1.
    destruct (@loadCurrentPage_at_home k w1 LoadingPlaceholder)
      as (w2 & E2 & ((u & p & h & i & j & l) & pa & ti & pu) & C2 & R2 & Te).
    { rewrite A1. reflexivity. }
    { rewrite C1. reflexivity. }
    exists w2. split; [exact E2|].
    assert (T2 : titled w2).
    { unfold titled in *. rewrite ti, p. exact T1. }
    rewrite u, i, j, l, p, h, C2, pa, R2, Te, A1, L1, R1, P1. unfold entered.
    observe. cbn [app set_dom record currentPage pageHistory with_currentPage
                  with_pageHistory andb].
    rewrite (gated_not_home _ G). cbn [negb].
    cbn. repeat split; auto.
  - destruct (@loadCurrentPage_steady (S k) w R)
      as (w' & E & S).
    exists w'. split; [exact E|].
    pose proof S as ((u & p & h & i & j & l) & pa & ti & pu).
    repeat split; auto.
    unfold titled. rewrite ti, p. auto.
Qed.

(** [navigateTo(page, addToHistory)]: how it ends. *)
Lemma navigateTo_lands (k : nat) (page : string) (add : bool) (w : World) :
  exists w',
    navigateTo (S (S k)) page add w = Done tt w'
    /\ currentUser (app w') = currentUser (app w)
    /\ selectedMapId (app w') = selectedMapId (app w)
    /\ selectedEntityInfo (app w') = selectedEntityInfo (app w)
    /\ alerts w' = alerts w
    /\ titled w'
    /\ currentPage (app w') = (if redirects w page then "home" else page)
    /\ pageHistory (app w')
       = (pageHistory (app w)
          ++ (if add && negb (page =? currentPage (app w))
              then [currentPage (app w)] else [])
          ++ (if redirects w page then [page] else []))%list
    /\ pathname (dom w')
       = (let entered_at :=
            if pathname (dom w)
               =? canonicalPath page (selectedMapId (app w)) (selectedEntityInfo (app w))
            then pathname (dom w)
            else pathnameOf (canonicalPath page (selectedMapId (app w))
                                           (selectedEntityInfo (app w))) in
          if redirects w page
          then if entered_at =? "/" then entered_at else pathnameOf "/"
          else entered_at).
Proof.
  unfold navigateTo.
  destruct (navigateTo_over_lands (loadCurrentPage (S (S k))) page add w)
    as (w1 & E1 & A1 & C1 & L1 & R1 & M1 & T1 & P1 & H1).
  destruct (loadCurrentPage_lands k w1) as (w2 & E2 & u & i & j & l & T & Rest).
  exists w2. split; [congruence|].
  assert (Cp : currentPage (app w1) = page) by (rewrite A1; reflexivity).
  assert (U : currentUser (entered page add (app w)) = currentUser (app w)
              /\ selectedMapId (entered page add (app w)) = selectedMapId (app w)
              /\ selectedEntityInfo (entered page add (app w))
                 = selectedEntityInfo (app w)).
  { unfold entered. destruct (add && negb (page =? currentPage (app w)));
      repeat split. }
  destruct U as (U1 & U2 & U3).
  assert (R : redirects w1 (currentPage (app w1)) = redirects w page).
  { unfold redirects, isAdminSession. rewrite Cp, C1, A1, U1. reflexivity. }
  rewrite R, Cp in Rest.
  rewrite u, i, j, l, A1, L1.
  assert (Hh : pageHistory (app w1)
               = (pageHistory (app w)
                  ++ (if add && negb (page =? currentPage (app w))
                      then [currentPage (app w)] else []))%list).
  { rewrite A1. unfold entered.
    destruct (add && negb (page =? currentPage (app w))); cbn;
      [reflexivity|now rewrite app_nil_r]. }
  split; [exact U1|]. split; [exact U2|]. split; [exact U3|]. split; [reflexivity|].
  split; [exact (T T1)|].
  cbv zeta. rewrite <- P1.
  destruct (redirects w page).
  - destruct Rest as (cp & hi & _ & _ & pa & _).
    rewrite cp, hi, Hh, pa, <- app_assoc. repeat split.
  - destruct Rest as ((_ & cp & hi & _) & pa & _).
    rewrite cp, hi, Hh, pa, Cp, app_nil_r. repeat split.
Qed.

End BarFacts.

(** X1.  [navigateTo(page, addToHistory)] always returns (two units of
    fuel are enough).  The session and the two selections are as before
    and no alert shows.  The page left is pushed on [pageHistory] exactly
    when [addToHistory] is set and [page] is not the current page.
    [currentPage] ends as [page], unless [page] is behind the
    administrator gate, the session is not an administrator's and the
    document has a [#content-area]: then it ends as ['home'] and [page]
    itself is pushed on the history as well. *)
Theorem navigateTo_settles {P : Platform} (k : nat) (page : string) (add : bool)
        (w : World) :
  exists w',
    navigateTo (S (S k)) page add w = Done tt w'
    /\ currentUser (app w') = currentUser (app w)
    /\ selectedMapId (app w') = selectedMapId (app w)
    /\ selectedEntityInfo (app w') = selectedEntityInfo (app w)
    /\ alerts w' = alerts w
    /\ currentPage (app w') = (if redirects w page then "home" else page)
    /\ pageHistory (app w')
       = (pageHistory (app w)
          ++ (if add && negb (page =? currentPage (app w))
              then [currentPage (app w)] else [])
          ++ (if redirects w page then [page] else []))%list.
Proof.
  destruct (navigateTo_lands k page add w)
    as (w' & E & u & i & j & l & _ & cp & hi & _).
  exists w'. repeat split; assumption.
Qed.

(** X2.  For each of the page names the script navigates to, on a
    browser whose URL parser leaves the path of [page] and the path [/]
    as they are, [navigateTo] ends with the title and the address bar in
    step with the page it ends on, also when the administrator gate has
    redirected it: [#page-title], when the document has one, shows the
    title of [currentPage], and [location.pathname] is the path
    [updateBrowserHistory] computes for [currentPage] and the two
    selections. *)
Theorem navigateTo_keeps_bars_in_step {P : Platform} (k : nat) (page : string)
        (add : bool) (w : World) :
  In page pageNames ->
  pathnameOf "/" = "/" ->
  pathnameOf (canonicalPath page (selectedMapId (app w)) (selectedEntityInfo (app w)))
  = canonicalPath page (selectedMapId (app w)) (selectedEntityInfo (app w)) ->
  exists w',
    navigateTo (S (S k)) page add w = Done tt w'
    /\ titled w'
    /\ pathname (dom w')
       = canonicalPath (currentPage (app w')) (selectedMapId (app w'))
                       (selectedEntityInfo (app w')).
Proof.
  intros _ Hroot Hpath.
  destruct (navigateTo_lands k page add w)
    as (w' & E & u & i & j & l & T & cp & hi & pa).
  exists w'. split; [exact E|]. split; [exact T|].
  rewrite pa, cp, i, j. cbv zeta. rewrite Hpath.
  set (path := canonicalPath page (selectedMapId (app w)) (selectedEntityInfo (app w))).
  assert (At : (if pathname (dom w) =? path then pathname (dom w) else path) = path).
  { destruct (pathname (dom w) =? path) eqn:E1; [|reflexivity].
    apply String.eqb_eq. exact E1. }
  rewrite At. destruct (redirects w page); [|reflexivity].
  change (canonicalPath "home" (selectedMapId (app w)) (selectedEntityInfo (app w)))
    with "/".
  rewrite Hroot. destruct (path =? "/") eqn:E2; [|reflexivity].
  apply String.eqb_eq. exact E2.
Qed.

Lemma navigateTo_keeps_bars_in_step_witness :
  exists w',
    navigateTo (P := Sample.platform) 2 "insert-map" true Sample.session_ended
    = Done tt w'
    /\ titled w'
    /\ pathname (dom w')
       = canonicalPath (P := Sample.platform) (currentPage (app w'))
                       (selectedMapId (app w')) (selectedEntityInfo (app w')).
Proof.
  apply (@navigateTo_keeps_bars_in_step Sample.platform 0 "insert-map" true
           Sample.session_ended).
  - simpl. auto 10.
  - reflexivity.
  - reflexivity.
Defined.

(** X3.  [navigateTo(page)] followed by [goBack()] comes back: when
    [page] is not the current page and neither of the two pages is
    closed to the session by the administrator gate, [currentPage] and
    [pageHistory] end as they were before the two calls, and so do the
    two selections. *)
Theorem navigateTo_then_goBack {P : Platform} (k k' : nat) (page : string)
        (w : World) :
  page <> currentPage (app w) ->
  gated page && negb (isAdminSession w) = false ->
  gated (currentPage (app w)) && negb (isAdminSession w) = false ->
  exists w1 w2,
    navigateTo (S (S k)) page true w = Done tt w1
    /\ currentPage (app w1) = page
    /\ pageHistory (app w1) = (pageHistory (app w) ++ [currentPage (app w)])%list
    /\ goBack (S (S k')) w1 = Done tt w2
    /\ currentPage (app w2) = currentPage (app w)
    /\ pageHistory (app w2) = pageHistory (app w)
    /\ selectedMapId (app w2) = selectedMapId (app w)
    /\ selectedEntityInfo (app w2) = selectedEntityInfo (app w).
Proof.
  intros Hne Gp Gc.
  destruct (navigateTo_lands k page true w)
    as (w1 & E1 & u1 & i1 & j1 & _ & _ & cp1 & hi1 & _).
  assert (R1 : redirects w page = false) by (unfold redirects; now rewrite Gp).
  assert (N : (page =? currentPage (app w)) = false) by now apply String.eqb_neq.
  rewrite R1 in cp1, hi1. rewrite N in hi1. cbn [andb negb] in hi1.
  rewrite app_nil_r in hi1.
  unfold goBack, gets, bind at 1. cbn [bindT].
  assert (Len : (0 <? List.length (pageHistory (app w1)))%nat = true).
  { rewrite hi1, length_app. cbn [List.length]. apply Nat.ltb_lt. lia. }
  set (w1' := set_app (with_pageHistory (removelast (pageHistory (app w1))) (app w1)) w1).
  destruct (navigateTo_lands k' (last (pageHistory (app w1)) "") false w1')
    as (w2 & E2 & u2 & i2 & j2 & _ & _ & cp2 & hi2 & _).
  assert (La : last (pageHistory (app w1)) "" = currentPage (app w)).
  { rewrite hi1. apply last_last. }
  assert (Re : removelast (pageHistory (app w1)) = pageHistory (app w)).
  { rewrite hi1. apply removelast_last. }
  assert (R2 : redirects w1' (currentPage (app w)) = false).
  { unfold redirects, isAdminSession. cbn [w1' app set_app with_pageHistory currentUser].
    rewrite u1. fold (isAdminSession w). now rewrite Gc. }
  rewrite La in E2, cp2, hi2. rewrite R2 in cp2, hi2.
  cbn [w1' app set_app with_pageHistory pageHistory andb] in hi2.
  rewrite Re, !app_nil_r in hi2.
  exists w1, w2. split; [exact E1|]. split; [exact cp1|]. split; [exact hi1|].
  split.
  { rewrite Len. unfold pop. rewrite La. unfold bind at 1, modify. cbn [bindT].
    exact E2. }
  rewrite cp2, hi2, i2, j2. cbn [w1' app set_app with_pageHistory selectedMapId
                                 selectedEntityInfo].
  rewrite i1, j1. repeat split.
Qed.

Lemma navigateTo_then_goBack_witness :
  exists w1 w2,
    navigateTo (P := Sample.platform) 2 "browse-maps" true
      (Sample.world Sample.anonymous (Sample.document "/" HomePage))
    = Done tt w1
    /\ currentPage (app w1) = "browse-maps"
    /\ pageHistory (app w1) = ["home"; "home"]
    /\ goBack (P := Sample.platform) 2 w1 = Done tt w2
    /\ currentPage (app w2) = "home"
    /\ pageHistory (app w2) = ["home"].
Proof.
  destruct (@navigateTo_then_goBack Sample.platform 0 0 "browse-maps"
              (Sample.world Sample.anonymous (Sample.document "/" HomePage)))
    as (w1 & w2 & E1 & C1 & H1 & E2 & C2 & H2 & _).
  - discriminate.
  - reflexivity.
  - reflexivity.
  - exists w1, w2. repeat split; assumption.
Defined.

Lemma popstate_lands {P : Platform} (k : nat) (st : HistoryState) (w : World) :
  exists w',
    popstate (S (S k)) (Some st) w = Done tt w'
    /\ currentUser (app w') = currentUser (app w)
    /\ selectedMapId (app w') = hs_selectedMapId st
    /\ selectedEntityInfo (app w') = hs_selectedEntityInfo st
    /\ titled w'
    /\ if redirects w (hs_page st)
       then currentPage (app w') = "home"
            /\ pageHistory (app w') = (pageHistory (app w) ++ [hs_page st])%list
       else currentPage (app w') = hs_page st
            /\ pageHistory (app w') = pageHistory (app w)
            /\ pushes w' = pushes w
            /\ pathname (dom w') = pathname (dom w).
Proof.
  unfold popstate, log, console, modify, bind. cbn [bindT].
  match goal with |- context [updatePageTitle ?W] =>
    destruct (updatePageTitle_lands W) as (w1 & E1 & [a1 c1 l1 r1 m1] & T1 & p1 & h1)
  end.
  rewrite E1. cbn [bindT].
  destruct (loadCurrentPage_lands k w1) as (w2 & E2 & u & i & j & l & T & Rest).
  exists w2. split; [exact E2|].
  assert (R : redirects w1 (currentPage (app w1)) = redirects w (hs_page st)).
  { unfold redirects, isAdminSession. rewrite a1, c1. reflexivity. }
  rewrite R in Rest. rewrite u, i, j, a1.
  split; [reflexivity|]. split; [reflexivity|]. split; [reflexivity|].
  split; [exact (T T1)|].
  destruct (redirects w (hs_page st)).
  - destruct Rest as (cp & hi & _). rewrite cp, hi, a1. split; reflexivity.
  - destruct Rest as ((_ & cp & hi & _) & pa & _ & pu).
    rewrite cp, hi, pa, pu, a1, p1, h1. observe. repeat split.
Qed.

(** X4.  The listener on [popstate], given the state object of a
    history entry for one of the page names the script navigates to,
    always returns.  It takes the two selections from the state and the
    title follows the page it ends on.  Unless the
    administrator gate redirects, [currentPage] is the page of the
    state, the in-app [pageHistory] is not touched, no history entry is
    pushed and the address bar stays where the browser has put it.  When
    the gate redirects, [currentPage] ends as ['home'] and the page of
    the state is pushed on [pageHistory]. *)
Theorem popstate_restores {P : Platform} (k : nat) (st : HistoryState) (w : World) :
  In (hs_page st) pageNames ->
  exists w',
    popstate (S (S k)) (Some st) w = Done tt w'
    /\ currentUser (app w') = currentUser (app w)
    /\ selectedMapId (app w') = hs_selectedMapId st
    /\ selectedEntityInfo (app w') = hs_selectedEntityInfo st
    /\ titled w'
    /\ if redirects w (hs_page st)
       then currentPage (app w') = "home"
            /\ pageHistory (app w') = (pageHistory (app w) ++ [hs_page st])%list
       else currentPage (app w') = hs_page st
            /\ pageHistory (app w') = pageHistory (app w)
            /\ pushes w' = pushes w
            /\ pathname (dom w') = pathname (dom w).
Proof. intros _. apply popstate_lands. Qed.

Lemma popstate_restores_witness :
  exists w',
    popstate (P := Sample.platform) 2
      (Some {| hs_page := "admin-panel";
               hs_selectedMapId := JNull;
               hs_selectedEntityInfo := None |})
      Sample.session_ended
    = Done tt w'
    /\ titled w'
    /\ currentPage (app w') = "home"
    /\ pageHistory (app w') = ["home"; "admin-panel"; "admin-panel"].
Proof.
  destruct (@popstate_restores Sample.platform 0
              {| hs_page := "admin-panel";
                 hs_selectedMapId := JNull;
                 hs_selectedEntityInfo := None |}
              Sample.session_ended)
    as (w' & E & _ & _ & _ & T & Rest).
  - simpl. auto 10.
  - change (redirects Sample.session_ended "admin-panel") with true in Rest.
    cbv iota in Rest. destruct Rest as (cp & hi).
    exists w'. repeat split; assumption.
Defined.

(** X5.  What [updateBrowserHistory] pushes comes back through
    [popstate], for each of the page names the script navigates to:
    when the address bar is not yet at the path of the page,
    it pushes one entry, whose URL is that path; and the listener, given
    the state object of this entry at any later moment at which the gate
    does not redirect, returns with [currentPage] equal to the page, with
    [selectedEntityInfo] as it was passed and with [selectedMapId] as it
    was passed, [undefined] having become [null]. *)
Theorem pushed_entry_restores {P : Platform} (k : nat) (page : string)
        (mapId : JsVal) (info : option string) (w later : World) :
  In page pageNames ->
  pathname (dom w) <> canonicalPath page mapId info ->
  redirects later page = false ->
  exists w1 st w3,
    updateBrowserHistory page mapId info w = Done tt w1
    /\ pushes w1 = (pushes w ++ [(st, canonicalPath page mapId info)])%list
    /\ popstate (S (S k)) (Some st) later = Done tt w3
    /\ currentPage (app w3) = page
    /\ selectedMapId (app w3) = match mapId with JUndefined => JNull | v => v end
    /\ selectedEntityInfo (app w3) = info.
Proof.
  intros _ Hne R.
  destruct (updateBrowserHistory_lands page mapId info w)
    as (w1 & E1 & _ & _ & _ & pu).
  apply String.eqb_neq in Hne. rewrite Hne in pu.
  destruct (popstate_lands k (historyState page mapId info) later)
    as (w3 & E3 & _ & i & j & _ & Rest).
  cbn [historyState hs_page hs_selectedMapId hs_selectedEntityInfo] in i, j, Rest.
  rewrite R in Rest. destruct Rest as (cp & _).
  exists w1, (historyState page mapId info), w3. repeat split; assumption.
Qed.

Lemma pushed_entry_restores_witness :
  exists w1 st w3,
    updateBrowserHistory (P := Sample.platform) "map-details" JUndefined None
      (Sample.world Sample.anonymous (Sample.document "/" HomePage))
    = Done tt w1
    /\ pushes w1 = [(st, "/map-details")]
    /\ popstate (P := Sample.platform) 2 (Some st) Sample.session_ended = Done tt w3
    /\ currentPage (app w3) = "map-details"
    /\ selectedMapId (app w3) = JNull
    /\ selectedEntityInfo (app w3) = None.
Proof.
  destruct (@pushed_entry_restores Sample.platform 0 "map-details" JUndefined None
              (Sample.world Sample.anonymous (Sample.document "/" HomePage))
              Sample.session_ended)
    as (w1 & st & w3 & H).
  - simpl. auto 10.
  - discriminate.
  - reflexivity.
  - exists w1, st, w3. exact H.
Defined.

(* ================================================================= *)
(** ** What the pages show when they are entered *)

Section PageFacts.

Context {P : Platform}.

(** [navigateTo] in a document with a [#content-area], up to the
    renderer of the page. *)
Lemma navigateTo_renders (k : nat) (page : string) (add : bool) (w : World)
      (c : Markup) :
  content_area (dom w) = Some c ->
  exists w0,
    navigateTo (S k) page add w = loadPageContent (navigateTo k) page w0
    /\ app w0 = entered page add (app w)
    /\ content_area (dom w0) = Some LoadingPlaceholder
    /\ alerts w0 = alerts w /\ requests w0 = requests w
    /\ pathname (dom w0)
       = (if pathname (dom w)
             =? canonicalPath page (selectedMapId (app w)) (selectedEntityInfo (app w))
          then pathname (dom w)
          else pathnameOf (canonicalPath page (selectedMapId (app w))
                                         (selectedEntityInfo (app w)))).
Proof.
  intros Hc. unfold navigateTo.
  destruct (navigateTo_over_lands (loadCurrentPage (S k)) page add w)
    as (w1 & E1 & A1 & C1 & L1 & R1 & _ & _ & P1 & _).
  rewrite E1, loadCurrentPage_S, C1, Hc. unfold render, modify. cbn [bindT].
  eexists. split.
  - observe. rewrite A1. reflexivity.
  - observe. rewrite L1, R1, P1. repeat split. exact A1.
Qed.

Lemma entered_session (page : string) (add : bool) (w w0 : World) :
  app w0 = entered page add (app w) ->
  isAdminSession w0 = isAdminSession w
  /\ selectedMapId (app w0) = selectedMapId (app w)
  /\ selectedEntityInfo (app w0) = selectedEntityInfo (app w)
  /\ tempEntitiesList (app w0) = tempEntitiesList (app w)
  /\ currentPage (app w0) = page.
Proof.
  intros E. unfold isAdminSession. rewrite E. unfold entered.
  destruct (add && negb (page =? currentPage (app w))); repeat split.
Qed.

End PageFacts.

(** X6.  Entering the insert-map page as an administrator starts from
    nothing: whatever the temporary entity list held, [navigateTo] ends
    with the list empty and the form blank, its submit button enabled;
    no request is sent and no alert shows. *)
Theorem insert_map_page_starts_empty {P : Platform} (k : nat) (add : bool)
        (w : World) (c : Markup) :
  isAdminSession w = true ->
  content_area (dom w) = Some c ->
  exists w',
    navigateTo (S k) "insert-map" add w = Done tt w'
    /\ currentPage (app w') = "insert-map"
    /\ tempEntitiesList (app w') = Some []
    /\ insert_view w'
       = Some {| trace_number := "";
                 drawer := "";
                 description := "";
                 insert_submit_text := "Insert Map & Entities";
                 insert_submit_disabled := false;
                 insert_new_entity_name := "";
                 temp_entities_list := NoneYet |}
    /\ requests w' = requests w /\ alerts w' = alerts w.
Proof.
  intros Ha Hc.
  destruct (navigateTo_renders k "insert-map" add w Hc)
    as (w0 & E0 & A0 & C0 & L0 & R0 & _).
  destruct (@entered_session _ _ _ _ A0) as (S0 & _ & _ & _ & Cp).
  rewrite E0. unfold loadPageContent. cbn [String.eqb Ascii.eqb Bool.eqb].
  unfold loadInsertMap. exec. rewrite S0, Ha. cbn [negb]. exec.
  eexists. split; [reflexivity|]. unfold insert_view. observe.
  rewrite L0, R0. cbn. repeat split. exact Cp.
Qed.

Lemma insert_map_page_starts_empty_witness :
  exists w',
    navigateTo (P := Sample.platform) 1 "insert-map" true Sample.ready_to_insert
    = Done tt w'
    /\ tempEntitiesList (app Sample.ready_to_insert) = Some ["Acme"; "Moreno"]
    /\ tempEntitiesList (app w') = Some [].
Proof.
  destruct (@insert_map_page_starts_empty Sample.platform 0 true
              Sample.ready_to_insert _ eq_refl eq_refl)
    as (w' & E & _ & T & _).
  exists w'. repeat split; assumption.
Defined.

(** X7.  Entering the update-delete page as an administrator: when
    [selectedMapId] is falsy (no map was chosen) the page shows the
    notice that a map must be selected first and no request is sent;
    otherwise it shows the loading notice and one request goes out, a
    GET of [/api/maps/] followed by the id. *)
Theorem update_delete_needs_a_map {P : Platform} (k : nat) (add : bool)
        (w : World) (c : Markup) :
  isAdminSession w = true ->
  content_area (dom w) = Some c ->
  exists w',
    navigateTo (S k) "update-delete" add w = Done tt w'
    /\ currentPage (app w') = "update-delete"
    /\ alerts w' = alerts w
    /\ if Js.truthy (selectedMapId (app w))
       then content_area (dom w') = Some LoadingMapForEditing
            /\ requests w'
               = (requests w
                  ++ [GET ("/api/maps/" ++ Js.toString (selectedMapId (app w)))])%list
       else content_area (dom w') = Some SelectMapFirst
            /\ requests w' = requests w.
Proof.
  intros Ha Hc.
  destruct (navigateTo_renders k "update-delete" add w Hc)
    as (w0 & E0 & A0 & C0 & L0 & R0 & _).
  destruct (@entered_session _ _ _ _ A0) as (S0 & M0 & _ & _ & Cp).
  rewrite E0. unfold loadPageContent. cbn [String.eqb Ascii.eqb Bool.eqb].
  unfold loadUpdateDelete. exec. rewrite S0, Ha. cbn [negb]. exec. rewrite M0.
  destruct (Js.truthy (selectedMapId (app w))); cbn [negb].
  - unfold loadMapForEditing. exec. eexists. split; [reflexivity|].
    observe. rewrite L0, R0, M0. cbn. repeat split. exact Cp.
  - exec. eexists. split; [reflexivity|].
    observe. rewrite L0, R0. cbn. repeat split. exact Cp.
Qed.

Lemma update_delete_needs_a_map_witness :
  exists w',
    navigateTo (P := Sample.platform) 1 "update-delete" true Sample.at_insert_map
    = Done tt w'
    /\ content_area (dom w') = Some SelectMapFirst
    /\ requests w' = [].
Proof.
  destruct (@update_delete_needs_a_map Sample.platform 0 true
              Sample.at_insert_map _ eq_refl eq_refl)
    as (w' & E & _ & _ & C & R).
  exists w'. repeat split; assumption.
Defined.

(** X8.  A page load at the address of a page behind the administrator
    gate ([/admin-panel], [/insert-map] or [/update-delete]) without an
    administrator session ends on the home page: [loadInitialRoute]
    returns, [currentPage] is ['home'], [#content-area] shows the home
    page, the address bar is moved to [/], the title is the one of the
    home page, the page asked for is left on [pageHistory], and no
    request is sent. *)
Theorem deep_link_behind_gate {P : Platform} (k : nat) (page : string)
        (w : World) (c : Markup) :
  In page ["admin-panel"; "insert-map"; "update-delete"] ->
  pathname (dom w) = "/" ++ page ->
  isAdminSession w = false ->
  content_area (dom w) = Some c ->
  exists w',
    loadInitialRoute (S (S k)) w = Done tt w'
    /\ currentPage (app w') = "home"
    /\ content_area (dom w') = Some HomePage
    /\ pathname (dom w') = pathnameOf "/"
    /\ titled w'
    /\ pageHistory (app w') = (pageHistory (app w) ++ [page])%list
    /\ requests w' = requests w.
Proof.
  intros Hin Hp Ha Hc.
  assert (Hr : parseRoute ("/" ++ page)
               = modify (fun w => set_app (with_currentPage page (app w)) w)).
  { destruct Hin as [<-|[<-|[<-|[]]]]; reflexivity. }
  assert (G : gated page = true).
  { destruct Hin as [<-|[<-|[<-|[]]]]; reflexivity. }
  assert (Hs : ("/" ++ page =? "/") = false).
  { destruct Hin as [<-|[<-|[<-|[]]]]; reflexivity. }
  unfold loadInitialRoute. unfold gets, bind at 1. cbn [bindT]. rewrite Hp.
  unfold bind at 1, log, console, modify at 1. cbn [bindT].
  unfold bind at 1. rewrite Hr. unfold modify at 1. cbn [bindT].
  unfold bind.
  match goal with |- context [updatePageTitle ?W] =>
    destruct (updatePageTitle_lands W) as (w1 & E1 & [a1 c1 l1 r1 m1] & T1 & p1 & h1)
  end.
  rewrite E1. cbn [bindT].
  destruct (loadCurrentPage_lands k w1) as (w2 & E2 & _ & _ & _ & _ & _ & Rest).
  assert (R : redirects w1 (currentPage (app w1)) = true).
  { unfold redirects, isAdminSession. rewrite a1, c1. observe.
    cbn [currentPage currentUser with_currentPage].
    fold (isAdminSession w). rewrite G, Ha, Hc. reflexivity. }
  rewrite R in Rest. destruct Rest as (cp & hi & co & ti & pa & re & _).
  exists w2. split; [exact E2|].
  rewrite cp, hi, co, pa, re, a1, r1, p1. observe. rewrite Hp, Hs.
  cbn. repeat split. exact ti.
Qed.

Lemma deep_link_behind_gate_witness :
  exists w',
    loadInitialRoute (P := Sample.platform) 2 Sample.visitor_at_insert_map = Done tt w'
    /\ currentPage (app w') = "home"
    /\ content_area (dom w') = Some HomePage
    /\ pathname (dom w') = "/".
Proof.
  destruct (@deep_link_behind_gate Sample.platform 0 "insert-map"
              Sample.visitor_at_insert_map _
              (or_intror (or_introl eq_refl)) eq_refl eq_refl eq_refl)
    as (w' & E & C & H & Pa & _).
  exists w'. repeat split; assumption.
Defined.

(* ================================================================= *)
(** ** Links to a map and to an entity *)

Lemma append_snoc (a : string) (c : ascii) (b : string) :
  (a ++ String c EmptyString) ++ b = a ++ String c b.
Proof. induction a as [|d a IH]; cbn; [reflexivity|now rewrite IH]. Qed.

Lemma append_empty_r (a : string) : a ++ "" = a.
Proof. induction a as [|d a IH]; cbn; [reflexivity|now rewrite IH]. Qed.

Lemma prefix_self (p s : string) : String.prefix p (p ++ s) = true.
Proof.
  induction p as [|c p IH]; cbn; [now destruct s|].
  destruct (Ascii.ascii_dec c c); [exact IH|congruence].
Qed.

Lemma split_go_skip (sep t s cur : string) :
  Str.split_go sep (t ++ s) (String.length t) cur = Str.split_go sep s 0 cur.
Proof. induction t as [|c t IH]; cbn; [reflexivity|exact IH]. Qed.

(** Text without the first character of the separator is collected as
    it is. *)
Lemma split_go_plain (c0 : ascii) (sep' a : string) :
  forall cur rest,
    has_char c0 a = false ->
    Str.split_go (String c0 sep') (a ++ rest) 0 cur
    = Str.split_go (String c0 sep') rest 0 (cur ++ a).
Proof.
  induction a as [|c a IH]; intros cur rest H.
  - cbn. now rewrite append_empty_r.
  - cbn in H. apply orb_false_iff in H. destruct H as (Hc & Ha).
    cbn [append Str.split_go String.prefix].
    destruct (Ascii.ascii_dec c0 c) as [->|Hn].
    { rewrite Ascii.eqb_refl in Hc. discriminate Hc. }
    rewrite IH by exact Ha. now rewrite append_snoc.
Qed.

Lemma split_go_at_sep (c0 : ascii) (sep' s cur : string) :
  Str.split_go (String c0 sep') (String c0 sep' ++ s) 0 cur
  = cur :: Str.split_go (String c0 sep') s 0 "".
Proof.
  cbn [append Str.split_go].
  change (String c0 (sep' ++ s)) with (String c0 sep' ++ s) at 1.
  rewrite prefix_self. cbn [String.length Nat.sub]. rewrite Nat.sub_0_r.
  now rewrite split_go_skip.
Qed.

(** [split] on two pieces that do not hold the first character of the
    separator. *)
Lemma split_pair (c0 : ascii) (sep' a b : string) :
  has_char c0 a = false ->
  has_char c0 b = false ->
  Str.split (a ++ String c0 sep' ++ b) (String c0 sep') = [a; b].
Proof.
  intros Ha Hb. unfold Str.split.
  rewrite split_go_plain by exact Ha. rewrite split_go_at_sep. cbn [append].
  rewrite <- (append_empty_r b) at 1.
  rewrite split_go_plain by exact Hb. reflexivity.
Qed.

Lemma truthy_str_spec (s : string) : truthy_str s = true <-> s <> "".
Proof.
  unfold truthy_str. rewrite negb_true_iff. apply String.eqb_neq.
Qed.

Section LinkFacts.

Context {P : Platform}.

Lemma parseRoute_map_details (mapId : string) (w : World) :
  mapId <> "" ->
  has_char "/" mapId = false ->
  parseRoute ("/map-details/" ++ mapId) w
  = Done tt (set_app (with_selectedMapId (JStr mapId)
                        (with_currentPage "map-details" (app w))) w).
Proof.
  intros Hne Hs.
  assert (Sp : Str.split ("/map-details/" ++ mapId) "/map-details/" = [""; mapId]).
  { exact (@split_pair "/" "map-details/" "" mapId eq_refl Hs). }
  apply truthy_str_spec in Hne.
  unfold parseRoute.
  change ("/map-details/" ++ mapId =? "/") with false.
  change ("/map-details/" ++ mapId =? "") with false.
  change ("/map-details/" ++ mapId =? "/admin-panel") with false.
  change ("/map-details/" ++ mapId =? "/browse-maps") with false.
  change ("/map-details/" ++ mapId =? "/browse-entities") with false.
  change ("/map-details/" ++ mapId =? "/insert-map") with false.
  change ("/map-details/" ++ mapId =? "/update-delete") with false.
  cbn [orb]. unfold Str.startsWith. rewrite prefix_self, Sp.
  cbn [nth_error]. rewrite Hne. reflexivity.
Qed.

Lemma parseRoute_entity_details (encoded info : string) (w : World) :
  encoded <> "" ->
  has_char "/" encoded = false ->
  decodeURIComponent encoded = Some info ->
  parseRoute ("/entity-details/" ++ encoded) w
  = Done tt (set_app (with_selectedEntityInfo (Some info)
                        (with_currentPage "entity-details" (app w))) w).
Proof.
  intros Hne Hs Hd.
  assert (Sp : Str.split ("/entity-details/" ++ encoded) "/entity-details/"
               = [""; encoded]).
  { exact (@split_pair "/" "entity-details/" "" encoded eq_refl Hs). }
  apply truthy_str_spec in Hne.
  unfold parseRoute.
  change ("/entity-details/" ++ encoded =? "/") with false.
  change ("/entity-details/" ++ encoded =? "") with false.
  change ("/entity-details/" ++ encoded =? "/admin-panel") with false.
  change ("/entity-details/" ++ encoded =? "/browse-maps") with false.
  change ("/entity-details/" ++ encoded =? "/browse-entities") with false.
  change ("/entity-details/" ++ encoded =? "/insert-map") with false.
  change ("/entity-details/" ++ encoded =? "/update-delete") with false.
  cbn [orb]. unfold Str.startsWith.
  change (String.prefix "/map-details/" ("/entity-details/" ++ encoded)) with false.
  rewrite prefix_self, Sp.
  cbn [nth_error]. rewrite Hne, Hd. reflexivity.
Qed.

(** [loadInitialRoute] on a path that sets the route to a page outside
    the administrator gate. *)
Lemma loadInitialRoute_parsed (k : nat) (fresh : World) (g : App -> App) :
  (forall w, parseRoute (pathname (dom fresh)) w = Done tt (set_app (g (app w)) w)) ->
  gated (currentPage (g (app fresh))) = false ->
  exists w2,
    loadInitialRoute (S (S k)) fresh = Done tt w2
    /\ currentPage (app w2) = currentPage (g (app fresh))
    /\ selectedMapId (app w2) = selectedMapId (g (app fresh))
    /\ selectedEntityInfo (app w2) = selectedEntityInfo (g (app fresh)).
Proof.
  intros Hparse G.
  unfold loadInitialRoute. unfold gets, bind at 1. cbn [bindT].
  unfold bind at 1, log, console, modify at 1. cbn [bindT].
  unfold bind at 1. rewrite Hparse. cbn [bindT]. unfold bind.
  match goal with |- context [updatePageTitle ?W] =>
    destruct (updatePageTitle_lands W) as (w1 & E1 & [a1 c1 l1 r1 m1] & _)
  end.
  rewrite E1. cbn [bindT].
  destruct (loadCurrentPage_lands k w1) as (w2 & E2 & _ & i & j & _ & _ & Rest).
  assert (R : redirects w1 (currentPage (app w1)) = false).
  { unfold redirects. rewrite a1. observe. rewrite G. reflexivity. }
  rewrite R in Rest. destruct Rest as ((_ & cp & _) & _).
  exists w2. split; [exact E2|]. rewrite cp, i, j, a1. observe. repeat split.
Qed.

Lemma canonicalPath_map_details (mapId : JsVal) (info : option string) :
  Js.truthy mapId = true ->
  canonicalPath "map-details" mapId info = "/map-details/" ++ Js.toString mapId.
Proof.
  intros T. unfold canonicalPath, urlPaths. cbn [String.eqb Ascii.eqb Bool.eqb].
  destruct mapId; try discriminate T; rewrite T; reflexivity.
Qed.

End LinkFacts.

(** X9.  A link to a map comes back.  [showMapDetails(mapId)], for an
    id that is truthy, whose text is not empty and holds no [/], on a
    browser whose URL parser leaves the path as it is, returns on the
    page ['map-details'] with the address bar at [/map-details/]
    followed by the text of the id; and a page load at this address
    returns on the page ['map-details'] with [selectedMapId] equal to
    that text, as a string. *)
Theorem map_details_link_round_trip {P : Platform} (k k' : nat) (mapId : JsVal)
        (w : World) :
  Js.truthy mapId = true ->
  Js.toString mapId <> "" ->
  has_char "/" (Js.toString mapId) = false ->
  pathnameOf ("/map-details/" ++ Js.toString mapId)
  = "/map-details/" ++ Js.toString mapId ->
  exists w1,
    showMapDetails (S (S k)) mapId w = Done tt w1
    /\ currentPage (app w1) = "map-details"
    /\ selectedMapId (app w1) = mapId
    /\ pathname (dom w1) = "/map-details/" ++ Js.toString mapId
    /\ forall fresh,
         pathname (dom fresh) = pathname (dom w1) ->
         exists w2,
           loadInitialRoute (S (S k')) fresh = Done tt w2
           /\ currentPage (app w2) = "map-details"
           /\ selectedMapId (app w2) = JStr (Js.toString mapId).
Proof.
  intros Ht Hne Hs Hurl.
  unfold showMapDetails, modify, bind. cbn [bindT].
  set (w0 := set_app (with_selectedMapId mapId (app w)) w).
  destruct (navigateTo_lands k "map-details" true w0)
    as (w1 & E1 & _ & i & _ & _ & _ & cp & _ & pa).
  change (redirects w0 "map-details") with false in cp, pa.
  cbv zeta iota in pa, cp.
  change (selectedMapId (app w0)) with mapId in pa, i.
  rewrite (@canonicalPath_map_details P mapId _ Ht), Hurl in pa.
  assert (Pa : pathname (dom w1) = "/map-details/" ++ Js.toString mapId).
  { rewrite pa.
    destruct (pathname (dom w0) =? "/map-details/" ++ Js.toString mapId) eqn:E;
      [|reflexivity].
    apply String.eqb_eq. exact E. }
  exists w1. split; [exact E1|]. split; [exact cp|]. split; [exact i|].
  split; [exact Pa|].
  intros fresh Hf. rewrite Pa in Hf.
  destruct (@loadInitialRoute_parsed P k' fresh
              (fun a => with_selectedMapId (JStr (Js.toString mapId))
                          (with_currentPage "map-details" a)))
    as (w2 & E2 & cp2 & i2 & _).
  - intros w'. rewrite Hf. apply parseRoute_map_details; assumption.
  - reflexivity.
  - exists w2. repeat split; assumption.
Qed.

Lemma map_details_link_round_trip_witness :
  exists w1,
    showMapDetails (P := Sample.platform) 2 (JStr "A-1017")
      (Sample.world Sample.anonymous (Sample.document "/browse-maps" HomePage))
    = Done tt w1
    /\ pathname (dom w1) = "/map-details/A-1017"
    /\ exists w2,
         loadInitialRoute (P := Sample.platform) 2
           (Sample.world Sample.anonymous (Sample.document "/map-details/A-1017" HomePage))
         = Done tt w2
         /\ currentPage (app w2) = "map-details"
         /\ selectedMapId (app w2) = JStr "A-1017".
Proof.
  destruct (@map_details_link_round_trip Sample.platform 0 0 (JStr "A-1017")
              (Sample.world Sample.anonymous (Sample.document "/browse-maps" HomePage))
              eq_refl)
    as (w1 & E1 & _ & _ & Pa & Back).
  - discriminate.
  - reflexivity.
  - reflexivity.
  - exists w1. split; [exact E1|]. split; [exact Pa|].
    apply Back. rewrite Pa. reflexivity.
Defined.

(** X10.  [showEntityDetails(entityName, beismanNumber)] joins the two
    with [|] and the entity page takes them apart again: when neither
    text holds a [|], the page that is rendered carries the name and the
    number that were passed (the number as a string), and the two
    requests of the page go out for that number, the map first and then
    the related entities. *)
Theorem showEntityDetails_parses {P : Platform} (k : nat)
        (entityName beismanNumber : JsVal) (w : World) (c : Markup) :
  has_char "|" (Js.toString entityName) = false ->
  has_char "|" (Js.toString beismanNumber) = false ->
  content_area (dom w) = Some c ->
  exists w',
    showEntityDetails (S k) entityName beismanNumber w = Done tt w'
    /\ currentPage (app w') = "entity-details"
    /\ selectedEntityInfo (app w')
       = Some (Js.toString entityName ++ "|" ++ Js.toString beismanNumber)
    /\ content_area (dom w')
       = Some (EntityDetailsPage (if isAdminSession w then "admin-panel" else "home")
                                 (isAdminSession w)
                                 (Js.toString entityName)
                                 (JStr (Js.toString beismanNumber)))
    /\ requests w'
       = (requests w
          ++ [GET ("/api/maps/" ++ Js.toString beismanNumber);
              GET ("/api/entities?search=" ++ Js.toString beismanNumber)])%list.
Proof.
  intros Hn Hb Hc.
  unfold showEntityDetails, modify, bind. cbn [bindT].
  set (info := Js.toString entityName ++ "|" ++ Js.toString beismanNumber).
  set (w0 := set_app (with_selectedEntityInfo (Some info) (app w)) w).
  destruct (@navigateTo_renders P k "entity-details" true w0 c Hc)
    as (w1 & E1 & A1 & C1 & L1 & R1 & _).
  destruct (@entered_session _ _ _ _ A1) as (S1 & _ & I1 & _ & Cp).
  rewrite E1. unfold loadPageContent. cbn [String.eqb Ascii.eqb Bool.eqb].
  unfold loadEntityDetails. exec. rewrite I1.
  change (selectedEntityInfo (app w0)) with (Some info).
  assert (T : truthy_str info = true).
  { apply truthy_str_spec. unfold info.
    destruct (Js.toString entityName); discriminate. }
  assert (Sp : Str.split info "|" = [Js.toString entityName; Js.toString beismanNumber]).
  { exact (@split_pair "|" "" _ _ Hn Hb). }
  cbv beta iota. rewrite T, Sp. cbv beta iota. cbn [nth nth_error]. exec.
  unfold loadEntityDetailsData, loadMapPreviewForEntity, loadRelatedEntitiesForEntity.
  exec. eexists. split; [reflexivity|].
  observe. rewrite S1, I1, R1, Cp. cbn. rewrite <- app_assoc. repeat split.
Qed.

Lemma showEntityDetails_parses_witness :
  exists w',
    showEntityDetails (P := Sample.platform) 1 (JStr "Acme") (JNum 1017)
      Sample.at_browse_entities
    = Done tt w'
    /\ content_area (dom w')
       = Some (EntityDetailsPage "home" false "Acme" (JStr "1017"))
    /\ map url (requests w') = ["/api/maps/1017"; "/api/entities?search=1017"].
Proof.
  destruct (@showEntityDetails_parses Sample.platform 0 (JStr "Acme") (JNum 1017)
              Sample.at_browse_entities _ eq_refl eq_refl eq_refl)
    as (w' & E & _ & _ & C & R).
  exists w'. rewrite R. repeat split; assumption.
Defined.

(** X11.  A link to an entity comes back.  The route holds a selection
    [info] that is not empty; the browser encodes it to a text that is
    not empty and holds no [/], decodes that text to [info] again and
    leaves the path as it is.  Then [navigateTo('entity-details')]
    returns with the address bar at [/entity-details/] followed by the
    encoded selection, and a page load at this address returns on the
    page ['entity-details'] with [selectedEntityInfo] equal to
    [info]. *)
Theorem entity_details_link_round_trip {P : Platform} (k k' : nat) (info : string)
        (add : bool) (w : World) :
  selectedEntityInfo (app w) = Some info ->
  info <> "" ->
  encodeURIComponent info <> "" ->
  has_char "/" (encodeURIComponent info) = false ->
  decodeURIComponent (encodeURIComponent info) = Some info ->
  pathnameOf ("/entity-details/" ++ encodeURIComponent info)
  = "/entity-details/" ++ encodeURIComponent info ->
  exists w1,
    navigateTo (S (S k)) "entity-details" add w = Done tt w1
    /\ currentPage (app w1) = "entity-details"
    /\ pathname (dom w1) = "/entity-details/" ++ encodeURIComponent info
    /\ forall fresh,
         pathname (dom fresh) = pathname (dom w1) ->
         exists w2,
           loadInitialRoute (S (S k')) fresh = Done tt w2
           /\ currentPage (app w2) = "entity-details"
           /\ selectedEntityInfo (app w2) = Some info.
Proof.
  intros Hi Hne He Hs Hd Hurl.
  destruct (navigateTo_lands k "entity-details" add w)
    as (w1 & E1 & _ & _ & _ & _ & _ & cp & _ & pa).
  change (redirects w "entity-details") with false in cp, pa.
  cbv zeta iota in pa, cp.
  assert (Cp : canonicalPath "entity-details" (selectedMapId (app w))
                             (selectedEntityInfo (app w))
               = "/entity-details/" ++ encodeURIComponent info).
  { rewrite Hi. unfold canonicalPath, urlPaths. cbn [String.eqb Ascii.eqb Bool.eqb].
    apply truthy_str_spec in Hne. rewrite Hne. reflexivity. }
  rewrite Cp, Hurl in pa.
  assert (Pa : pathname (dom w1) = "/entity-details/" ++ encodeURIComponent info).
  { rewrite pa.
    destruct (pathname (dom w) =? "/entity-details/" ++ encodeURIComponent info) eqn:E;
      [|reflexivity].
    apply String.eqb_eq. exact E. }
  exists w1. split; [exact E1|]. split; [exact cp|]. split; [exact Pa|].
  intros fresh Hf. rewrite Pa in Hf.
  destruct (@loadInitialRoute_parsed P k' fresh
              (fun a => with_selectedEntityInfo (Some info)
                          (with_currentPage "entity-details" a)))
    as (w2 & E2 & cp2 & _ & i2).
  - intros w'. rewrite Hf. apply parseRoute_entity_details; assumption.
  - reflexivity.
  - exists w2. repeat split; assumption.
Qed.

Lemma entity_details_link_round_trip_witness :
  exists w1,
    navigateTo (P := Sample.platform) 2 "entity-details" true
      (set_app (with_selectedEntityInfo (Some "Acme & Sons|1017")
                                        (app Sample.at_browse_entities))
               Sample.at_browse_entities)
    = Done tt w1
    /\ pathname (dom w1) = "/entity-details/Acme%20%26%20Sons%7C1017"
    /\ exists w2,
         loadInitialRoute (P := Sample.platform) 2
           (Sample.world Sample.anonymous
              (Sample.document "/entity-details/Acme%20%26%20Sons%7C1017" HomePage))
         = Done tt w2
         /\ currentPage (app w2) = "entity-details"
         /\ selectedEntityInfo (app w2) = Some "Acme & Sons|1017".
Proof.
  destruct (@entity_details_link_round_trip Sample.platform 0 0 "Acme & Sons|1017" true
              (set_app (with_selectedEntityInfo (Some "Acme & Sons|1017")
                                                (app Sample.at_browse_entities))
                       Sample.at_browse_entities)
              eq_refl)
    as (w1 & E1 & _ & Pa & Back).
  - discriminate.
  - discriminate.
  - reflexivity.
  - reflexivity.
  - reflexivity.
  - exists w1. split; [exact E1|]. split; [exact Pa|].
    apply Back. rewrite Pa. reflexivity.
Defined.

(* ================================================================= *)
(** ** The temporary entity list, further *)

Lemma remove_first_In (x y : string) (l : list string) :
  In y (remove_first x l) -> In y l.
Proof.
  induction l as [|z l IH]; cbn; [tauto|].
  destruct (x =? z); cbn; tauto.
Qed.

Lemma remove_first_spec (x : string) (l : list string) :
  NoDup l -> forall y, In y (remove_first x l) <-> In y l /\ y <> x.
Proof.
  induction 1 as [|z l Hz Hl IH]; intros y; cbn; [tauto|].
  destruct (x =? z) eqn:E.
  - apply String.eqb_eq in E. subst z. split.
    + intros Hy. split; [auto|]. intros ->. contradiction.
    + intros [[->|Hy] Hne]; [congruence|exact Hy].
  - apply String.eqb_neq in E. cbn. rewrite IH. split.
    + intros [->|[Hy Hne]]; split; auto.
    + intros [[->|Hy] Hne]; auto.
Qed.

Lemma remove_first_NoDup (x : string) (l : list string) :
  NoDup l -> NoDup (remove_first x l).
Proof.
  induction 1 as [|z l Hz Hl IH]; cbn; [constructor|].
  destruct (x =? z); [exact Hl|].
  constructor; [|exact IH]. intros Hin. apply Hz. exact (remove_first_In _ _ _ Hin).
Qed.

Lemma remove_first_absent (x : string) (l : list string) :
  ~ In x l -> remove_first x l = l.
Proof.
  induction l as [|z l IH]; cbn; [reflexivity|]. intros Hn.
  destruct (x =? z) eqn:E.
  - apply String.eqb_eq in E. subst z. tauto.
  - rewrite IH by tauto. reflexivity.
Qed.

Lemma remove_first_last (x : string) (l : list string) :
  ~ In x l -> remove_first x (l ++ [x]) = l.
Proof.
  induction l as [|z l IH]; cbn; intros Hn.
  - now rewrite String.eqb_refl.
  - destruct (x =? z) eqn:E.
    + apply String.eqb_eq in E. subst z. tauto.
    + rewrite IH by tauto. reflexivity.
Qed.

Lemma well_kept_remove (x : string) (l : list string) :
  well_kept l -> well_kept (remove_first x l).
Proof.
  intros (Hd & Hf). split; [exact (remove_first_NoDup x Hd)|].
  rewrite Forall_forall in *. intros y Hy. apply Hf. exact (remove_first_In _ _ _ Hy).
Qed.

Lemma well_kept_add (x : string) (l : list string) :
  well_kept l -> truthy_str x = true -> (255 <? Str.len x)%nat = false ->
  existsb (String.eqb x) l = false ->
  well_kept (l ++ [x]).
Proof.
  intros (Hd & Hf) Ht Hl Hn. split.
  - apply NoDup_app; [exact Hd|repeat constructor; intros []|].
    intros y Hy [<-|[]]. apply existsb_eqb_In in Hy. congruence.
  - apply Forall_app. split; [exact Hf|]. constructor; [|constructor].
    split; [now apply truthy_str_spec|now apply Nat.ltb_ge].
Qed.

(** However [addTempEntity] ends, the list is as before or one
    accepted name longer. *)
Lemma addTempEntity_ends (w : World) (names : list string) :
  tempEntitiesList (app w) = Some names ->
  exists w',
    ended (addTempEntity w) = Some w'
    /\ requests w' = requests w
    /\ (tempEntitiesList (app w') = Some names
        \/ exists x,
             truthy_str x = true /\ (255 <? Str.len x)%nat = false
             /\ existsb (String.eqb x) names = false
             /\ tempEntitiesList (app w') = Some (names ++ [x])%list).
Proof.
  intros Hn. unfold addTempEntity, new_entity_name. exec.
  destruct (content_area (dom w)) as [[]|] eqn:C; exec;
    try (eexists; split; [reflexivity|]; split; [reflexivity|left; exact Hn]).
  - destruct (truthy_str (Str.trim (insert_new_entity_name v))) eqn:T; cbn [negb]; exec;
      [|eexists; split; [reflexivity|]; observe; split; [reflexivity|left; exact Hn]].
    destruct (255 <? Str.len (Str.trim (insert_new_entity_name v)))%nat eqn:L; exec;
      [eexists; split; [reflexivity|]; observe; split; [reflexivity|left; exact Hn]|].
    rewrite Hn. exec.
    destruct (existsb (String.eqb (Str.trim (insert_new_entity_name v))) names) eqn:E; exec;
      [eexists; split; [reflexivity|]; observe; split; [reflexivity|left; exact Hn]|].
    unfold set_new_entity_name. exec. cbn [dom set_app content_area]. rewrite C.
    exec. unfold updateTempEntitiesDisplay. exec.
    cbn [dom set_dom with_content_area content_area]. exec.
    cbn [app set_dom set_app with_tempEntitiesList tempEntitiesList]. exec.
    eexists. split; [reflexivity|]. observe. split; [reflexivity|].
    right. eexists. repeat split; eassumption.
  - destruct (truthy_str (Str.trim (update_new_entity_name v))) eqn:T; cbn [negb]; exec;
      [|eexists; split; [reflexivity|]; observe; split; [reflexivity|left; exact Hn]].
    destruct (255 <? Str.len (Str.trim (update_new_entity_name v)))%nat eqn:L; exec;
      [eexists; split; [reflexivity|]; observe; split; [reflexivity|left; exact Hn]|].
    rewrite Hn. exec.
    destruct (existsb (String.eqb (Str.trim (update_new_entity_name v))) names) eqn:E; exec;
      [eexists; split; [reflexivity|]; observe; split; [reflexivity|left; exact Hn]|].
    unfold set_new_entity_name. exec. cbn [dom set_app content_area]. rewrite C.
    exec. unfold updateTempEntitiesDisplay. exec.
    cbn [dom set_dom with_content_area content_area]. exec.
    eexists. split; [reflexivity|]. observe. split; [reflexivity|].
    right. eexists. repeat split; eassumption.
Qed.

Lemma removeTempEntity_ends (x : string) (w : World) (names : list string) :
  tempEntitiesList (app w) = Some names ->
  exists w',
    removeTempEntity x w = Done tt w'
    /\ tempEntitiesList (app w') = Some (remove_first x names)
    /\ (~ In x names -> w' = w)
    /\ alerts w' = alerts w /\ requests w' = requests w
    /\ forall v, insert_view w = Some v ->
                 In x names ->
                 insert_view w'
                 = Some {| trace_number := trace_number v;
                           drawer := drawer v;
                           description := description v;
                           insert_submit_text := insert_submit_text v;
                           insert_submit_disabled := insert_submit_disabled v;
                           insert_new_entity_name := insert_new_entity_name v;
                           temp_entities_list :=
                             match remove_first x names with
                             | [] => NoneYet
                             | _ => TempItems (remove_first x names)
                             end |}.
Proof.
  intros Hn. unfold removeTempEntity. exec. rewrite Hn. exec.
  destruct (existsb (String.eqb x) names) eqn:E.
  - assert (Hin : ~ ~ In x names) by (apply existsb_eqb_In in E; tauto).
    exec. unfold updateTempEntitiesDisplay, insert_view. exec.
    cbn [dom set_app content_area].
    destruct (content_area (dom w)) as [[]|] eqn:C; exec;
      cbn [app set_dom set_app with_tempEntitiesList tempEntitiesList]; exec;
      (eexists; split; [reflexivity|]); observe; cbn;
      repeat split; try tauto; try discriminate.
    intros v0 [= <-] _. reflexivity.
  - assert (Hin : ~ In x names).
    { intros H. apply existsb_eqb_In in H. congruence. }
    exists w. rewrite (remove_first_absent _ _ Hin). rewrite Hn.
    repeat split; tauto.
Qed.

Lemma filter_absent (x : string) (l : list string) :
  ~ In x l -> filter (fun y => negb (x =? y)) l = l.
Proof.
  induction l as [|z l IH]; cbn; [reflexivity|]. intros Hn.
  destruct (x =? z) eqn:E.
  - apply String.eqb_eq in E. subst z. tauto.
  - cbn. rewrite IH by tauto. reflexivity.
Qed.

Lemma remove_first_filter (x : string) (l : list string) :
  NoDup l -> remove_first x l = filter (fun y => negb (x =? y)) l.
Proof.
  induction 1 as [|z l Hz Hl IH]; cbn; [reflexivity|].
  destruct (x =? z) eqn:E; cbn.
  - apply String.eqb_eq in E. subst z. now rewrite filter_absent.
  - now rewrite IH.
Qed.

(** X12.  The temporary entity list stays well kept.  When it holds
    names that are all different, none empty and none longer than 255
    characters, it still does after [addTempEntity()], however that
    ends (an alert, an accepted name, or an exception because the page
    has no entity input), and after [removeTempEntity(name)] for any
    [name]; and neither of the two sends a request. *)
Theorem temp_list_stays_well_kept (w : World) (names : list string) (name : string) :
  tempEntitiesList (app w) = Some names ->
  well_kept names ->
  (exists w' names',
      ended (addTempEntity w) = Some w'
      /\ tempEntitiesList (app w') = Some names' /\ well_kept names'
      /\ requests w' = requests w)
  /\ (exists w' names',
         removeTempEntity name w = Done tt w'
         /\ tempEntitiesList (app w') = Some names' /\ well_kept names'
         /\ requests w' = requests w).
Proof.
  intros Hn Hk. split.
  - destruct (addTempEntity_ends w Hn) as (w' & E & R & [T|(x & Ht & Hl & He & T)]).
    + exists w', names. auto.
    + exists w', (names ++ [x])%list.
      split; [exact E|]. split; [exact T|].
      split; [exact (@well_kept_add x names Hk Ht Hl He)|exact R].
  - destruct (removeTempEntity_ends name w Hn) as (w' & E & T & _ & _ & R & _).
    exists w', (remove_first name names).
    split; [exact E|]. split; [exact T|].
    split; [exact (@well_kept_remove name names Hk)|exact R].
Qed.

Lemma temp_list_stays_well_kept_witness :
  (exists w' names',
      ended (addTempEntity Sample.ready_to_insert) = Some w'
      /\ tempEntitiesList (app w') = Some names' /\ well_kept names')
  /\ (exists w' names',
         removeTempEntity "Acme" Sample.ready_to_insert = Done tt w'
         /\ tempEntitiesList (app w') = Some names' /\ well_kept names').
Proof.
  assert (K : well_kept ["Acme"; "Moreno"]).
  { split.
    - repeat constructor; cbn; intuition discriminate.
    - repeat constructor; try discriminate; cbn; lia. }
  destruct (@temp_list_stays_well_kept Sample.ready_to_insert
              ["Acme"; "Moreno"] "Acme" eq_refl K)
    as ((w1 & names1 & E1 & T1 & W1 & _) & (w2 & names2 & E2 & T2 & W2 & _)).
  split.
  - exists w1, names1. split; [exact E1|]. split; [exact T1|exact W1].
  - exists w2, names2. split; [exact E2|]. split; [exact T2|exact W2].
Defined.

(** X13.  [removeTempEntity(name)] on a list of distinct names always
    returns and leaves the other names, in the order they had.  No
    alert shows and no request is sent.  When [name] is not in the list
    nothing at all changes, not even the console.  When it is, on the
    insert-map page, the list shown under the form is redrawn from what
    is left (the empty notice when nothing is) and the inputs of the
    form stay as they are. *)
Theorem removeTempEntity_removes (name : string) (w : World) (names : list string) :
  tempEntitiesList (app w) = Some names ->
  NoDup names ->
  exists w',
    removeTempEntity name w = Done tt w'
    /\ tempEntitiesList (app w') = Some (filter (fun y => negb (name =? y)) names)
    /\ (~ In name names -> w' = w)
    /\ alerts w' = alerts w /\ requests w' = requests w
    /\ forall v, insert_view w = Some v ->
                 In name names ->
                 insert_view w'
                 = Some {| trace_number := trace_number v;
                           drawer := drawer v;
                           description := description v;
                           insert_submit_text := insert_submit_text v;
                           insert_submit_disabled := insert_submit_disabled v;
                           insert_new_entity_name := insert_new_entity_name v;
                           temp_entities_list :=
                             match filter (fun y => negb (name =? y)) names with
                             | [] => NoneYet
                             | _ => TempItems (filter (fun y => negb (name =? y)) names)
                             end |}.
Proof.
  intros Hn Hd.
  destruct (removeTempEntity_ends name w Hn) as (w' & E & T & Same & L & R & V).
  rewrite (remove_first_filter name Hd) in T, V.
  exists w'. repeat split; assumption.
Qed.

Lemma removeTempEntity_removes_witness :
  exists w' v',
    removeTempEntity "Acme" Sample.ready_to_insert = Done tt w'
    /\ tempEntitiesList (app w') = Some ["Moreno"]
    /\ insert_view w' = Some v'
    /\ temp_entities_list v' = TempItems ["Moreno"]
    /\ trace_number v' = "1017".
Proof.
  destruct (@removeTempEntity_removes "Acme" Sample.ready_to_insert
              ["Acme"; "Moreno"] eq_refl)
    as (w' & E & T & _ & _ & _ & V).
  - repeat constructor; cbn; intuition discriminate.
  - eexists w', _. split; [exact E|]. split; [exact T|].
    split; [apply (V _ eq_refl); cbn; auto|]. split; reflexivity.
Defined.

(** X14.  Adding a name and removing it again gives the list back: on
    the insert-map page, when the entity input holds a name that is
    accepted (not empty once trimmed, at most 255 characters, not in the
    list), [addTempEntity()] followed by [removeTempEntity] of the
    trimmed name returns with the temporary list as it was at the start;
    no alert shows and no request is sent. *)
Theorem add_then_remove_temp_entity (w : World) (v : InsertView)
        (names : list string) :
  insert_view w = Some v ->
  truthy_str (Str.trim (insert_new_entity_name v)) = true ->
  (Str.len (Str.trim (insert_new_entity_name v)) <= 255)%nat ->
  tempEntitiesList (app w) = Some names ->
  ~ In (Str.trim (insert_new_entity_name v)) names ->
  exists w1 w2,
    addTempEntity w = Done tt w1
    /\ tempEntitiesList (app w1)
       = Some (names ++ [Str.trim (insert_new_entity_name v)])%list
    /\ removeTempEntity (Str.trim (insert_new_entity_name v)) w1 = Done tt w2
    /\ tempEntitiesList (app w2) = Some names
    /\ alerts w2 = alerts w /\ requests w2 = requests w.
Proof.
  intros Hv Ht Hl Hn Hin.
  destruct (addTempEntity_accepts w Hv Ht Hl Hn Hin)
    as (w1 & v1 & E1 & N1 & _ & _ & L1 & R1).
  destruct (removeTempEntity_ends (Str.trim (insert_new_entity_name v)) w1 N1)
    as (w2 & E2 & T2 & _ & L2 & R2 & _).
  rewrite (remove_first_last _ _ Hin) in T2.
  exists w1, w2. repeat split; congruence.
Qed.

Lemma add_then_remove_temp_entity_witness :
  exists w1 w2,
    addTempEntity
      (set_dom (with_content_area
                  (Some (InsertMapPage
                           {| trace_number := "1017";
                              drawer := "B";
                              description := "Lot 4";
                              insert_submit_text := "Insert Map & Entities";
                              insert_submit_disabled := false;
                              insert_new_entity_name := "  Zenith ";
                              temp_entities_list := TempItems ["Acme"; "Moreno"] |}))
                  (dom Sample.ready_to_insert))
               Sample.ready_to_insert)
    = Done tt w1
    /\ tempEntitiesList (app w1) = Some ["Acme"; "Moreno"; "Zenith"]
    /\ removeTempEntity "Zenith" w1 = Done tt w2
    /\ tempEntitiesList (app w2) = Some ["Acme"; "Moreno"].
Proof.
  destruct (@add_then_remove_temp_entity
              (set_dom (with_content_area
                          (Some (InsertMapPage
                                   {| trace_number := "1017";
                                      drawer := "B";
                                      description := "Lot 4";
                                      insert_submit_text := "Insert Map & Entities";
                                      insert_submit_disabled := false;
                                      insert_new_entity_name := "  Zenith ";
                                      temp_entities_list := TempItems ["Acme"; "Moreno"] |}))
                          (dom Sample.ready_to_insert))
                       Sample.ready_to_insert)
              _ ["Acme"; "Moreno"] eq_refl eq_refl)
    as (w1 & w2 & E1 & T1 & E2 & T2 & _).
  - apply Nat.leb_le. reflexivity.
  - reflexivity.
  - cbn. intuition discriminate.
  - exists w1, w2. repeat split; assumption.
Defined.

(* ================================================================= *)
(** ** Submitting the forms, whatever the server answers *)

(** X15.  When the request that inserts the map does not report success
    (the promise is rejected, the body is not JSON or not an object, or
    its [success] is falsy), [handleInsertMapWithEntities] returns after
    this one request: no entity is sent.  Its only alert starts with
    [Error inserting map: ]; it ends with the message of the rejection,
    or, for a JSON object, with the [message] of the body or with
    [Failed to insert map] when that is falsy.  The application object
    is as before, so the temporary list is kept; the fields of the form
    are kept, and its button is enabled again under its first text. *)
Theorem map_insert_failure_keeps_draft {P : Platform} (w : World) (form : InsertView)
        (user : User) (names : list string) (mapAnswer : FetchResult) :
  insert_view w = Some form ->
  truthy_str (Str.trim (trace_number form)) = true ->
  truthy_str (Str.trim (drawer form)) = true ->
  truthy_str (Str.trim (description form)) = true ->
  currentUser (app w) = Some user ->
  tempEntitiesList (app w) = Some names ->
  verdict mapAnswer = false ->
  exists w' message,
    run [mapAnswer] (handleInsertMapWithEntities w) = Done tt w'
    /\ alerts w' = (alerts w ++ [("Error inserting map: " ++ message)%string])%list
    /\ requests w'
       = (requests w
          ++ [POST "/api/maps"
                   (Some (JObj [("Number", JStr (Str.trim (trace_number form)));
                                ("Drawer", JStr (Str.trim (drawer form)));
                                ("PropertyDetails", JStr (Str.trim (description form)));
                                ("CreatedBy", username user)]))])%list
    /\ app w' = app w
    /\ insert_view w' = Some (set_insert_submit "Insert Map & Entities" false form)
    /\ (forall e, mapAnswer = Rejected e -> message = exn_message e)
    /\ (forall r data s,
          mapAnswer = Resolved r -> json r = Some data ->
          Js.get data "success" = Some s ->
          message = Js.toString (Js.or (Js.lookup_in data "message")
                                       (JStr "Failed to insert map"))).
Proof.
  intros Hv Ht Hd Hc Hu Hn Hm.
  unfold insert_view in Hv.
  destruct (content_area (dom w)) as [[]|] eqn:C; try discriminate Hv.
  injection Hv as ->.
  unfold handleInsertMapWithEntities, insert_view.
  exec. rewrite C. exec. rewrite Ht, Hd, Hc. cbn [negb orb]. exec.
  rewrite C. exec.
  cbn [app dom set_dom with_content_area content_area]. rewrite Hn. exec.
  cbn [app record set_dom]. rewrite Hu. exec.
  cbn [run bindT catchT finallyT].
  unfold response_json, verdict in *.
  destruct mapAnswer as [e|r].
  - exec. cbn [dom record set_dom with_content_area content_area]. exec.
    do 2 eexists. split; [reflexivity|]. unfold insert_view. observe. cbn.
    repeat split; congruence.
  - exec. destruct (json r) as [data|] eqn:J.
    + exec. destruct (Js.get data "success") as [s|] eqn:G.
      * exec. rewrite Hm. cbn [negb]. exec.
        cbn [dom record set_dom with_content_area content_area]. exec.
        do 2 eexists. split; [reflexivity|]. unfold insert_view. observe. cbn.
        repeat split; congruence.
      * exec. cbn [dom record set_dom with_content_area content_area]. exec.
        do 2 eexists. split; [reflexivity|]. unfold insert_view. observe. cbn.
        repeat split; congruence.
    + exec. cbn [dom record set_dom with_content_area content_area]. exec.
      do 2 eexists. split; [reflexivity|]. unfold insert_view. observe. cbn.
      repeat split; congruence.
Qed.

Lemma map_insert_failure_keeps_draft_witness :
  exists w',
    run [Sample.success_false]
        (handleInsertMapWithEntities (P := Sample.platform) Sample.ready_to_insert)
    = Done tt w'
    /\ alerts w' = ["Error inserting map: Entity already exists"]
    /\ map url (requests w') = ["/api/maps"]
    /\ tempEntitiesList (app w') = Some ["Acme"; "Moreno"].
Proof.
  destruct (@map_insert_failure_keeps_draft Sample.platform Sample.ready_to_insert
              _ Sample.admin ["Acme"; "Moreno"] Sample.success_false
              eq_refl eq_refl eq_refl eq_refl eq_refl eq_refl eq_refl)
    as (w' & message & E & A & R & Ap & _ & _ & M).
  exists w'. rewrite A, R, Ap, (M _ _ _ eq_refl eq_refl eq_refl).
  repeat split. exact E.
Defined.

Lemma tally_counts (names : list string) :
  forall answers successCount failedEntities,
    tally names answers successCount failedEntities
    = (successCount + successes names answers,
       (failedEntities ++ failures names answers)%list).
Proof.
  induction names as [|name names IH]; intros answers sc failed.
  - cbn. now rewrite Nat.add_0_r, app_nil_r.
  - destruct answers as [|a answers].
    + cbn. now rewrite Nat.add_0_r, app_nil_r.
    + cbn [tally successes failures]. destruct (verdict a); rewrite IH.
      * f_equal. lia.
      * rewrite <- app_assoc. reflexivity.
Qed.

Lemma successes_failures (names : list string) :
  forall answers,
    List.length answers = List.length names ->
    successes names answers + List.length (failures names answers) = List.length names.
Proof.
  induction names as [|name names IH]; intros answers Hlen.
  - reflexivity.
  - destruct answers as [|a answers]; [discriminate Hlen|].
    injection Hlen as Hlen. specialize (IH answers Hlen).
    cbn [successes failures]. destruct (verdict a); cbn [List.length]; lia.
Qed.

(** X16.  The insert-map form is filled in, an administrator is signed
    in, and the request that inserts the map reports success.  Then,
    whatever each of the entity requests answers, the handler returns
    after one request per name of the temporary list, in the order of
    the list, and shows one alert.  With an empty list the alert is
    [Map inserted successfully!]; otherwise it is the report on the
    number of requests that reported success and on the names whose
    request did not (rejected, not JSON, or [success] falsy), in the
    order of the list; the two numbers add up to the length of the
    list.  In every case the three fields of the form are emptied, the
    temporary list is emptied and shown as empty, and the button is
    enabled again under its first text. *)
Theorem map_insert_reports_every_entity {P : Platform} (w : World) (form : InsertView)
        (user : User) (names : list string) (mapAnswer : FetchResult)
        (answers : list FetchResult) :
  insert_view w = Some form ->
  truthy_str (Str.trim (trace_number form)) = true ->
  truthy_str (Str.trim (drawer form)) = true ->
  truthy_str (Str.trim (description form)) = true ->
  currentUser (app w) = Some user ->
  tempEntitiesList (app w) = Some names ->
  verdict mapAnswer = true ->
  List.length answers = List.length names ->
  exists w',
    run (mapAnswer :: answers) (handleInsertMapWithEntities w) = Done tt w'
    /\ alerts w'
       = (alerts w
          ++ [match names with
              | [] => "Map inserted successfully!"
              | _ => entitiesReport (successes names answers) (failures names answers)
              end])%list
    /\ successes names answers + List.length (failures names answers)
       = List.length names
    /\ requests w'
       = (requests w
          ++ POST "/api/maps"
                  (Some (JObj [("Number", JStr (Str.trim (trace_number form)));
                               ("Drawer", JStr (Str.trim (drawer form)));
                               ("PropertyDetails", JStr (Str.trim (description form)));
                               ("CreatedBy", username user)]))
             :: map (fun n => POST (addEntityUrl (Str.trim (trace_number form)) n) None)
                    names)%list
    /\ tempEntitiesList (app w') = Some []
    /\ insert_view w'
       = Some {| trace_number := "";
                 drawer := "";
                 description := "";
                 insert_submit_text := "Insert Map & Entities";
                 insert_submit_disabled := false;
                 insert_new_entity_name := insert_new_entity_name form;
                 temp_entities_list := NoneYet |}.
Proof.
  intros Hv Ht Hd Hc Hu Hn Hm Hlen.
  unfold insert_view in Hv.
  destruct (content_area (dom w)) as [[]|] eqn:C; try discriminate Hv.
  injection Hv as ->.
  unfold verdict in Hm.
  destruct mapAnswer as [e|r]; [discriminate Hm|].
  destruct (json r) as [data|] eqn:J; [|discriminate Hm].
  destruct (Js.get data "success") as [s|] eqn:G; [|discriminate Hm].
  unfold handleInsertMapWithEntities, insert_view.
  exec. rewrite C. exec. rewrite Ht, Hd, Hc. cbn [negb orb]. exec.
  rewrite C. exec.
  cbn [app dom set_dom with_content_area content_area]. rewrite Hn. exec.
  cbn [app record set_dom]. rewrite Hu. exec.
  cbn [run bindT catchT finallyT].
  unfold response_json. rewrite J. exec. rewrite G. exec. rewrite Hm.
  cbn [negb]. exec.
  cbn [app record set_dom]. rewrite Hn. exec.
  destruct names as [|n ns].
  - destruct answers; [|discriminate Hlen].
    cbn [List.length Nat.ltb Nat.leb]. exec.
    cbn [dom record set_dom with_content_area content_area]. exec.
    unfold updateTempEntitiesDisplay. exec.
    cbn [dom app set_app set_dom with_content_area content_area
         with_tempEntitiesList tempEntitiesList bindT catchT finallyT run].
    exec.
    cbn [dom app set_app set_dom with_content_area content_area
         with_tempEntitiesList tempEntitiesList bindT catchT finallyT run].
    eexists. split; [reflexivity|]. unfold insert_view. observe. cbn.
    repeat split.
  - change (0 <? List.length (n :: ns))%nat with true. cbn [bindT].
    match goal with
    | |- context [addEntities ?tn ?nms ?sc ?f ?w0] =>
        pattern (addEntities tn nms sc f w0);
        match goal with
        | |- (fun t => exists w', run _ (@?C t) = _ /\ _) _ =>
            destruct (@addEntities_run P tn nms _ Hlen unit C
                        (fun _ _ _ => eq_refl) sc f w0 [])
              as (w6 & E6 & A6 & D6 & L6 & R6)
        end
    end.
    cbv beta. rewrite app_nil_r in E6. cbv beta in E6. rewrite E6.
    rewrite tally_counts.
    cbn [bindT catchT finallyT fst snd Nat.add List.app].
    rewrite dom_record, D6.
    cbn [dom record set_dom with_content_area content_area bindT catchT finallyT].
    unfold updateTempEntitiesDisplay. exec.
    cbn [dom app set_app set_dom with_content_area content_area
         with_tempEntitiesList tempEntitiesList bindT catchT finallyT run].
    eexists. split; [reflexivity|].
    unfold insert_view. observe. rewrite L6, R6. observe.
    rewrite <- app_assoc. cbn [List.app].
    split; [reflexivity|].
    split; [exact (successes_failures (n :: ns) answers Hlen)|].
    repeat split.
Qed.

Lemma map_insert_reports_every_entity_witness :
  exists w',
    run [Sample.success_true; Rejected (TypeError "Failed to fetch"); Sample.success_true]
        (handleInsertMapWithEntities (P := Sample.platform) Sample.ready_to_insert)
    = Done tt w'
    /\ alerts w'
       = [("Map inserted successfully!" ++ nl ++ "1 entities added successfully." ++ nl
           ++ "1 entities failed: Acme")%string]
    /\ tempEntitiesList (app w') = Some [].
Proof.
  destruct (@map_insert_reports_every_entity Sample.platform Sample.ready_to_insert
              _ Sample.admin ["Acme"; "Moreno"] Sample.success_true
              [Rejected (TypeError "Failed to fetch"); Sample.success_true]
              eq_refl eq_refl eq_refl eq_refl eq_refl eq_refl eq_refl eq_refl)
    as (w' & E & A & _ & _ & T & _).
  exists w'. rewrite A. repeat split; assumption.
Defined.

(** X17.  The edit form has a drawer and a description that are not
    empty once trimmed.  [handleUpdateMap] sends one PUT of
    [/api/maps/] followed by the id, and while it waits the submit
    button is disabled and reads [Updating...].  Whatever the answer,
    the handler then returns with one alert, the application object as
    before and the button enabled again as [Update Map].  The alert is
    [Map updated successfully!] when the body reports success, the
    [message] of the body (or [Failed to update map]) when it reports
    failure, and [Network error while updating map] when the promise is
    rejected or the body cannot be read.  Only after a success a second
    request goes out: the GET that reloads the map. *)
Theorem handleUpdateMap_any_answer (w : World) (form : UpdateView) (a : FetchResult) :
  update_view w = Some form ->
  truthy_str (Str.trim (edit_drawer form)) = true ->
  truthy_str (Str.trim (edit_description form)) = true ->
  let put := PUT ("/api/maps/" ++ Js.toString (selectedMapId (app w)))
                 (Some (JObj [("Drawer", JStr (Str.trim (edit_drawer form)));
                              ("PropertyDetails",
                               JStr (Str.trim (edit_description form)))])) in
  (exists w1 k,
      handleUpdateMap w = Await put w1 k
      /\ update_view w1 = Some (set_update_submit "Updating..." true form))
  /\ exists w',
       run [a] (handleUpdateMap w) = Done tt w'
       /\ app w' = app w
       /\ update_view w' = Some (set_update_submit "Update Map" false form)
       /\ alerts w'
          = (alerts w
             ++ [verdictAlert "Map updated successfully!" "Failed to update map"
                              "Network error while updating map" a])%list
       /\ requests w'
          = (requests w ++ put
             :: (if verdict a
                 then [GET ("/api/maps/" ++ Js.toString (selectedMapId (app w)))]
                 else []))%list.
Proof.
  intros Hv Hd Hc. cbv zeta. unfold update_view in Hv.
  destruct (content_area (dom w)) as [[]|] eqn:C; try discriminate Hv.
  injection Hv as ->.
  unfold handleUpdateMap, update_view. exec. rewrite C. exec.
  rewrite Hd, Hc. cbn [negb orb]. exec.
  cbn [dom record content_area]. rewrite C. exec.
  split.
  { do 2 eexists. split; [reflexivity|]. reflexivity. }
  cbn [run bindT catchT finallyT].
  unfold response_json, verdictAlert, verdict.
  destruct a as [e|r].
  - exec. cbn [dom record set_dom with_content_area content_area]. exec.
    eexists. split; [reflexivity|]. observe. cbn. repeat split.
  - exec. destruct (json r) as [data|].
    + exec. destruct (Js.get data "success") as [s|].
      * exec. destruct (Js.truthy s).
        -- exec. unfold loadMapForEditing. exec.
           cbn [dom record set_dom with_content_area content_area]. exec.
           eexists. split; [reflexivity|]. observe. cbn.
           rewrite <- app_assoc. repeat split.
        -- exec. cbn [dom record set_dom with_content_area content_area]. exec.
           eexists. split; [reflexivity|]. observe. cbn. repeat split.
      * exec. cbn [dom record set_dom with_content_area content_area]. exec.
        eexists. split; [reflexivity|]. observe. cbn. repeat split.
    + exec. cbn [dom record set_dom with_content_area content_area]. exec.
      eexists. split; [reflexivity|]. observe. cbn. repeat split.
Qed.

Lemma handleUpdateMap_any_answer_witness :
  exists w',
    run [Sample.success_true] (handleUpdateMap Sample.editing) = Done tt w'
    /\ alerts w' = ["Map updated successfully!"]
    /\ map method (requests w') = ["PUT"; "GET"]
    /\ map url (requests w') = ["/api/maps/1017"; "/api/maps/1017"].
Proof.
  destruct (@handleUpdateMap_any_answer Sample.editing _ Sample.success_true
              eq_refl eq_refl eq_refl)
    as (_ & w' & E & _ & _ & A & R).
  exists w'. rewrite A, R. repeat split. exact E.
Defined.

(** X18.  [addEntityToMap] on the edit form.  With an entity input that
    is empty once trimmed it shows [Please enter an entity name.] and
    does nothing else.  Otherwise it sends one POST that adds the
    trimmed name, encoded, to the selected map, and, whatever the
    answer, returns with one alert and the application object as
    before: [Entity added successfully!] when the body reports success,
    the [message] of the body (or [Failed to add entity]) when it
    reports failure, [Network error while adding entity] when the
    promise is rejected or the body cannot be read.  After a success the
    input is cleared and the GET that reloads the map goes out; after a
    failure the input keeps its text and no other request is sent. *)
Theorem addEntityToMap_any_answer {P : Platform} (w : World) (form : UpdateView) :
  update_view w = Some form ->
  (truthy_str (Str.trim (update_new_entity_name form)) = false ->
   addEntityToMap w = Done tt (record (Alert "Please enter an entity name.") w))
  /\ (truthy_str (Str.trim (update_new_entity_name form)) = true ->
      forall a : FetchResult,
      exists w' form',
        run [a] (addEntityToMap w) = Done tt w'
        /\ app w' = app w
        /\ alerts w'
           = (alerts w
              ++ [verdictAlert "Entity added successfully!" "Failed to add entity"
                               "Network error while adding entity" a])%list
        /\ requests w'
           = (requests w
              ++ POST ("/api/entities/map/" ++ Js.toString (selectedMapId (app w))
                       ++ "/add?entity_name="
                       ++ encodeURIComponent (Str.trim (update_new_entity_name form)))
                      None
              :: (if verdict a
                  then [GET ("/api/maps/" ++ Js.toString (selectedMapId (app w)))]
                  else []))%list
        /\ update_view w' = Some form'
        /\ update_new_entity_name form'
           = (if verdict a then "" else update_new_entity_name form)).
Proof.
  intros Hv. unfold update_view in Hv.
  destruct (content_area (dom w)) as [[]|] eqn:C; try discriminate Hv.
  injection Hv as ->.
  unfold addEntityToMap, new_entity_name. exec. rewrite C. exec.
  split; intros T; rewrite T; cbn [negb]; exec; [reflexivity|].
  intros a. cbn [run bindT catchT].
  unfold response_json, verdictAlert, verdict, update_view.
  destruct a as [e|r].
  - exec. do 2 eexists. split; [reflexivity|]. observe. rewrite C. cbn. repeat split.
  - exec. destruct (json r) as [data|].
    + exec. destruct (Js.get data "success") as [s|].
      * exec. destruct (Js.truthy s).
        -- exec. unfold set_new_entity_name. exec.
           cbn [dom record content_area]. rewrite C. exec.
           unfold loadMapForEditing. exec.
           do 2 eexists. split; [reflexivity|]. observe. cbn.
           rewrite <- app_assoc. repeat split.
        -- exec. do 2 eexists. split; [reflexivity|]. observe. rewrite C. cbn.
           repeat split.
      * exec. do 2 eexists. split; [reflexivity|]. observe. rewrite C. cbn.
        repeat split.
    + exec. do 2 eexists. split; [reflexivity|]. observe. rewrite C. cbn.
      repeat split.
Qed.

Lemma addEntityToMap_any_answer_witness :
  exists w' form',
    run [Sample.success_false] (addEntityToMap (P := Sample.platform) Sample.editing)
    = Done tt w'
    /\ alerts w' = ["Entity already exists"]
    /\ map url (requests w') = ["/api/entities/map/1017/add?entity_name=Zenith"]
    /\ update_view w' = Some form'
    /\ update_new_entity_name form' = " Zenith ".
Proof.
  destruct (@addEntityToMap_any_answer Sample.platform Sample.editing _ eq_refl)
    as (_ & H).
  destruct (H eq_refl Sample.success_false) as (w' & form' & E & _ & A & R & V & N).
  exists w', form'. rewrite A, R, N. repeat split; assumption.
Defined.

(* ================================================================= *)
(** ** The browse pages, whatever the server answers *)

(** X19.  [loadBrowseMaps] and [loadBrowseEntities] send one GET for
    the first page of ten and, whatever the answer, return without an
    alert and with the application object as before.  What
    [#content-area] then shows is either the list page of the kind
    asked for, with an empty search box and a back link to the admin
    panel for an administrator and to the home page otherwise, or the
    page that says that the list could not be loaded.  It is the latter
    whenever the promise is rejected, the status is not ok or the body
    is not JSON. *)
Theorem loadBrowse_any_answer (k : ListKind) (w : World) (a : FetchResult) :
  exists w',
    run [a] (loadBrowse k w) = Done tt w'
    /\ app w' = app w /\ alerts w' = alerts w
    /\ requests w'
       = (requests w ++ [GET ("/api/" ++ kind_name k ++ "?page=1&page_size=10")])%list
    /\ (content_area (dom w') = Some (ListLoadFailed k)
        \/ exists v,
             content_area (dom w') = Some (ListPage v)
             /\ kind v = k /\ search v = ""
             /\ backDestination v
                = (if isAdminSession w then "admin-panel" else "home"))
    /\ ((forall r, a = Resolved r -> ok r = false \/ json r = None) ->
        content_area (dom w') = Some (ListLoadFailed k)).
Proof.
  unfold loadBrowse. exec. cbn [run bindT catchT].
  destruct a as [e|r].
  - exec. eexists. split; [reflexivity|]. observe. cbn. repeat split; auto.
  - exec. destruct (ok r) eqn:Ok; cbn [negb]; exec.
    + unfold response_json. destruct (json r) as [data|] eqn:J; exec.
      * destruct (Js.get data "data") as [rows|]; exec.
        -- destruct (match k with
                     | Maps => renderMapsResults rows
                     | Entities => renderEntitiesResults rows
                     end) as [e|res]; exec.
           ++ eexists. split; [reflexivity|]. observe. cbn.
              repeat split; auto.
           ++ destruct (Js.get rows "length") as [shown|]; exec.
              ** eexists. split; [reflexivity|]. observe. cbn.
                 repeat split; [right; eexists; repeat split|].
                 intros H. destruct (H r eq_refl); congruence.
              ** eexists. split; [reflexivity|]. observe. cbn.
                 repeat split; auto.
        -- eexists. split; [reflexivity|]. observe. cbn. repeat split; auto.
      * eexists. split; [reflexivity|]. observe. cbn. repeat split; auto.
    + eexists. split; [reflexivity|]. observe. cbn. repeat split; auto.
Qed.

(** X20.  When the request of the letter filter fails (the promise is
    rejected, the status is not ok or the body is not JSON), the handler
    still returns: the result area of the list page shows the failure
    notice, the line of the pagination and its buttons stay as they
    were, no alert shows and the application object is as before. *)
Theorem filter_failure_is_shown {P : Platform} (letter : option string) (w : World)
        (v : ListView) (a : FetchResult) :
  list_view w = Some v ->
  (forall r, a = Resolved r -> ok r = false \/ json r = None) ->
  exists w' v',
    run [a] (filterEntitiesByLetter letter w) = Done tt w'
    /\ app w' = app w /\ alerts w' = alerts w
    /\ list_view w' = Some v'
    /\ results v' = FilterFailed
    /\ info v' = info v /\ buttons v' = buttons v /\ search v' = search v.
Proof.
  intros Hv Hbad. unfold list_view in Hv.
  destruct (content_area (dom w)) as [[]|] eqn:C; try discriminate Hv.
  injection Hv as ->.
  unfold filterEntitiesByLetter, results_container, list_view, entities_search,
    list_view, set_results, set_pagination, list_view.
  exec. cbn [dom record]. rewrite C. exec.
  cbn [dom record content_area]. rewrite C. exec. rewrite Nat.eqb_refl. exec.
  cbn [run bindT catchT].
  destruct a as [e|r].
  - exec. cbn [dom record set_dom with_content_area content_area content_epoch].
    rewrite Nat.eqb_refl. exec.
    do 2 eexists. split; [reflexivity|]. observe. cbn. repeat split.
  - exec. destruct (Hbad r eq_refl) as [Ok|J].
    + rewrite Ok. cbn [negb]. exec.
      cbn [dom record set_dom with_content_area content_area content_epoch].
      rewrite Nat.eqb_refl. exec.
      do 2 eexists. split; [reflexivity|]. observe. cbn. repeat split.
    + destruct (ok r); cbn [negb]; exec; unfold response_json; rewrite ?J; exec;
        cbn [dom record set_dom with_content_area content_area content_epoch];
        rewrite Nat.eqb_refl; exec;
        do 2 eexists; (split; [reflexivity|]); observe; cbn; repeat split.
Qed.

Lemma filter_failure_is_shown_witness :
  exists w' v',
    run [Rejected (TypeError "Failed to fetch")]
        (filterEntitiesByLetter (P := Sample.platform) (Some "M")
                                Sample.at_browse_entities)
    = Done tt w'
    /\ alerts w' = []
    /\ list_view w' = Some v'
    /\ results v' = FilterFailed.
Proof.
  destruct (@filter_failure_is_shown Sample.platform (Some "M")
              Sample.at_browse_entities _ (Rejected (TypeError "Failed to fetch"))
              eq_refl)
    as (w' & v' & E & _ & A & V & R & _).
  - intros r H. discriminate H.
  - exists w', v'. repeat split; assumption.
Defined.

(** X21.  The letter filter asks for the first hundred entities only,
    with the trimmed text of the search box, encoded, as search term
    when it is not empty.  When the response is ok and carries an array
    of records with a string (or nothing) for a name, a call with a
    letter shows the records that match, writes their number and the
    letter into the line of the pagination and hides its buttons; a call
    with [null] or the empty string (the button [All]) shows every
    record received, writes their number and shows the buttons again.
    An empty selection shows the notice that there are no records. *)
Theorem filter_sets_pagination {P : Platform} (letter : option string) (w : World)
        (v : ListView) (resp : Response) (data : JsVal) (rows : list JsVal) :
  list_view w = Some v ->
  ok resp = true ->
  json resp = Some data ->
  Js.get data "data" = Some (JArr rows) ->
  Forall (fun e => entityNameOf e <> None) rows ->
  let l := match letter with Some l => l | None => "" end in
  let term := match entities_search w with
              | Some value => Str.trim value
              | None => ""
              end in
  let kept := if truthy_str l then filter (matchesLetter l) rows else rows in
  exists w' v',
    run [Resolved resp] (filterEntitiesByLetter letter w) = Done tt w'
    /\ app w' = app w /\ alerts w' = alerts w
    /\ requests w'
       = (requests w
          ++ [GET ("/api/entities?page=1&page_size=100"
                   ++ (if truthy_str term
                       then "&search=" ++ encodeURIComponent term else ""))])%list
    /\ list_view w' = Some v'
    /\ results v' = match kept with [] => NoRecords | _ => EntityRows kept end
    /\ info v'
       = (if truthy_str l
          then InfoLetter l (JNum (Z.of_nat (List.length kept)))
          else InfoAll (JNum (Z.of_nat (List.length kept))))
    /\ buttons v'
       = option_map (map (set_display (if truthy_str l then "none" else "inline-block")))
                    (buttons v).
Proof.
  intros Hv Hok Hjson Hdata Hnamed. cbv zeta.
  assert (Tl : truthy_opt letter
               = truthy_str match letter with Some l => l | None => "" end).
  { destruct letter; reflexivity. }
  assert (R : forall kept, Forall (fun e => entityNameOf e <> None) kept ->
                renderEntitiesResults (JArr kept)
                = inr (match kept with [] => NoRecords | _ => EntityRows kept end)).
  { intros kept Hk. apply renderEntitiesResults_array.
    apply named_not_nullish. exact Hk. }
  unfold list_view in Hv.
  destruct (content_area (dom w)) as [[]|] eqn:C; try discriminate Hv.
  injection Hv as ->.
  unfold filterEntitiesByLetter, results_container, list_view, entities_search,
    list_view, set_results, set_pagination, list_view.
  rewrite C.
  exec. cbn [dom record]. rewrite C. exec.
  cbn [dom record content_area]. rewrite C. exec. rewrite Nat.eqb_refl. exec.
  cbn [run bindT catchT]. rewrite Hok. cbn [negb]. exec.
  unfold response_json. rewrite Hjson. exec. rewrite Hdata. exec.
  cbn [Js.get]. exec. rewrite Tl.
  destruct (truthy_str match letter with Some l => l | None => "" end) eqn:T.
  - exec. unfold filterByLetter.
    rewrite (filter_array_named _ Hnamed). exec.
    rewrite (R _ (Forall_filter _ Hnamed)). exec.
    cbn [dom record set_dom with_content_area content_area content_epoch].
    rewrite Nat.eqb_refl. exec.
    cbn [dom record set_dom with_content_area content_area]. exec.
    do 2 eexists. split; [reflexivity|]. observe. cbn. repeat split.
  - exec. rewrite (R _ Hnamed). exec.
    cbn [dom record set_dom with_content_area content_area content_epoch].
    rewrite Nat.eqb_refl. exec.
    cbn [dom record set_dom with_content_area content_area]. exec.
    do 2 eexists. split; [reflexivity|]. observe. cbn. repeat split.
Qed.

Lemma filter_sets_pagination_witness :
  exists w' v',
    run [Resolved (Sample.answer (JObj [("data", JArr Sample.three_entities)]))]
        (filterEntitiesByLetter (P := Sample.platform) None Sample.at_browse_entities)
    = Done tt w'
    /\ map url (requests w') = ["/api/entities?page=1&page_size=100"]
    /\ list_view w' = Some v'
    /\ results v' = EntityRows Sample.three_entities
    /\ info v' = InfoAll (JNum 3).
Proof.
  assert (N : Forall (fun e => entityNameOf e <> None) Sample.three_entities).
  { repeat constructor; discriminate. }
  destruct (@filter_sets_pagination Sample.platform None Sample.at_browse_entities _
              (Sample.answer (JObj [("data", JArr Sample.three_entities)]))
              _ Sample.three_entities eq_refl eq_refl eq_refl eq_refl N)
    as (w' & v' & E & _ & _ & Rq & V & Rs & I & _).
  exists w', v'. rewrite Rq. repeat split; assumption.
Defined.

(* ================================================================= *)
(** ** Further edges *)

(** X22.  The buttons of the pagination stay inside the list: when the
    current page [c] is one of the pages [1..t] and [t] is not beyond
    [Number.MAX_SAFE_INTEGER], every button that
    [renderPaginationButtons(c, t, type)] makes leads to a page of
    [1..t] other than [c], there are at most two buttons, and a
    Previous button comes before a Next button. *)
Theorem pagination_targets_in_range (c t : Z) (type : string) :
  (1 <= c <= t)%Z ->
  (t <= maxSafeInteger)%Z ->
  Forall (fun b => (1 <= onclick_page b <= t)%Z /\ onclick_page b <> c)
         (renderPaginationButtons c t type)
  /\ (List.length (renderPaginationButtons c t type) <= 2)%nat
  /\ In (map label (renderPaginationButtons c t type))
        [[]; [Previous]; [Next]; [Previous; Next]].
Proof.
  intros Hc _. unfold renderPaginationButtons.
  destruct (t <=? 1)%Z eqn:E1; [cbn; auto|].
  destruct (c >? 1)%Z eqn:E2; destruct (c <? t)%Z eqn:E3; cbn;
    (split; [repeat constructor; cbn; lia|]); (split; [lia|]); auto 6.
Qed.

Lemma pagination_targets_in_range_witness :
  Forall (fun b => (1 <= onclick_page b <= 3)%Z /\ onclick_page b <> 2%Z)
         (renderPaginationButtons 2 3 "maps")
  /\ map label (renderPaginationButtons 2 3 "maps") = [Previous; Next].
Proof.
  destruct (@pagination_targets_in_range 2 3 "maps") as (F & _).
  - lia.
  - unfold maxSafeInteger. lia.
  - split; [exact F|reflexivity].
Defined.

(** X23.  In a document without a [#content-area], [navigateTo], for
    each of the page names the script navigates to, still moves the
    route, the address bar and the title, and then stops.  The address
    bar: when it is not at the path of the page already, one entry is
    pushed to the browser history, with the page and the two selections
    as its state and that path as its URL, and [location.pathname] is
    what the browser makes of the path; otherwise nothing is pushed.
    The title, when the document has one, is that of the page.  No page
    is rendered, no request is sent, no alert shows, and the
    administrator gate does not run, so [currentPage] ends as [page]
    whatever the session is. *)
Theorem navigateTo_without_content_area {P : Platform} (k : nat) (page : string)
        (add : bool) (w : World) :
  In page pageNames ->
  content_area (dom w) = None ->
  exists w',
    navigateTo (S k) page add w = Done tt w'
    /\ app w' = entered page add (app w)
    /\ currentPage (app w') = page
    /\ titled w'
    /\ pathname (dom w')
       = (if pathname (dom w)
             =? canonicalPath page (selectedMapId (app w)) (selectedEntityInfo (app w))
          then pathname (dom w)
          else pathnameOf (canonicalPath page (selectedMapId (app w))
                                         (selectedEntityInfo (app w))))
    /\ pushes w'
       = (pushes w
          ++ (if pathname (dom w)
                 =? canonicalPath page (selectedMapId (app w)) (selectedEntityInfo (app w))
              then []
              else [(historyState page (selectedMapId (app w))
                                  (selectedEntityInfo (app w)),
                     canonicalPath page (selectedMapId (app w))
                                   (selectedEntityInfo (app w)))]))%list
    /\ content_area (dom w') = None
    /\ renders w' = renders w /\ requests w' = requests w /\ alerts w' = alerts w.
Proof.
  intros _ Hc. unfold navigateTo.
  destruct (navigateTo_over_lands (loadCurrentPage (S k)) page add w)
    as (w1 & E1 & A1 & C1 & L1 & R1 & M1 & T1 & P1 & H1).
  rewrite E1, loadCurrentPage_S, C1, Hc.
  exists w1. rewrite A1, C1, Hc. repeat split; auto.
Qed.

Lemma navigateTo_without_content_area_witness :
  exists w',
    navigateTo (P := Sample.platform) 1 "admin-panel" true
      (set_dom (with_content_area None (dom Sample.session_ended)) Sample.session_ended)
    = Done tt w'
    /\ currentPage (app w') = "admin-panel"
    /\ pathname (dom w') = "/admin-panel"
    /\ map snd (pushes w') = ["/admin-panel"]
    /\ renders w' = [].
Proof.
  destruct (@navigateTo_without_content_area Sample.platform 0 "admin-panel" true
              (set_dom (with_content_area None (dom Sample.session_ended))
                       Sample.session_ended))
    as (w' & E & _ & C & _ & Pa & Pu & _ & R & _).
  - simpl. auto 10.
  - reflexivity.
  - exists w'. rewrite Pa, Pu. repeat split; assumption.
Defined.

(** X24.  [showMapDetails(mapId)] opens the page of that map:
    [selectedMapId] becomes [mapId], the page left is pushed on
    [pageHistory] unless it was the map page already, [#content-area]
    shows the map page, with the home link and the editing entry of an
    administrator exactly for an administrator's session, and one
    request goes out, the GET of [/api/maps/] followed by the text of
    the id. *)
Theorem showMapDetails_opens_map {P : Platform} (k : nat) (mapId : JsVal)
        (w : World) (c : Markup) :
  content_area (dom w) = Some c ->
  exists w',
    showMapDetails (S k) mapId w = Done tt w'
    /\ currentPage (app w') = "map-details"
    /\ selectedMapId (app w') = mapId
    /\ pageHistory (app w')
       = (pageHistory (app w)
          ++ (if "map-details" =? currentPage (app w)
              then [] else [currentPage (app w)]))%list
    /\ content_area (dom w')
       = Some (MapDetailsPage (if isAdminSession w then "admin-panel" else "home")
                              (isAdminSession w))
    /\ requests w' = (requests w ++ [GET ("/api/maps/" ++ Js.toString mapId)])%list.
Proof.
  intros Hc.
  unfold showMapDetails, modify, bind. cbn [bindT].
  set (w0 := set_app (with_selectedMapId mapId (app w)) w).
  destruct (@navigateTo_renders P k "map-details" true w0 c Hc)
    as (w1 & E1 & A1 & C1 & L1 & R1 & _).
  destruct (@entered_session _ _ _ _ A1) as (S1 & M1 & _ & _ & Cp).
  assert (Hh : pageHistory (app w1)
               = (pageHistory (app w)
                  ++ (if "map-details" =? currentPage (app w)
                      then [] else [currentPage (app w)]))%list).
  { rewrite A1. unfold entered. cbn [andb].
    change (currentPage (app w0)) with (currentPage (app w)).
    destruct ("map-details" =? currentPage (app w)); cbn [negb];
      [now rewrite app_nil_r|reflexivity]. }
  remember ("map-details" =? currentPage (app w)) as same eqn:Hsame.
  rewrite E1. unfold loadPageContent. cbn [String.eqb Ascii.eqb Bool.eqb].
  unfold loadMapDetails, loadMapDetailsData. exec.
  eexists. split; [reflexivity|].
  observe. rewrite S1, M1, R1, Cp, Hh. repeat split.
Qed.

Lemma showMapDetails_opens_map_witness :
  exists w',
    showMapDetails (P := Sample.platform) 1 JUndefined Sample.at_browse_entities
    = Done tt w'
    /\ content_area (dom w') = Some (MapDetailsPage "home" false)
    /\ map url (requests w') = ["/api/maps/undefined"].
Proof.
  destruct (@showMapDetails_opens_map Sample.platform 0 JUndefined
              Sample.at_browse_entities _ eq_refl)
    as (w' & E & _ & _ & _ & C & R).
  exists w'. rewrite R. repeat split; assumption.
Defined.
